(** * Sakura Launcher GUI: GPU identity and capacity planning

    A shallow embedding of [src/gpu.py] ([GPUDisplayHelper], [GPUManager]),
    of [src/sakura.py] ([SakuraCalculator], [SakuraList]) and of the
    settings file handling of [src/setting.py], with the properties of
    the design document stated and settled against it.

    Conventions of the embedding.
    - A Python [str] is a [string]; the operations the source uses ([in],
      [split], [rstrip], [int], [str], the [.2f] format) are written out
      in [Module PyStr] as CPython computes them.  [int] is the ASCII
      grammar of [PyLong_FromString]; the digits and spaces outside ASCII
      that CPython maps to ASCII first are not in the alphabet.
    - A Python exception is a value [Raise e] of the type [result]; a
      [try ... except] is a match on it.
    - The insertion-ordered [dict] [gpu_info_map] is an association list
      in insertion order.
    - A [float] holding a GiB figure is an exact rational ([Q]): a byte
      count below 2^53 divided by 2^30 is exact in binary64.
    - The manager's fields are threaded through [check_gpu_ability] and
      the detection pass, which return the manager they leave behind.
    - What the outside answers (the memory calculator, [get_nvidia_gpus],
      the Windows probes, the settings file) is a parameter or an
      argument; each such call returns or raises.  [merge_from] of
      [utils/gpu] is a function of the two records. *)

From Stdlib Require Import ZArith QArith Qround Qabs String Ascii List Bool Lia.
Import ListNotations.

Local Open Scope string_scope.
Local Open Scope Z_scope.

(** ** Exceptions *)

Inductive exn : Type :=
| ValueError
| IndexError
| KeyError
| OtherException (what : string).

Inductive result (A : Type) : Type :=
| Ok (a : A)
| Raise (e : exn).

Arguments Ok {A} a.
Arguments Raise {A} e.

Definition bind {A B : Type} (m : result A) (k : A -> result B) : result B :=
  match m with
  | Ok a => k a
  | Raise e => Raise e
  end.

Notation "x <- m ;; k" := (bind m (fun x => k))
  (at level 61, m at next level, right associativity).

(** [is_ValueError e]: the clause [except ValueError] catches [e]. *)
Definition is_ValueError (e : exn) : bool :=
  match e with ValueError => true | _ => false end.

(** [except (IndexError, ValueError)]. *)
Definition is_IndexError_or_ValueError (e : exn) : bool :=
  match e with ValueError | IndexError => true | _ => false end.

(** ** Python string operations *)

Module PyStr.

(** [sub] occurs at the start of [s]. *)
Fixpoint starts (sub s : string) : bool :=
  match sub with
  | EmptyString => true
  | String a sub' =>
      match s with
      | EmptyString => false
      | String b s' => Ascii.eqb a b && starts sub' s'
      end
  end.

(** [sub in s]. *)
Fixpoint contains (sub s : string) : bool :=
  match s with
  | EmptyString => starts sub EmptyString
  | String _ s' => starts sub s || contains sub s'
  end.

(** [s.split(sep)] for a non-empty [sep]: leftmost, non-overlapping
    occurrences.  [skip] counts the characters of a matched separator
    still to be dropped, [cur] is the current field, reversed. *)
Fixpoint split_go (sep : string) (skip : nat) (cur : list ascii) (s : string)
  : list string :=
  match s with
  | EmptyString => [string_of_list_ascii (rev cur)]
  | String c s' =>
      match skip with
      | S k => split_go sep k cur s'
      | O =>
          if starts sep s
          then string_of_list_ascii (rev cur)
                 :: split_go sep (String.length sep - 1) [] s'
          else split_go sep O (c :: cur) s'
      end
  end.

Definition split (sep s : string) : list string := split_go sep O [] s.

Definition mem (c : ascii) (chars : string) : bool :=
  existsb (Ascii.eqb c) (list_ascii_of_string chars).

(** [s.rstrip(chars)]. *)
Fixpoint rstrip (chars s : string) : string :=
  match s with
  | EmptyString => EmptyString
  | String c s' =>
      match rstrip chars s' with
      | EmptyString => if mem c chars then EmptyString else String c EmptyString
      | r => String c r
      end
  end.

(** [s.lstrip(chars)]. *)
Fixpoint lstrip (chars s : string) : string :=
  match s with
  | EmptyString => EmptyString
  | String c s' => if mem c chars then lstrip chars s' else s
  end.

(** The characters [Py_ISSPACE] accepts: tab, LF, VT, FF, CR, space. *)
Definition whitespace : string :=
  String (ascii_of_nat 9) (String (ascii_of_nat 10) (String (ascii_of_nat 11)
    (String (ascii_of_nat 12) (String (ascii_of_nat 13) " ")))).

(** [_PyLong_DigitValue]: the value of an alphanumeric character. *)
Definition digit_value (c : ascii) : option Z :=
  let n := Z.of_N (N_of_ascii c) in
  if (48 <=? n) && (n <=? 57) then Some (n - 48)
  else if (97 <=? n) && (n <=? 122) then Some (n - 97 + 10)
  else if (65 <=? n) && (n <=? 90) then Some (n - 65 + 10)
  else None.

Definition underscore : ascii := "_"%char.

(** The digit loop of [PyLong_FromString]: digits below [base], single
    underscores between them, at least one digit, nothing else up to the
    end of the (already stripped) text. *)
Fixpoint long_from_digits (base : Z) (s : string) (prev_underscore : bool)
    (digits : nat) (acc : Z) : result Z :=
  match s with
  | EmptyString =>
      if prev_underscore then Raise ValueError
      else match digits with
           | O => Raise ValueError
           | S _ => Ok acc
           end
  | String c s' =>
      if Ascii.eqb c underscore
      then if prev_underscore then Raise ValueError
           else long_from_digits base s' true digits acc
      else match digit_value c with
           | Some d =>
               if d <? base
               then long_from_digits base s' false (S digits) (acc * base + d)
               else Raise ValueError
           | None => Raise ValueError
           end
  end.

(** The optional sign in front of the digits. *)
Definition split_sign (s : string) : Z * string :=
  match s with
  | String c r =>
      if Ascii.eqb c "+" then (1, r)
      else if Ascii.eqb c "-" then (-1, r)
      else (1, s)
  | EmptyString => (1, s)
  end.

(** For base 16 a leading [0x] or [0X] is dropped, and one underscore
    after it. *)
Definition skip_base_prefix (base : Z) (s : string) : string :=
  match s with
  | String c (String x r) =>
      if Ascii.eqb c "0" && (base =? 16)
         && (Ascii.eqb x "x" || Ascii.eqb x "X")
      then match r with
           | String u r' => if Ascii.eqb u underscore then r' else r
           | EmptyString => r
           end
      else s
  | _ => s
  end.

(** [int(s, base)] for [base] 10 or 16: surrounding whitespace, an
    optional sign, for base 16 an optional [0x]/[0X], no leading
    underscore, then the digit loop; [ValueError] otherwise. *)
Definition int (s : string) (base : Z) : result Z :=
  let s1 := rstrip whitespace (lstrip whitespace s) in
  let '(sign, s2) := split_sign s1 in
  let s3 := skip_base_prefix base s2 in
  match s3 with
  | String c _ =>
      if Ascii.eqb c underscore then Raise ValueError
      else v <- long_from_digits base s3 false O 0 ;; Ok (sign * v)
  | EmptyString => v <- long_from_digits base s3 false O 0 ;; Ok (sign * v)
  end.

Definition digit_char (d : Z) : ascii := ascii_of_N (Z.to_N (48 + d)).

(** The decimal digits of a non-negative integer, most significant first. *)
Fixpoint digits_go (fuel : nat) (n : Z) (acc : string) : string :=
  match fuel with
  | O => acc
  | S fuel' =>
      let acc' := String (digit_char (n mod 10)) acc in
      if n <? 10 then acc' else digits_go fuel' (n / 10) acc'
  end.

Definition digits_of (n : Z) : string :=
  digits_go (S (Z.to_nat (Z.log2 n))) n EmptyString.

(** [str(n)] for an [int]. *)
Definition str (n : Z) : string :=
  if n <? 0 then String "-"%char (digits_of (- n)) else digits_of n.

(** [f"{x:.2f}"]: two decimals, the exact value rounded half to even. *)
Definition format_2f (x : Q) : string :=
  let a := Qabs x in
  let scaled := Qmult a (inject_Z 100) in
  let fl := Qfloor scaled in
  let frac := Qminus scaled (inject_Z fl) in
  let r :=
    match Qcompare frac (1 # 2)%Q with
    | Gt => fl + 1
    | Eq => if Z.even fl then fl else fl + 1
    | Lt => fl
    end in
  let body :=
    digits_of (r / 100) ++ "."
      ++ String (digit_char ((r mod 100) / 10))
           (String (digit_char (r mod 10)) EmptyString) in
  match Qcompare x (inject_Z 0) with
  | Lt => String "-"%char body
  | _ => body
  end.

(** Predicates for the statements below. *)

(** Every character of [s] satisfies [p]. *)
Fixpoint all_chars (p : ascii -> bool) (s : string) : bool :=
  match s with
  | EmptyString => true
  | String c s' => p c && all_chars p s'
  end.

Definition is_digit (c : ascii) : bool :=
  let n := Z.of_N (N_of_ascii c) in (48 <=? n) && (n <=? 57).

End PyStr.

(** ** Python containers *)

(** [l[i]] on a list, with Python's negative indices and [IndexError]. *)
Definition list_getitem {A : Type} (l : list A) (i : Z) : result A :=
  let n := Z.of_nat (List.length l) in
  let j := if i <? 0 then i + n else i in
  if (j <? 0) || (n <=? j) then Raise IndexError
  else match nth_error l (Z.to_nat j) with
       | Some x => Ok x
       | None => Raise IndexError
       end.

(** An insertion-ordered [dict] with [str] keys. *)
Definition dict (V : Type) : Type := list (string * V).

Fixpoint dict_get {V : Type} (d : dict V) (k : string) : option V :=
  match d with
  | [] => None
  | (k', v) :: d' => if String.eqb k' k then Some v else dict_get d' k
  end.

(** [k in d]. *)
Definition dict_in {V : Type} (k : string) (d : dict V) : bool :=
  match dict_get d k with Some _ => true | None => false end.

(** [d[k] = v]: the entry is replaced in place, a new key goes last. *)
Fixpoint dict_set {V : Type} (d : dict V) (k : string) (v : V) : dict V :=
  match d with
  | [] => [(k, v)]
  | (k', v') :: d' =>
      if String.eqb k' k then (k', v) :: d' else (k', v') :: dict_set d' k v
  end.

(** Truthiness of a [str]: [if s]. *)
Definition str_truthy (s : string) : bool :=
  match s with EmptyString => false | _ => true end.

(** Truthiness of an optional [str]: [None] and the empty text are false. *)
Definition opt_str_truthy (s : option string) : bool :=
  match s with Some t => str_truthy t | None => false end.

(** ** The device model ([utils/gpu]) *)

(** Modelled from the spec: the vendor enumeration [GPUType] of
    [utils/gpu] (not under src/), with the four members the source
    names. *)
Inductive GPUType : Type := NVIDIA | AMD | INTEL | UNKNOWN.

(** Modelled from the spec: the verdict [GPUAbility] of [utils/gpu] (not
    under src/), built by the source as [GPUAbility(is_capable, reason)]. *)
Record GPUAbility : Type := mkGPUAbility {
  is_capable : bool;
  reason : string
}.

(** Modelled from the spec: the device record [GPUInfo] of [utils/gpu]
    (not under src/), with the fields the source reads and writes. *)
Record GPUInfo : Type := mkGPUInfo {
  index : option Z;
  name : string;
  gpu_type : GPUType;
  dedicated_gpu_memory : Z;
  avail_dedicated_gpu_memory : option Z;
  pci_bus_id : option string;
  ability : option GPUAbility
}.

Definition set_ability (g : GPUInfo) (a : GPUAbility) : GPUInfo :=
  {| index := index g;
     name := name g;
     gpu_type := gpu_type g;
     dedicated_gpu_memory := dedicated_gpu_memory g;
     avail_dedicated_gpu_memory := avail_dedicated_gpu_memory g;
     pci_bus_id := pci_bus_id g;
     ability := Some a |}.

(** Modelled from the spec: [BytesToGiB] of [utils] (not under src/), the
    conversion of a byte count to the GiB figure the capacity checks
    compare and print: the byte count over 2^30. *)
Definition BytesToGiB (b : Z) : Q := Qmake b (2 ^ 30).

(** [g] is the byte count [b] in GiB, rounded up to a whole number. *)
Definition rounded_up_gib (b g : Z) : Prop :=
  (g - 1) * 2 ^ 30 < b <= g * 2 ^ 30.

(** [x < y] on GiB figures. *)
Definition Qltb (x y : Q) : bool := negb (Qle_bool y x).

(** ** GPUDisplayHelper *)

Module GPUDisplayHelper.

Definition marker : string := " (GPU ".

Definition create_display_name (gpu_info : GPUInfo) (index : Z) : string :=
  if opt_str_truthy (pci_bus_id gpu_info)
  then name gpu_info ++ marker ++ PyStr.str index ++ ")"
  else name gpu_info.

(** The unpacking [name_part, index_part = ...split(...)] stands before
    the [try]: a split into other than two fields raises [ValueError]
    to the caller.  Only [int] is inside the [try]. *)
Definition parse_display_name (display_name : string)
  : result (string * option Z) :=
  if PyStr.contains marker display_name && PyStr.contains ")" display_name
  then
    match PyStr.split marker display_name with
    | [name_part; index_part] =>
        match PyStr.int (PyStr.rstrip ")" index_part) 10 with
        | Ok index => Ok (name_part, Some index)
        | Raise e =>
            if is_ValueError e then Ok (display_name, None) else Raise e
        end
    | _ => Raise ValueError
    end
  else Ok (display_name, None).

(** The loop collecting the keys whose device has the parsed name. *)
Fixpoint matching_keys (gpu_name : string) (items : dict GPUInfo)
  : list string :=
  match items with
  | [] => []
  | (key, info) :: rest =>
      if String.eqb (name info) gpu_name
      then key :: matching_keys gpu_name rest
      else matching_keys gpu_name rest
  end.

Definition find_gpu_key (display_name : string) (gpu_info_map : dict GPUInfo)
  : result (option string) :=
  if dict_in display_name gpu_info_map then Ok (Some display_name)
  else
    p <- parse_display_name display_name ;;
    let '(gpu_name, gpu_index) := p in
    let keys := matching_keys gpu_name gpu_info_map in
    match keys with
    | [] => Ok None
    | _ :: _ =>
        match gpu_index with
        | Some i =>
            if i <? Z.of_nat (List.length keys)
            then k <- list_getitem keys i ;; Ok (Some k)
            else k <- list_getitem keys 0 ;; Ok (Some k)
        | None => k <- list_getitem keys 0 ;; Ok (Some k)
        end
    end.

Definition match_gpu_name (display_name target_name : string) : result bool :=
  p <- parse_display_name display_name ;;
  Ok (PyStr.contains target_name (fst p)).

End GPUDisplayHelper.

(** ** Model profiles and the calculator ([sakura.py]) *)

Record Sakura : Type := mkSakura {
  repo : string;
  filename : string;
  sha256 : string;
  size : Q;
  minimal_gpu_memory_gib : Z;   (* zero means no minimum requirement *)
  recommended_np : list (Z * Z);
  base_model_hf : string;
  bpw : Q;
  config_cache : option (dict string)
}.

(** The argument of the external [ModelCalculator], with the fields
    [to_model_config] fills. *)
Record ModelConfig : Type := mkModelConfig {
  hf_model : string;
  context : Z;
  batch_size : Z;
  bytes_per_weight : Q;
  model_config_cache : option (dict string)
}.

Definition to_model_config (self : Sakura) (context : Z) : ModelConfig :=
  {| hf_model := base_model_hf self;
     context := context;
     batch_size := 512;
     bytes_per_weight := bpw self;
     model_config_cache := config_cache self |}.

(** Modelled from the spec: the answer of the external calculator
    ([utils/model_size_cauculator], not under src/), of which the
    capacity planner reads [total_size_gib]. *)
Record Sizes : Type := mkSizes {
  total_size_gib : Q
}.

(** The dictionary [recommend_config] returns. *)
Record Config : Type := mkConfig {
  context_length : Z;
  n_parallel : Z
}.

(** [SakuraList.__getitem__]: the first model of that file name, or [None]. *)
Fixpoint SakuraList_getitem (_list : list Sakura) (name : string)
  : option Sakura :=
  match _list with
  | [] => None
  | model :: rest =>
      if String.eqb (filename model) name then Some model
      else SakuraList_getitem rest name
  end.

(** [range(n, 0, -1)]. *)
Fixpoint range_down (n : nat) : list Z :=
  match n with
  | O => []
  | S k => Z.of_nat n :: range_down k
  end.

Section Calculator.

(** [ModelCalculator(config).calculate_sizes()], external to this
    module: it answers with the sizes or raises. *)
Variable calculate_sizes : ModelConfig -> result Sizes.

Definition calculate_memory_requirements (sakura : Sakura) (context_length : Z)
  : result Sizes :=
  calculate_sizes (to_model_config sakura context_length).

(** The body of [for np in range(16, 0, -1)], with [break] on the first
    candidate that fits. *)
Fixpoint recommend_loop (sakura : Sakura) (available_memory_gib : Q)
    (candidates : list Z) (best_config : Config) : result Config :=
  match candidates with
  | [] => Ok best_config
  | np :: rest =>
      let ctx := 1536 * np in
      mem_req <- calculate_memory_requirements sakura ctx ;;
      if Qle_bool (total_size_gib mem_req) available_memory_gib
      then Ok {| context_length := ctx; n_parallel := np |}
      else recommend_loop sakura available_memory_gib rest best_config
  end.

Definition recommend_config (sakura : Sakura) (available_memory_gib : Q)
  : result Config :=
  recommend_loop sakura available_memory_gib (range_down 16)
    {| context_length := 1536; n_parallel := 1 |}.

End Calculator.

(** ** GPUManager *)

Record GPUManager : Type := mkGPUManager {
  gpu_info_map : dict GPUInfo;
  nvidia_gpus : list string;
  amd_gpus : list string;
  intel_gpus : list string
}.

Definition nl : string := String (ascii_of_nat 10) EmptyString.

Module Msg.
Definition not_found : string := "未找到显卡对应的参数信息".
Definition unsupported : string := "目前只支持 NVIDIA 和 AMD 的显卡".
Definition insufficient (gpu_name : string) : string :=
  "显卡 " ++ gpu_name ++ " 的显存不足" ++ nl.
Definition dynamic (gpu_name : string) (need avail total : Q) : string :=
  insufficient gpu_name
    ++ "预计需要 " ++ PyStr.format_2f need ++ " GiB 显存" ++ nl
    ++ "当前系统只有 " ++ PyStr.format_2f avail ++ " GiB 剩余显存" ++ nl
    ++ "总显存: " ++ PyStr.format_2f total ++ " GiB".
Definition fallback (gpu_name : string) (need avail : Q) : string :=
  insufficient gpu_name
    ++ "至少需要 " ++ PyStr.format_2f need ++ " GiB 显存" ++ nl
    ++ "当前系统只有 " ++ PyStr.format_2f avail ++ " GiB 剩余显存".
Definition static (gpu_name : string) (need total : Q) : string :=
  insufficient gpu_name
    ++ "至少需要 " ++ PyStr.format_2f need ++ " GiB 显存" ++ nl
    ++ "当前显卡总显存为 " ++ PyStr.format_2f total ++ " GiB".
End Msg.

Definition capable : GPUAbility := {| is_capable := true; reason := "" |}.

(** [get_gpu_index_from_pci]: the second [:]-field read as base 16; the
    [try] catches [IndexError] and [ValueError] and falls through to
    [return 0]. *)
Definition get_gpu_index_from_pci (pci_bus_id : string) : result Z :=
  let body : result (option Z) :=
    if str_truthy pci_bus_id && PyStr.contains ":" pci_bus_id
    then
      device_id <- list_getitem (PyStr.split ":" pci_bus_id) 1 ;;
      v <- PyStr.int device_id 16 ;;
      Ok (Some v)
    else Ok None in
  match body with
  | Ok (Some v) => Ok v
  | Ok None => Ok 0
  | Raise e => if is_IndexError_or_ValueError e then Ok 0 else Raise e
  end.

(** [d[k]] on a [dict]: [KeyError] for a missing key. *)
Definition dict_getitem {V : Type} (d : dict V) (k : string) : result V :=
  match dict_get d k with
  | Some v => Ok v
  | None => Raise KeyError
  end.

(** Truthiness of the [str|None] that [find_gpu_key] returns. *)
Definition key_truthy (gpu_key : option string) : bool := opt_str_truthy gpu_key.

Definition supported (t : GPUType) : bool :=
  match t with NVIDIA | AMD => true | _ => false end.

Section Manager.

Variable calculate_sizes : ModelConfig -> result Sizes.

(** The process-wide catalogue [SAKURA_LIST], passed explicitly. *)
Variable SAKURA_LIST : list Sakura.

(** The body of the [try] of [_check_dynamic_memory]: the verdict it
    returns from inside, [None] when it falls out of the [try], or what
    the calculator raised. *)
Definition dynamic_attempt (gpu_info : GPUInfo) (model : Sakura) (gpu_mem : Z)
    (context_length n_parallel : option Z) : result (option GPUAbility) :=
  let gpu_mem_gib := BytesToGiB gpu_mem in
  let total_mem_gib := BytesToGiB (dedicated_gpu_memory gpu_info) in
  config <-
    match context_length, n_parallel with
    | Some c, Some n => Ok {| context_length := c; n_parallel := n |}
    | _, _ => recommend_config calculate_sizes model gpu_mem_gib
    end ;;
  let 'mkConfig config_context_length _ := config in
  memory_usage <-
    calculate_memory_requirements calculate_sizes model config_context_length ;;
  if Qltb gpu_mem_gib (total_size_gib memory_usage)
  then Ok (Some {| is_capable := false;
                   reason := Msg.dynamic (name gpu_info)
                               (total_size_gib memory_usage)
                               gpu_mem_gib total_mem_gib |})
  else Ok None.

Definition _check_dynamic_memory (gpu_info : GPUInfo) (model_name : string)
    (context_length n_parallel : option Z) : result GPUAbility :=
  match avail_dedicated_gpu_memory gpu_info with
  | None => Raise (OtherException "TypeError")
  | Some gpu_mem =>
      let gpu_mem_gib := BytesToGiB gpu_mem in
      match SakuraList_getitem SAKURA_LIST model_name with
      | None => Ok capable
      | Some model =>
          match dynamic_attempt gpu_info model gpu_mem
                  context_length n_parallel with
          | Ok (Some verdict) => Ok verdict
          | Ok None => Ok capable
          | Raise _ =>
              (* except Exception: the basic check, on the live reading *)
              let gpu_mem_req_gib := minimal_gpu_memory_gib model in
              if negb (gpu_mem_req_gib =? 0)
                 && Qltb gpu_mem_gib (inject_Z gpu_mem_req_gib)
              then Ok {| is_capable := false;
                         reason := Msg.fallback (name gpu_info)
                                     (inject_Z gpu_mem_req_gib) gpu_mem_gib |}
              else Ok capable
          end
      end
  end.

(** The GiB figure of the static check: [math.ceil] of it when the byte
    count exceeds 2^30, the figure itself otherwise. *)
Definition static_gib (gpu_mem : Z) : Q :=
  if gpu_mem >? 2 ^ 30
  then inject_Z (Qceiling (BytesToGiB gpu_mem))
  else BytesToGiB gpu_mem.

Definition _check_static_memory (gpu_info : GPUInfo) (model_name : string)
  : GPUAbility :=
  let gpu_mem := dedicated_gpu_memory gpu_info in
  let gpu_mem_gib := static_gib gpu_mem in
  match SakuraList_getitem SAKURA_LIST model_name with
  | Some model =>
      let gpu_mem_req_gib := minimal_gpu_memory_gib model in
      if negb (gpu_mem_req_gib =? 0)
         && Qltb gpu_mem_gib (inject_Z gpu_mem_req_gib)
      then {| is_capable := false;
              reason := Msg.static (name gpu_info)
                          (inject_Z gpu_mem_req_gib) gpu_mem_gib |}
      else capable
  | None => capable
  end.

(** [check_gpu_ability] returns its verdict (or the exception that
    escapes it) and the manager after the call: [gpu_info.ability =
    ability] updates the entry of the map the device was read from. *)
Definition check_gpu_ability (self : GPUManager)
    (gpu_display_name model_name : string)
    (context_length n_parallel : option Z)
  : result GPUAbility * GPUManager :=
  match GPUDisplayHelper.find_gpu_key gpu_display_name (gpu_info_map self) with
  | Raise e => (Raise e, self)
  | Ok gpu_key =>
      if negb (key_truthy gpu_key)
         || negb (match gpu_key with
                  | Some k => dict_in k (gpu_info_map self)
                  | None => false
                  end)
      then (Ok {| is_capable := false; reason := Msg.not_found |}, self)
      else
        let k := match gpu_key with Some k => k | None => "" end in
        match dict_getitem (gpu_info_map self) k with
        | Raise e => (Raise e, self)
        | Ok gpu_info =>
            if negb (supported (gpu_type gpu_info))
            then (Ok {| is_capable := false; reason := Msg.unsupported |},
                  self)
            else
              let verdict :=
                match avail_dedicated_gpu_memory gpu_info with
                | Some _ =>
                    _check_dynamic_memory gpu_info model_name
                      context_length n_parallel
                | None => Ok (_check_static_memory gpu_info model_name)
                end in
              match verdict with
              | Raise e => (Raise e, self)
              | Ok ability =>
                  (Ok ability,
                   {| gpu_info_map :=
                        dict_set (gpu_info_map self) k
                          (set_ability gpu_info ability);
                      nvidia_gpus := nvidia_gpus self;
                      amd_gpus := amd_gpus self;
                      intel_gpus := intel_gpus self |})
              end
        end
  end.

End Manager.

(** [set_gpu_env]: the environment after the call. *)
Definition set_gpu_env (self : GPUManager) (env : dict string)
    (selected_gpu_display_name : string) (selected_index : Z)
  : result (dict string) :=
  gpu_key <- GPUDisplayHelper.find_gpu_key selected_gpu_display_name
               (gpu_info_map self) ;;
  if negb (key_truthy gpu_key) then Ok env
  else
    let k := match gpu_key with Some k => k | None => "" end in
    gpu_info <- dict_getitem (gpu_info_map self) k ;;
    match gpu_type gpu_info with
    | NVIDIA => Ok (dict_set env "CUDA_VISIBLE_DEVICES" (PyStr.str selected_index))
    | AMD =>
        Ok (dict_set env "HIP_VISIBLE_DEVICES"
              (PyStr.str (selected_index - Z.of_nat (List.length (nvidia_gpus self)))))
    | _ => Ok env
    end.

(** ** Notions used in the statements *)

(** The manager after [gpu_info.ability = ability] on the device at [k]. *)
Definition cached (self : GPUManager) (k : string) (info : GPUInfo)
    (a : GPUAbility) : GPUManager :=
  {| gpu_info_map := dict_set (gpu_info_map self) k (set_ability info a);
     nvidia_gpus := nvidia_gpus self;
     amd_gpus := amd_gpus self;
     intel_gpus := intel_gpus self |}.

(** The context length of the first calculator call of a dynamic check:
    the caller's when both parameters are given, else the first
    candidate of the recommendation search. *)
Definition first_context (ctx np : option Z) : Z :=
  match ctx, np with
  | Some c, Some _ => c
  | _, _ => 1536 * 16
  end.

(** What the calculator is to be asked for a model and the parallelism
    [p]: the model's base model, weight width and cached configuration,
    a context of [1536 * p] tokens and the batch size 512. *)
Definition request (sakura : Sakura) (p : Z) : ModelConfig :=
  {| hf_model := base_model_hf sakura;
     context := 1536 * p;
     batch_size := 512;
     bytes_per_weight := bpw sakura;
     model_config_cache := config_cache sakura |}.

Section SearchNotions.

Variable calculate_sizes : ModelConfig -> result Sizes.
Variable sakura : Sakura.
Variable available_memory_gib : Q.

(** The calculator answers for parallelism [p] and the answer fits. *)
Definition fits (p : Z) : Prop :=
  exists sz,
    calculate_sizes (request sakura p) = Ok sz /\
    Qle (total_size_gib sz) available_memory_gib.

(** The calculator answers for parallelism [p] and the answer is too big. *)
Definition too_big (p : Z) : Prop :=
  exists sz,
    calculate_sizes (request sakura p) = Ok sz /\
    Qlt available_memory_gib (total_size_gib sz).

Definition answers (p : Z) : Prop :=
  exists sz, calculate_sizes (request sakura p) = Ok sz.

End SearchNotions.

(** ** Concrete hosts and catalogues used by the examples below *)

Module Fixture.

Definition device (name : string) (t : GPUType) (total : Z)
    (avail : option Z) (pci : option string) : GPUInfo :=
  {| index := None; name := name; gpu_type := t;
     dedicated_gpu_memory := total; avail_dedicated_gpu_memory := avail;
     pci_bus_id := pci; ability := None |}.

Definition model (file : string) (minimum : Z) : Sakura :=
  {| repo := "repo"; filename := file; sha256 := ""; size := inject_Z 0;
     minimal_gpu_memory_gib := minimum; recommended_np := [];
     base_model_hf := "base"; bpw := inject_Z 1; config_cache := None |}.

Definition manager (m : dict GPUInfo) (nvidia : list string) : GPUManager :=
  {| gpu_info_map := m; nvidia_gpus := nvidia; amd_gpus := [];
     intel_gpus := [] |}.

(** A calculator that always raises. *)
Definition broken_calculator (_ : ModelConfig) : result Sizes :=
  Raise (OtherException "calculator").

(** A calculator asking 1.2 GiB for each 1536 tokens of context. *)
Definition linear_calculator (c : ModelConfig) : result Sizes :=
  Ok {| total_size_gib := Qmake (12 * context c) (10 * 1536) |}.

Definition GiB : Z := 2 ^ 30.

End Fixture.

(** Two NVIDIA cards and one AMD card, detected in that order. *)
Module TwoNvidiaOneAmd.
Definition rtx (pci : string) : GPUInfo :=
  Fixture.device "NVIDIA GeForce RTX 3090" NVIDIA (24 * Fixture.GiB)
    (Some (20 * Fixture.GiB)) (Some pci).
Definition radeon : GPUInfo :=
  Fixture.device "AMD Radeon RX 7900 XTX" AMD (24 * Fixture.GiB) None None.
Definition host : GPUManager :=
  Fixture.manager
    [("00000000:01:00.0", rtx "00000000:01:00.0");
     ("00000000:02:00.0", rtx "00000000:02:00.0");
     ("AMD Radeon RX 7900 XTX", radeon)]
    ["NVIDIA GeForce RTX 3090 (GPU 1)"; "NVIDIA GeForce RTX 3090 (GPU 2)"].
End TwoNvidiaOneAmd.

(** A card of one byte more than 1 GiB and a model asking for 2 GiB. *)
Module OneGiBCard.
Definition card : GPUInfo :=
  Fixture.device "GeForce GT 710" NVIDIA (2 ^ 30 + 1) None None.
Definition host : GPUManager :=
  Fixture.manager [("GeForce GT 710", card)] ["GeForce GT 710"].
Definition catalogue : list Sakura := [Fixture.model "sakura.gguf" 2].
End OneGiBCard.

Module BusyCard.
(** 8 GiB in total, 1 GiB free; the model asks for at least 4 GiB. *)
Definition card : GPUInfo :=
  Fixture.device "NVIDIA GeForce RTX 3070" NVIDIA (8 * Fixture.GiB)
    (Some (1 * Fixture.GiB)) (Some "00000000:01:00.0").
Definition host : GPUManager :=
  Fixture.manager [("00000000:01:00.0", card)]
    ["NVIDIA GeForce RTX 3070 (GPU 1)"].
Definition catalogue : list Sakura := [Fixture.model "sakura.gguf" 4].
End BusyCard.

(** ** Further notions used in the statements *)

(** The labels whose split [parse_display_name] cannot unpack: the marker
    and a closing parenthesis occur, and the split on the marker has
    other than two fields. *)
Definition unpack_fails (label : string) : bool :=
  PyStr.contains GPUDisplayHelper.marker label
  && PyStr.contains ")" label
  && negb (Nat.eqb (List.length (PyStr.split GPUDisplayHelper.marker label)) 2).

(** Two device records that differ at most in the cached [ability]. *)
Definition same_device (a b : GPUInfo) : Prop :=
  index a = index b /\
  name a = name b /\
  gpu_type a = gpu_type b /\
  dedicated_gpu_memory a = dedicated_gpu_memory b /\
  avail_dedicated_gpu_memory a = avail_dedicated_gpu_memory b /\
  pci_bus_id a = pci_bus_id b.

(** ** Detection ([GPUManager.detect_gpus] and what it calls) *)

(** [c.upper()] on an ASCII letter; other bytes are kept. *)
Definition str_upper_char (c : ascii) : ascii :=
  let n := N_of_ascii c in
  if (N.leb 97 n && N.leb n 122)%bool then ascii_of_N (n - 32) else c.

(** [s.upper()] for a device name of ASCII characters, as drivers
    report them; bytes of characters outside ASCII are kept. *)
Fixpoint str_upper (s : string) : string :=
  match s with
  | EmptyString => EmptyString
  | String c s' => String (str_upper_char c) (str_upper s')
  end.

Definition get_gpu_type (gpu_name : string) : GPUType :=
  if PyStr.contains "NVIDIA" (str_upper gpu_name) then NVIDIA
  else if PyStr.contains "AMD" (str_upper gpu_name)
          || PyStr.contains "ATI" (str_upper gpu_name) then AMD
  else UNKNOWN.

Definition with_nvidia_gpus (self : GPUManager) (l : list string) : GPUManager :=
  {| gpu_info_map := gpu_info_map self; nvidia_gpus := l;
     amd_gpus := amd_gpus self; intel_gpus := intel_gpus self |}.

Definition with_amd_gpus (self : GPUManager) (l : list string) : GPUManager :=
  {| gpu_info_map := gpu_info_map self; nvidia_gpus := nvidia_gpus self;
     amd_gpus := l; intel_gpus := intel_gpus self |}.

Definition with_intel_gpus (self : GPUManager) (l : list string) : GPUManager :=
  {| gpu_info_map := gpu_info_map self; nvidia_gpus := nvidia_gpus self;
     amd_gpus := amd_gpus self; intel_gpus := l |}.

Definition with_gpu_info_map (self : GPUManager) (m : dict GPUInfo) : GPUManager :=
  {| gpu_info_map := m; nvidia_gpus := nvidia_gpus self;
     amd_gpus := amd_gpus self; intel_gpus := intel_gpus self |}.

(** [get_gpu_index_from_pci(gpu_info.pci_bus_id) if gpu_info.pci_bus_id
    else len(self.nvidia_gpus)]. *)
Definition nvidia_index (self : GPUManager) (gpu_info : GPUInfo) : result Z :=
  match pci_bus_id gpu_info with
  | Some pci =>
      if str_truthy pci then get_gpu_index_from_pci pci
      else Ok (Z.of_nat (List.length (nvidia_gpus self)))
  | None => Ok (Z.of_nat (List.length (nvidia_gpus self)))
  end.

(** [__add_gpu_to_list]: the outcome and the manager after the call. *)
Definition __add_gpu_to_list (self : GPUManager) (gpu_info : GPUInfo)
  : result unit * GPUManager :=
  match gpu_type gpu_info with
  | NVIDIA =>
      match nvidia_index self gpu_info with
      | Raise e => (Raise e, self)
      | Ok gpu_index =>
          let display_name :=
            GPUDisplayHelper.create_display_name gpu_info gpu_index in
          (Ok tt, with_nvidia_gpus self (nvidia_gpus self ++ [display_name]))
      end
  | AMD => (Ok tt, with_amd_gpus self (amd_gpus self ++ [name gpu_info]))
  | INTEL => (Ok tt, with_intel_gpus self (intel_gpus self ++ [name gpu_info]))
  | UNKNOWN => (Ok tt, self)
  end.

(** [gpu_info.pci_bus_id if gpu_info.pci_bus_id else gpu_info.name]. *)
Definition nvidia_key (gpu_info : GPUInfo) : string :=
  match pci_bus_id gpu_info with
  | Some pci => if str_truthy pci then pci else name gpu_info
  | None => name gpu_info
  end.

Section Detection.

(** [existing.merge_from(incoming)] of [utils/gpu], external to this
    module: the record the existing entry becomes. *)
Variable merge_from : GPUInfo -> GPUInfo -> GPUInfo.

(** The loop of [__universal_detect_nvidia_gpu] over what
    [get_nvidia_gpus()] returned. *)
Fixpoint detect_nvidia_loop (self : GPUManager) (nvidia_gpu_info : list GPUInfo)
  : result unit * GPUManager :=
  match nvidia_gpu_info with
  | [] => (Ok tt, self)
  | gpu_info :: rest =>
      let gpu_key := nvidia_key gpu_info in
      match nvidia_index self gpu_info with
      | Raise e => (Raise e, self)
      | Ok gpu_index =>
          let display_name :=
            GPUDisplayHelper.create_display_name gpu_info gpu_index in
          let self1 := with_nvidia_gpus self (nvidia_gpus self ++ [display_name]) in
          let self2 :=
            match dict_get (gpu_info_map self1) gpu_key with
            | Some existing =>
                with_gpu_info_map self1
                  (dict_set (gpu_info_map self1) gpu_key
                     (merge_from existing gpu_info))
            | None =>
                with_gpu_info_map self1
                  (dict_set (gpu_info_map self1) gpu_key gpu_info)
            end in
          detect_nvidia_loop self2 rest
      end
  end.

(** [__universal_detect_nvidia_gpu], given what the call of
    [get_nvidia_gpus()] does.  The call stands outside any [try] and
    after [self.nvidia_gpus = []]: what it raises leaves the method, the
    list already emptied. *)
Definition __universal_detect_nvidia_gpu (self : GPUManager)
    (get_nvidia_gpus : result (list GPUInfo)) : result unit * GPUManager :=
  let self0 := with_nvidia_gpus self [] in
  match get_nvidia_gpus with
  | Raise e => (Raise e, self0)
  | Ok nvidia_gpu_info => detect_nvidia_loop self0 nvidia_gpu_info
  end.

Definition detect_gpus_linux (self : GPUManager)
    (get_nvidia_gpus : result (list GPUInfo)) : result unit * GPUManager :=
  __universal_detect_nvidia_gpu self get_nvidia_gpus.

(** An adapter record of [windows.get_gpu_mem_info()]; [pci_bus_id] is
    [None] when the record has no such attribute. *)
Record Adapter : Type := mkAdapter {
  AdapterString : string;
  MemorySize : Z;
  adapter_pci_bus_id : option string
}.

(** The loop of the static probe of [detect_gpus_windows].  The record it
    builds is [GPUInfo(index=None, name=..., gpu_type=...,
    dedicated_gpu_memory=..., pci_bus_id=...)], the fields it does not
    name being [None]. *)
Fixpoint static_probe_loop (self : GPUManager) (adapter_values : list Adapter)
  : result unit * GPUManager :=
  match adapter_values with
  | [] => (Ok tt, self)
  | adapter :: rest =>
      let name := AdapterString adapter in
      let gpu_type := get_gpu_type name in
      let dedicated_gpu_memory := MemorySize adapter in
      let gpu_key :=
        match adapter_pci_bus_id adapter with
        | Some pci => pci
        | None => name
        end in
      if negb (dict_in gpu_key (gpu_info_map self))
      then
        let gpu_info :=
          {| index := None; name := name; gpu_type := gpu_type;
             dedicated_gpu_memory := dedicated_gpu_memory;
             avail_dedicated_gpu_memory := None;
             pci_bus_id := adapter_pci_bus_id adapter;
             ability := None |} in
        match __add_gpu_to_list self gpu_info with
        | (Raise e, self1) => (Raise e, self1)
        | (Ok _, self1) =>
            static_probe_loop
              (with_gpu_info_map self1
                 (dict_set (gpu_info_map self1) gpu_key gpu_info))
              rest
        end
      else static_probe_loop self rest
  end.

(** [if "AMD" in gpu.Name or "ATI" in gpu.Name], without change of case. *)
Definition is_amd_controller (gpu_name : string) : bool :=
  PyStr.contains "AMD" gpu_name || PyStr.contains "ATI" gpu_name.

(** What the outside gives a detection pass: [platform.system()], the
    outcome of [get_nvidia_gpus()], and on Windows the outcomes of
    [windows.get_gpu_mem_info()] and of [wmi]'s [Win32_VideoController]
    names; each of the three calls returns or raises. *)
Record Probes : Type := mkProbes {
  platform_system : string;
  nvidia_gpu_info : result (list GPUInfo);
  adapter_values : result (list Adapter);
  video_controllers : result (list string)
}.

Definition detect_gpus_windows (self : GPUManager) (probes : Probes)
  : result unit * GPUManager :=
  (* try: the static probe; except Exception: logged *)
  let self1 :=
    match adapter_values probes with
    | Ok adapters => snd (static_probe_loop self adapters)
    | Raise _ => self
    end in
  match __universal_detect_nvidia_gpu self1 (nvidia_gpu_info probes) with
  | (Raise e, self2) => (Raise e, self2)
  | (Ok _, self2) =>
      (* try: the AMD list; except Exception: logged *)
      match video_controllers probes with
      | Ok names =>
          (Ok tt, with_amd_gpus self2 (rev (filter is_amd_controller names)))
      | Raise _ => (Ok tt, self2)
      end
  end.

Definition detect_gpus (self : GPUManager) (probes : Probes)
  : result unit * GPUManager :=
  if String.eqb (platform_system probes) "Windows"
  then detect_gpus_windows self probes
  else if String.eqb (platform_system probes) "Linux"
  then detect_gpus_linux self (nvidia_gpu_info probes)
  else (Ok tt, self).

(** [GPUManager.__init__]. *)
Definition GPUManager_init (probes : Probes) : result unit * GPUManager :=
  detect_gpus
    {| gpu_info_map := []; nvidia_gpus := []; amd_gpus := []; intel_gpus := [] |}
    probes.

End Detection.

(** The label [__universal_detect_nvidia_gpu] gives a report: the name,
    and with a bus id the index read from it. *)
Definition nvidia_label (gpu_info : GPUInfo) : string :=
  match pci_bus_id gpu_info with
  | Some pci =>
      if str_truthy pci
      then match get_gpu_index_from_pci pci with
           | Ok i => GPUDisplayHelper.create_display_name gpu_info i
           | Raise _ => name gpu_info
           end
      else name gpu_info
  | None => name gpu_info
  end.

Section MergedMap.

Variable merge_from : GPUInfo -> GPUInfo -> GPUInfo.

(** The device map after the detection loop, as a function of the map
    before and the reports. *)
Fixpoint merged_map (m : dict GPUInfo) (reports : list GPUInfo) : dict GPUInfo :=
  match reports with
  | [] => m
  | g :: rest =>
      merged_map
        (match dict_get m (nvidia_key g) with
         | Some existing => dict_set m (nvidia_key g) (merge_from existing g)
         | None => dict_set m (nvidia_key g) g
         end)
        rest
  end.

(** The reports stored under the key [k], in report order. *)
Definition reports_of (k : string) (reports : list GPUInfo) : list GPUInfo :=
  filter (fun g => String.eqb (nvidia_key g) k) reports.

(** What the reports make of the entry of one key. *)
Definition merged_entry (before : option GPUInfo) (reports : list GPUInfo)
  : option GPUInfo :=
  match before with
  | Some existing => Some (fold_left merge_from reports existing)
  | None =>
      match reports with
      | [] => None
      | g :: rest => Some (fold_left merge_from rest g)
      end
  end.

End MergedMap.

(** The key the static probe files an adapter under:
    [adapter.pci_bus_id if hasattr(adapter, 'pci_bus_id') else name]. *)
Definition adapter_key (adapter : Adapter) : string :=
  match adapter_pci_bus_id adapter with
  | Some pci => pci
  | None => AdapterString adapter
  end.

(** The manager after the static probe of the Windows pass. *)
Definition after_static_probe (self : GPUManager) (probes : Probes) : GPUManager :=
  match adapter_values probes with
  | Ok adapters => snd (static_probe_loop self adapters)
  | Raise _ => self
  end.


(** ** The model catalogue ([SakuraList]) *)

(** One entry of [data_json["sakura"]]: a JSON object, each of the keys
    the constructor call reads being present with its value or missing. *)
Record SakuraObj : Type := mkSakuraObj {
  obj_repo : option string;
  obj_filename : option string;
  obj_sha256 : option string;
  obj_minimal_gpu_memory_gib : option Z;
  obj_size : option Q;
  obj_recommended_np : option (list (Z * Z));
  obj_base_model_hf : option string;
  obj_bpw : option Q;
  obj_config_cache : option (option (dict string))
}.

(** [obj[key]]: [KeyError] for a missing key. *)
Definition obj_getitem {A : Type} (field : option A) : result A :=
  match field with
  | Some v => Ok v
  | None => Raise KeyError
  end.

(** [Sakura(repo=obj["repo"], ...)], the keys read in the order of the
    call. *)
Definition build_sakura (obj : SakuraObj) : result Sakura :=
  repo <- obj_getitem (obj_repo obj) ;;
  filename <- obj_getitem (obj_filename obj) ;;
  sha256 <- obj_getitem (obj_sha256 obj) ;;
  minimal_gpu_memory_gib <- obj_getitem (obj_minimal_gpu_memory_gib obj) ;;
  size <- obj_getitem (obj_size obj) ;;
  recommended_np <- obj_getitem (obj_recommended_np obj) ;;
  base_model_hf <- obj_getitem (obj_base_model_hf obj) ;;
  bpw <- obj_getitem (obj_bpw obj) ;;
  config_cache <- obj_getitem (obj_config_cache obj) ;;
  Ok {| repo := repo; filename := filename; sha256 := sha256; size := size;
        minimal_gpu_memory_gib := minimal_gpu_memory_gib;
        recommended_np := recommended_np; base_model_hf := base_model_hf;
        bpw := bpw; config_cache := config_cache |}.

(** [self.download_links], set by [Sakura.__init__]. *)
Definition download_links (self : Sakura) : dict string :=
  [("HFMirror",
    "https://hf-mirror.com/SakuraLLM/" ++ repo self ++ "/resolve/main/"
      ++ filename self);
   ("HuggingFace",
    "https://huggingface.co/SakuraLLM/" ++ repo self ++ "/resolve/main/"
      ++ filename self)].

(** The loop of [update_sakura_list]. *)
Fixpoint build_sakura_list (objs : list SakuraObj) (sakura_list : list Sakura)
  : result (list Sakura) :=
  match objs with
  | [] => Ok sakura_list
  | obj :: rest =>
      sakura <- build_sakura obj ;;
      build_sakura_list rest (sakura_list ++ [sakura])
  end.

(** A [SakuraList]: its [_list] and what its signal [changed] has
    emitted so far. *)
Record SakuraList : Type := mkSakuraList {
  _list : list Sakura;
  changed_emitted : list (list Sakura)
}.

(** [update_sakura_list(data_json)]; [data_json["sakura"]] is [None] when
    the key is missing. *)
Definition update_sakura_list (self : SakuraList)
    (data_json_sakura : option (list SakuraObj)) : result unit * SakuraList :=
  match obj_getitem data_json_sakura with
  | Raise e => (Raise e, self)
  | Ok objs =>
      match build_sakura_list objs [] with
      | Raise e => (Raise e, self)
      | Ok sakura_list =>
          (Ok tt,
           {| _list := sakura_list;
              changed_emitted := changed_emitted self ++ [sakura_list] |})
      end
  end.

(** [SakuraList.__iter__]: the models in list order. *)
Definition SakuraList_iter (self : SakuraList) : list Sakura := _list self.

(** The first object of the given file name. *)
Definition first_named (name : string) (objs : list SakuraObj) : option SakuraObj :=
  find (fun obj => match obj_filename obj with
                   | Some f => String.eqb f name
                   | None => false
                   end) objs.

(** A catalogue and update objects for the examples. *)
Module CatalogueExample.
Definition obj (file : string) (minimum : Z) : SakuraObj :=
  {| obj_repo := Some "repo"; obj_filename := Some file;
     obj_sha256 := Some ""; obj_minimal_gpu_memory_gib := Some minimum;
     obj_size := Some (inject_Z 0); obj_recommended_np := Some [];
     obj_base_model_hf := Some "base"; obj_bpw := Some (inject_Z 1);
     obj_config_cache := Some None |}.
Definition old : SakuraList :=
  {| _list := [Fixture.model "old.gguf" 8]; changed_emitted := [] |}.
End CatalogueExample.

(** ** Settings ([setting.py]) *)

(** A JSON value, as [json.load] returns it and [json.dump] writes it;
    the settings code only stores and returns such values. *)
#[local] Unset Elimination Schemes.

Inductive json : Type :=
| JNull
| JBool (b : bool)
| JInt (n : Z)
| JFloat (x : Q)
| JString (s : string)
| JList (items : list json)
| JObject (members : dict json).

#[local] Set Elimination Schemes.

(** The file [CONFIG_FILE]: absent, not a JSON text, or a JSON text. *)
Inductive ConfigFile : Type :=
| FileMissing
| FileNotJson
| FileJson (content : json).

(** The attributes of a [Setting] that are saved and loaded. *)
Record Setting : Type := mkSetting {
  llamacpp_path : json;
  model_search_paths : json;
  model_sort_option : json;
  remember_window_state : json;
  remember_advanced_state : json;
  no_gpu_ability_check : json;
  window_geometry : json;
  advanced_state : json
}.

(** The class attributes. *)
Definition Setting_defaults : Setting :=
  {| llamacpp_path := JString "";
     model_search_paths := JString "";
     model_sort_option := JString "修改时间";
     remember_window_state := JBool false;
     remember_advanced_state := JBool false;
     no_gpu_ability_check := JBool false;
     window_geometry := JNull;
     advanced_state := JBool false |}.

Definition AttributeError : exn := OtherException "AttributeError".

(** [_read_settings]: [FileNotFoundError] and [json.JSONDecodeError] give
    the empty object. *)
Definition _read_settings (file : ConfigFile) : json :=
  match file with
  | FileMissing => JObject []
  | FileNotJson => JObject []
  | FileJson content => content
  end.

(** [_write_settings]. *)
Definition _write_settings (settings : json) : ConfigFile := FileJson settings.

(** [d.get(key, default)]; only an object has the method. *)
Definition json_get (d : json) (key : string) (default : json) : result json :=
  match d with
  | JObject members =>
      Ok (match dict_get members key with
          | Some v => v
          | None => default
          end)
  | _ => Raise AttributeError
  end.

(** [d.update(settings)] on dictionaries: the entries of [settings] in
    their order. *)
Definition dict_update {V : Type} (d settings : dict V) : dict V :=
  fold_left (fun acc kv => dict_set acc (fst kv) (snd kv)) settings d.

(** [current_settings.update(settings)]; only an object has the method. *)
Definition json_update (current_settings : json) (settings : dict json)
  : result json :=
  match current_settings with
  | JObject members => Ok (JObject (dict_update members settings))
  | _ => Raise AttributeError
  end.

(** The dictionary [save_settings] builds. *)
Definition saved_settings (self : Setting) : dict json :=
  [("llamacpp_path", llamacpp_path self);
   ("model_search_path", model_search_paths self);
   ("model_sort_option", model_sort_option self);
   ("remember_window_state", remember_window_state self);
   ("remember_advanced_state", remember_advanced_state self);
   ("no_gpu_ability_check", no_gpu_ability_check self);
   ("window_geometry", window_geometry self);
   ("advanced_state", advanced_state self)].

(** [save_settings]: the outcome and the file after the call. *)
Definition save_settings (self : Setting) (file : ConfigFile)
  : result unit * ConfigFile :=
  let settings := saved_settings self in
  let current_settings := _read_settings file in
  match json_update current_settings settings with
  | Raise e => (Raise e, file)
  | Ok updated => (Ok tt, _write_settings updated)
  end.

(** [_load_settings]: the outcome and the object after the call. *)
Definition _load_settings (self : Setting) (file : ConfigFile)
  : result unit * Setting :=
  let settings := _read_settings file in
  let loaded :=
    v1 <- json_get settings "llamacpp_path" (JString "") ;;
    v2 <- json_get settings "model_search_paths" (JString "") ;;
    v3 <- json_get settings "model_sort_option" (JString "修改时间") ;;
    v4 <- json_get settings "remember_window_state" (JBool false) ;;
    v5 <- json_get settings "remember_advanced_state" (JBool false) ;;
    v6 <- json_get settings "no_gpu_ability_check" (JBool false) ;;
    v7 <- json_get settings "window_geometry" JNull ;;
    v8 <- json_get settings "advanced_state" (JBool false) ;;
    Ok {| llamacpp_path := v1; model_search_paths := v2;
          model_sort_option := v3; remember_window_state := v4;
          remember_advanced_state := v5; no_gpu_ability_check := v6;
          window_geometry := v7; advanced_state := v8 |} in
  match loaded with
  | Raise e => (Raise e, self)
  | Ok self' => (Ok tt, self')
  end.

(** [isinstance(d, dict)] for a decoded JSON text. *)
Definition is_object (d : json) : bool :=
  match d with
  | JObject _ => true
  | _ => false
  end.

(** * Properties *)

(** ** Sanity checks of the string operations on concrete text *)

Example split_two : PyStr.split " (GPU " "RTX 3090 (GPU 1)" = ["RTX 3090"; "1)"].
Proof. reflexivity. Qed.

Example split_three :
  PyStr.split " (GPU " "A (GPU 1) (GPU 2)" = ["A"; "1)"; "2)"].
Proof. reflexivity. Qed.

Example split_overlap :
  PyStr.split " (GPU " "X (GPU (GPU 0)" = ["X"; "(GPU 0)"].
Proof. reflexivity. Qed.

Example int_hex : PyStr.int "1f" 16 = Ok 31.
Proof. reflexivity. Qed.

Example int_hex_prefix : PyStr.int " -0x_1F " 16 = Ok (-31).
Proof. reflexivity. Qed.

Example int_bad : PyStr.int "1__2" 10 = Raise ValueError.
Proof. reflexivity. Qed.

Example str_neg : PyStr.str (-305) = "-305".
Proof. reflexivity. Qed.

Example format_2f_ex : PyStr.format_2f (7995 # 1000)%Q = "8.00".
Proof. reflexivity. Qed.

Example format_2f_half : PyStr.format_2f (1 # 8)%Q = "0.12".
Proof. reflexivity. Qed.

Example parse_plain :
  GPUDisplayHelper.parse_display_name "RTX 3090 (GPU 1)" = Ok ("RTX 3090", Some 1).
Proof. reflexivity. Qed.

Example parse_no_index :
  GPUDisplayHelper.parse_display_name "RTX 3090 (GPU x)"
  = Ok ("RTX 3090 (GPU x)", None).
Proof. reflexivity. Qed.

Example pci_ok : get_gpu_index_from_pci "00000000:0A:00.0" = Ok 10.
Proof. reflexivity. Qed.

Example pci_bad : get_gpu_index_from_pci "00000000:zz:00.0" = Ok 0.
Proof. reflexivity. Qed.

Example range_16 :
  range_down 16 = [16; 15; 14; 13; 12; 11; 10; 9; 8; 7; 6; 5; 4; 3; 2; 1].
Proof. reflexivity. Qed.

(** ** Facts about the string operations *)

Module PyStrFacts.
Import PyStr.

Lemma starts_app (s t : string) : starts s (s ++ t) = true.
Proof.
  induction s as [|c s IH]; simpl; [reflexivity|].
  rewrite Ascii.eqb_refl. exact IH.
Qed.

Lemma contains_starts (sub s : string) :
  starts sub s = true -> contains sub s = true.
Proof.
  destruct s as [|c s]; simpl; intros H; [exact H|].
  rewrite H. reflexivity.
Qed.

Lemma contains_app_r (sub a b : string) :
  contains sub b = true -> contains sub (a ++ b) = true.
Proof.
  intros H. induction a as [|c a IH]; simpl; [exact H|].
  rewrite IH. apply orb_true_r.
Qed.

Lemma contains_middle (sub a b : string) : contains sub (a ++ sub ++ b) = true.
Proof. apply contains_app_r, contains_starts, starts_app. Qed.

Lemma all_chars_app (p : ascii -> bool) (s t : string) :
  all_chars p (s ++ t) = all_chars p s && all_chars p t.
Proof.
  induction s as [|c s IH]; simpl; [reflexivity|].
  rewrite IH. apply andb_assoc.
Qed.

Lemma digit_char_cases (d : Z) :
  0 <= d <= 9 ->
  d = 0 \/ d = 1 \/ d = 2 \/ d = 3 \/ d = 4 \/
  d = 5 \/ d = 6 \/ d = 7 \/ d = 8 \/ d = 9.
Proof. lia. Qed.

Ltac each_digit d H :=
  let C := fresh in
  pose proof (digit_char_cases d H) as C;
  repeat (destruct C as [C|C]; [subst d; reflexivity|]);
  subst d; reflexivity.

Lemma digit_value_digit_char (d : Z) :
  0 <= d <= 9 -> digit_value (digit_char d) = Some d.
Proof. intros H. each_digit d H. Qed.

Lemma is_digit_digit_char (d : Z) :
  0 <= d <= 9 -> is_digit (digit_char d) = true.
Proof. intros H. each_digit d H. Qed.

Lemma mod10_range (n : Z) : 0 <= n mod 10 <= 9.
Proof. pose proof (Z.mod_pos_bound n 10). lia. Qed.

Lemma digits_go_all (fuel : nat) :
  forall n acc,
    all_chars is_digit acc = true ->
    all_chars is_digit (digits_go fuel n acc) = true.
Proof.
  induction fuel as [|fuel IH]; intros n acc Hacc; simpl; [exact Hacc|].
  assert (Hd : all_chars is_digit (String (digit_char (n mod 10)) acc) = true).
  { simpl. rewrite Hacc, (is_digit_digit_char _ (mod10_range n)). reflexivity. }
  destruct (n <? 10); [exact Hd | apply IH, Hd].
Qed.

Lemma digits_go_nonempty (fuel : nat) :
  forall n acc, digits_go (S fuel) n acc <> EmptyString.
Proof.
  induction fuel as [|fuel IH]; intros n acc.
  - simpl. destruct (n <? 10); discriminate.
  - change (digits_go (S (S fuel)) n acc)
      with (let acc' := String (digit_char (n mod 10)) acc in
            if n <? 10 then acc' else digits_go (S fuel) (n / 10) acc').
    simpl. destruct (n <? 10); [discriminate | apply IH].
Qed.

Lemma digits_of_all (n : Z) : all_chars is_digit (digits_of n) = true.
Proof. apply digits_go_all. reflexivity. Qed.

Lemma digits_of_nonempty (n : Z) : digits_of n <> EmptyString.
Proof. apply digits_go_nonempty. Qed.

(** *** [int(str(n))] *)

Lemma is_digit_inv (c : ascii) :
  is_digit c = true -> exists d, 0 <= d <= 9 /\ c = digit_char d.
Proof.
  destruct c as [[] [] [] [] [] [] [] []]; intros H; try discriminate H;
    first [ exists 0; split; [lia | reflexivity]
          | exists 1; split; [lia | reflexivity]
          | exists 2; split; [lia | reflexivity]
          | exists 3; split; [lia | reflexivity]
          | exists 4; split; [lia | reflexivity]
          | exists 5; split; [lia | reflexivity]
          | exists 6; split; [lia | reflexivity]
          | exists 7; split; [lia | reflexivity]
          | exists 8; split; [lia | reflexivity]
          | exists 9; split; [lia | reflexivity] ].
Qed.

Lemma digit_not_in (chars : string) (c : ascii) :
  all_chars (fun x => negb (is_digit x)) chars = true ->
  is_digit c = true -> mem c chars = false.
Proof.
  intros Hc Hd. unfold mem.
  induction chars as [|x chars IH]; simpl in *; [reflexivity|].
  apply andb_prop in Hc. destruct Hc as [Hx Hc].
  rewrite (IH Hc), orb_false_r.
  destruct (Ascii.eqb_spec c x) as [->|_]; [|reflexivity].
  rewrite Hd in Hx. discriminate Hx.
Qed.

Lemma lstrip_head (chars : string) (c : ascii) (r : string) :
  mem c chars = false -> lstrip chars (String c r) = String c r.
Proof. intros H. simpl. rewrite H. reflexivity. Qed.

Lemma rstrip_none (chars s : string) :
  all_chars (fun c => negb (mem c chars)) s = true -> rstrip chars s = s.
Proof.
  induction s as [|c s IH]; simpl; intros H; [reflexivity|].
  apply andb_prop in H. destruct H as [Hc Hs].
  rewrite (IH Hs). destruct s; [|reflexivity].
  apply negb_true_iff in Hc. rewrite Hc. reflexivity.
Qed.

Lemma all_chars_impl (p q : ascii -> bool) (s : string) :
  (forall c, p c = true -> q c = true) ->
  all_chars p s = true -> all_chars q s = true.
Proof.
  intros Hpq. induction s as [|c s IH]; simpl; intros H; [reflexivity|].
  apply andb_prop in H. destruct H as [Hc Hs].
  rewrite (Hpq c Hc), (IH Hs). reflexivity.
Qed.

Lemma digits_not_stripped (chars s : string) :
  all_chars (fun x => negb (is_digit x)) chars = true ->
  all_chars is_digit s = true ->
  all_chars (fun c => negb (mem c chars)) s = true.
Proof.
  intros Hc. apply all_chars_impl. intros c Hd.
  rewrite (digit_not_in chars c Hc Hd). reflexivity.
Qed.

Lemma log2_div10 (n : Z) : 10 <= n -> Z.log2 (n / 10) < Z.log2 n.
Proof.
  intros Hn.
  assert (H2 : Z.log2 (n / 2) = Z.log2 n - 1).
  { rewrite <- Z.div2_div, Z.div2_spec, Z.log2_shiftr by lia.
    assert (1 <= Z.log2 n) by (apply Z.log2_le_pow2; simpl; lia). lia. }
  assert (Hle : n / 10 <= n / 2) by (apply Z.div_le_compat_l; lia).
  pose proof (Z.log2_le_mono _ _ Hle). lia.
Qed.

(** The digit loop reads back the digits [digits_go] wrote. *)
Lemma long_from_digits_digits_go (fuel : nat) :
  forall n acc k,
    0 <= n -> (Z.to_nat (Z.log2 n) < fuel)%nat ->
    exists k',
      long_from_digits 10 (digits_go fuel n acc) false k 0
      = long_from_digits 10 acc false (S k') n.
Proof.
  induction fuel as [|fuel IH]; intros n acc k Hn Hf; [lia|].
  simpl digits_go. destruct (Z.ltb_spec n 10) as [Hlt|Hge].
  - exists k. simpl.
    assert (Hm : n mod 10 = n) by (apply Z.mod_small; lia).
    rewrite Hm.
    assert (R : 0 <= n <= 9) by lia.
    pose proof (digit_char_cases n R) as C.
    repeat (destruct C as [C|C]; [subst n; reflexivity|]).
    subst n; reflexivity.
  - assert (Hq : 0 <= n / 10) by (apply Z.div_pos; lia).
    pose proof (log2_div10 n Hge) as Hq'.
    pose proof (Z.log2_nonneg (n / 10)) as Hq''.
    destruct (IH (n / 10) (String (digit_char (n mod 10)) acc) k Hq)
      as [k' Hk']; [lia|].
    exists (S k'). rewrite Hk'.
    pose proof (mod10_range n) as R.
    assert (E : n / 10 * 10 + n mod 10 = n)
      by (pose proof (Z.div_mod n 10); lia).
    revert E. generalize (n / 10). intros q E.
    pose proof (digit_char_cases (n mod 10) R) as C.
    repeat (destruct C as [C|C];
            [rewrite C in *; simpl; rewrite E; reflexivity|]).
    rewrite C in *; simpl; rewrite E; reflexivity.
Qed.

Lemma long_from_digits_digits_of (n : Z) :
  0 <= n -> long_from_digits 10 (digits_of n) false O 0 = Ok n.
Proof.
  intros Hn. unfold digits_of.
  destruct (long_from_digits_digits_go (S (Z.to_nat (Z.log2 n))) n EmptyString
              O Hn) as [k' Hk']; [lia|].
  rewrite Hk'. reflexivity.
Qed.

Lemma whitespace_no_digit :
  all_chars (fun x => negb (is_digit x)) whitespace = true.
Proof. reflexivity. Qed.

Lemma int_unsigned_digits (s : string) :
  all_chars is_digit s = true -> s <> EmptyString ->
  int s 10 = (v <- long_from_digits 10 s false O 0 ;; Ok (1 * v)).
Proof.
  intros Hall Hne. unfold int.
  destruct s as [|c r]; [contradiction|].
  pose proof Hall as Hc. simpl in Hc. apply andb_prop in Hc.
  destruct Hc as [Hc _].
  rewrite (lstrip_head whitespace c r
             (digit_not_in whitespace c whitespace_no_digit Hc)).
  rewrite (rstrip_none whitespace (String c r)
             (digits_not_stripped whitespace _ whitespace_no_digit Hall)).
  destruct (is_digit_inv c Hc) as [d [R E]].
  pose proof (digit_char_cases d R) as C.
  repeat (destruct C as [C|C]; [subst d c; destruct r; reflexivity|]).
  subst d c; destruct r; reflexivity.
Qed.

Theorem int_str_nonneg (n : Z) : 0 <= n -> int (str n) 10 = Ok n.
Proof.
  intros Hn. unfold str.
  destruct (Z.ltb_spec n 0) as [Hlt|_]; [lia|].
  rewrite (int_unsigned_digits _ (digits_of_all n) (digits_of_nonempty n)).
  rewrite (long_from_digits_digits_of n Hn). simpl.
  destruct n; reflexivity.
Qed.

Lemma int_negative_digits (s : string) :
  all_chars is_digit s = true -> s <> EmptyString ->
  int (String "-" s) 10 = (v <- long_from_digits 10 s false O 0 ;; Ok (-1 * v)).
Proof.
  intros Hall Hne. unfold int.
  rewrite (lstrip_head whitespace "-" s eq_refl).
  assert (Hr : rstrip whitespace (String "-" s) = String "-" s).
  { apply rstrip_none. simpl.
    apply (digits_not_stripped whitespace _ whitespace_no_digit Hall). }
  rewrite Hr.
  destruct s as [|c r]; [contradiction|].
  simpl in Hall. apply andb_prop in Hall. destruct Hall as [Hc _].
  destruct (is_digit_inv c Hc) as [d [R E]].
  pose proof (digit_char_cases d R) as C.
  repeat (destruct C as [C|C]; [subst d c; destruct r; reflexivity|]).
  subst d c; destruct r; reflexivity.
Qed.

(** [int(str(n)) == n] for every integer. *)
Theorem int_str (n : Z) : int (str n) 10 = Ok n.
Proof.
  destruct (Z.ltb_spec n 0) as [Hlt|Hge].
  - unfold str. destruct (Z.ltb_spec n 0) as [_|Hge]; [|lia].
    rewrite (int_negative_digits _ (digits_of_all (- n))
               (digits_of_nonempty (- n))).
    rewrite (long_from_digits_digits_of (- n)) by lia.
    cbn [bind]. f_equal. lia.
  - apply int_str_nonneg. exact Hge.
Qed.

(** *** [split] *)

Lemma string_of_list_ascii_app (l1 l2 : list ascii) :
  string_of_list_ascii (l1 ++ l2)
  = string_of_list_ascii l1 ++ string_of_list_ascii l2.
Proof. induction l1 as [|c l1 IH]; simpl; [reflexivity | now rewrite IH]. Qed.

Lemma append_nil_r (s : string) : s ++ "" = s.
Proof. induction s as [|c s IH]; simpl; [reflexivity | now rewrite IH]. Qed.

Lemma append_assoc (a b c : string) : (a ++ b) ++ c = a ++ (b ++ c).
Proof. induction a as [|x a IH]; simpl; [reflexivity | now rewrite IH]. Qed.

Lemma field_snoc (cur : list ascii) (c : ascii) (s : string) :
  string_of_list_ascii (rev (c :: cur)) ++ s
  = string_of_list_ascii (rev cur) ++ String c s.
Proof.
  simpl rev. rewrite string_of_list_ascii_app, append_assoc. reflexivity.
Qed.

Lemma split_go_skip (sep pre rest : string) (cur : list ascii) :
  split_go sep (String.length pre) cur (pre ++ rest) = split_go sep O cur rest.
Proof.
  induction pre as [|c pre IH]; simpl; [destruct rest; reflexivity | exact IH].
Qed.

Lemma split_go_step (sep : string) (cur : list ascii) (c : ascii) (s : string) :
  split_go sep O cur (String c s)
  = if starts sep (String c s)
    then string_of_list_ascii (rev cur)
           :: split_go sep (String.length sep - 1) [] s
    else split_go sep O (c :: cur) s.
Proof. reflexivity. Qed.

Lemma split_go_match (a : ascii) (sep' rest : string) (cur : list ascii) :
  split_go (String a sep') O cur (String a sep' ++ rest)
  = string_of_list_ascii (rev cur) :: split_go (String a sep') O [] rest.
Proof.
  pose proof (starts_app (String a sep') rest) as Hs.
  change ((String a sep' ++ rest)%string) with (String a (sep' ++ rest)) in *.
  rewrite split_go_step, Hs.
  change (String.length (String a sep') - 1)%nat
    with (String.length sep' - 0)%nat.
  rewrite Nat.sub_0_r, split_go_skip. reflexivity.
Qed.

Lemma split_go_no_occurrence (sep s : string) :
  forall cur,
    contains sep s = false -> sep <> EmptyString ->
    split_go sep O cur s = [string_of_list_ascii (rev cur) ++ s].
Proof.
  induction s as [|c s IH]; intros cur Hc Hne.
  - simpl. rewrite append_nil_r. reflexivity.
  - simpl in Hc. apply orb_false_elim in Hc. destruct Hc as [Hs Hc].
    rewrite split_go_step, Hs, (IH (c :: cur) Hc Hne), field_snoc.
    reflexivity.
Qed.

(** One separator, no earlier occurrence: exactly two fields. *)
Lemma split_go_two (a : ascii) (sep' tail : string) (name : string) :
  forall cur,
    (forall b, b <> EmptyString ->
               contains (String a sep') (b ++ String a "") = false ->
               starts (String a sep') (b ++ String a sep' ++ tail) = false) ->
    contains (String a sep') (name ++ String a "") = false ->
    contains (String a sep') tail = false ->
    split_go (String a sep') O cur (name ++ String a sep' ++ tail)
    = [string_of_list_ascii (rev cur) ++ name; tail].
Proof.
  intros cur Hov. revert cur.
  induction name as [|c name IH]; intros cur Hname Htail.
  - change (("" ++ String a sep' ++ tail)%string)
      with ((String a sep' ++ tail)%string).
    rewrite split_go_match.
    rewrite split_go_no_occurrence by (exact Htail || discriminate).
    rewrite append_nil_r. reflexivity.
  - pose proof (Hov (String c name) ltac:(discriminate) Hname) as Hs.
    simpl in Hname. apply orb_false_elim in Hname.
    destruct Hname as [_ Hname].
    change ((String c name ++ String a sep' ++ tail)%string)
      with (String c (name ++ String a sep' ++ tail)) in *.
    rewrite split_go_step, Hs, (IH (c :: cur) Hname Htail), field_snoc.
    reflexivity.
Qed.

Lemma contains_no_first_char (a : ascii) (sep' s : string) :
  all_chars (fun c => negb (Ascii.eqb a c)) s = true ->
  contains (String a sep') s = false.
Proof.
  induction s as [|c s IH]; simpl; intros H; [reflexivity|].
  apply andb_prop in H. destruct H as [Hc Hs].
  apply negb_true_iff in Hc. rewrite Hc, (IH Hs). reflexivity.
Qed.

(** *** [rstrip] *)

Lemma rstrip_one_suffix (chars s : string) (x : ascii) :
  all_chars (fun c => negb (mem c chars)) s = true ->
  mem x chars = true ->
  rstrip chars (s ++ String x "") = s.
Proof.
  intros Hs Hx. induction s as [|c s IH]; simpl.
  - rewrite Hx. reflexivity.
  - simpl in Hs. apply andb_prop in Hs. destruct Hs as [Hc Hs].
    rewrite (IH Hs). destruct s; [|reflexivity].
    apply negb_true_iff in Hc. rewrite Hc. reflexivity.
Qed.

End PyStrFacts.

(** ** Display labels *)

Module DisplayFacts.
Import PyStr PyStrFacts GPUDisplayHelper.

Lemma starts_cons (a b : ascii) (sub s t : string) :
  starts (String a sub) (String b s ++ t)
  = Ascii.eqb a b && starts sub (s ++ t).
Proof. reflexivity. Qed.

Ltac peel H c :=
  let Hc := fresh "Hc" in
  rewrite starts_cons in H;
  apply andb_prop in H; destruct H as [Hc H];
  apply Ascii.eqb_eq in Hc; subst c.

(** An occurrence of the marker that starts inside the name and runs
    into the marker that follows it can only be the name's last five
    characters and the marker's first. *)
Lemma marker_overlap (b tail : string) :
  b <> EmptyString ->
  contains marker (b ++ " ") = false ->
  starts marker (b ++ marker ++ tail) = false.
Proof.
  intros Hne Hc.
  destruct (starts marker (b ++ marker ++ tail)) eqn:H; [exfalso|reflexivity].
  assert (Hs : starts marker (b ++ " ") = true).
  { clear Hc. unfold marker in *.
    destruct b as [|c1 b]; [contradiction|]. peel H c1.
    destruct b as [|c2 b]; [discriminate H|]. peel H c2.
    destruct b as [|c3 b]; [discriminate H|]. peel H c3.
    destruct b as [|c4 b]; [discriminate H|]. peel H c4.
    destruct b as [|c5 b]; [discriminate H|]. peel H c5.
    destruct b as [|c6 b]; [reflexivity|]. peel H c6.
    reflexivity. }
  apply contains_starts in Hs. rewrite Hs in Hc. discriminate Hc.
Qed.

Lemma digits_tail_no_space (n : Z) :
  all_chars (fun c => negb (Ascii.eqb " " c)) (digits_of n ++ ")") = true.
Proof.
  rewrite all_chars_app, andb_true_r.
  apply (all_chars_impl is_digit); [|apply digits_of_all].
  intros c Hd. destruct (Ascii.eqb_spec " "%char c) as [<-|_]; [|reflexivity].
  discriminate Hd.
Qed.

Lemma split_label (name : string) (n : Z) :
  contains marker (name ++ " ") = false ->
  split marker (name ++ marker ++ digits_of n ++ ")")
  = [name; digits_of n ++ ")"].
Proof.
  intros Hn. unfold split, marker.
  rewrite (split_go_two " " "(GPU " (digits_of n ++ ")") name []).
  - reflexivity.
  - intros b Hb Hc. apply marker_overlap; assumption.
  - exact Hn.
  - apply contains_no_first_char, digits_tail_no_space.
Qed.

Lemma rstrip_label_tail (n : Z) : rstrip ")" (digits_of n ++ ")") = digits_of n.
Proof.
  apply rstrip_one_suffix; [|reflexivity].
  apply (all_chars_impl is_digit); [|apply digits_of_all].
  intros c Hd. rewrite (digit_not_in ")" c eq_refl Hd). reflexivity.
Qed.

Lemma contains_close_paren (a b : string) : contains ")" (a ++ b ++ ")") = true.
Proof. do 2 apply contains_app_r. reflexivity. Qed.

(** The round trip on a label built from a name and a non-negative index. *)
Lemma parse_label (name : string) (n : Z) :
  contains marker (name ++ " ") = false -> 0 <= n ->
  parse_display_name (name ++ marker ++ str n ++ ")") = Ok (name, Some n).
Proof.
  intros Hn Hpos. unfold parse_display_name.
  assert (Hstr : str n = digits_of n).
  { unfold str. destruct (Z.ltb_spec n 0); [lia | reflexivity]. }
  rewrite contains_middle.
  assert (Hp : contains ")" (name ++ marker ++ str n ++ ")") = true).
  { rewrite <- append_assoc. apply contains_close_paren. }
  rewrite Hp. simpl andb. cbv iota.
  rewrite Hstr, (split_label name n Hn), rstrip_label_tail.
  rewrite <- Hstr, (int_str_nonneg n Hpos). reflexivity.
Qed.

End DisplayFacts.

(** C4 (amended).  [parse_display_name] inverts [create_display_name] for
    every device that has a non-empty [pci_bus_id], every index [i >= 0]
    and every name in which the marker [" (GPU "] does not occur, also not
    across the name's end (the name followed by a space has no
    occurrence): the parse of the label is [(name, i)]. *)
Theorem display_name_round_trip (d : GPUInfo) (i : Z) :
  opt_str_truthy (pci_bus_id d) = true ->
  0 <= i ->
  PyStr.contains GPUDisplayHelper.marker (name d ++ " ") = false ->
  GPUDisplayHelper.parse_display_name (GPUDisplayHelper.create_display_name d i)
  = Ok (name d, Some i).
Proof.
  intros Hpci Hi Hname. unfold GPUDisplayHelper.create_display_name.
  rewrite Hpci. apply DisplayFacts.parse_label; assumption.
Qed.

Lemma display_name_round_trip_witness :
  let d := Fixture.device "NVIDIA GeForce RTX 3090" NVIDIA (24 * Fixture.GiB)
             None (Some "00000000:01:00.0") in
  opt_str_truthy (pci_bus_id d) = true /\
  0 <= 1 /\
  PyStr.contains GPUDisplayHelper.marker (name d ++ " ") = false /\
  GPUDisplayHelper.parse_display_name (GPUDisplayHelper.create_display_name d 1)
  = Ok ("NVIDIA GeForce RTX 3090", Some 1).
Proof.
  intro d.
  refine (conj eq_refl (conj _ (conj eq_refl _))).
  - discriminate.
  - apply (display_name_round_trip d 1); [reflexivity | discriminate | reflexivity].
Defined.

(** C4 as stated fails: a device with a bus id whose name ends in
    [" (GPU"] gets the label ["X (GPU (GPU 0)"]; the split finds the
    marker one character early and the parse answers the whole label
    without an index, not [("X (GPU", 0)]. *)
Lemma display_name_round_trip_counterexample :
  let d := Fixture.device "X (GPU" NVIDIA (8 * Fixture.GiB)
             None (Some "00000000:01:00.0") in
  opt_str_truthy (pci_bus_id d) = true /\
  GPUDisplayHelper.create_display_name d 0 = "X (GPU (GPU 0)" /\
  GPUDisplayHelper.parse_display_name (GPUDisplayHelper.create_display_name d 0)
  = Ok ("X (GPU (GPU 0)", None) /\
  GPUDisplayHelper.parse_display_name (GPUDisplayHelper.create_display_name d 0)
  <> Ok (name d, Some 0).
Proof. repeat split; try reflexivity. discriminate. Qed.

(** C5 (the code misses it).  On a label with two markers the split has
    three fields, the unpacking before the [try] raises [ValueError] and
    [parse_display_name] does not return [(label, None)]. *)
Theorem parse_display_name_raises :
  GPUDisplayHelper.parse_display_name "A (GPU 1) (GPU 2)" = Raise ValueError.
Proof. reflexivity. Qed.

(** C6 (the code misses it).  With a negative parsed index the test
    [gpu_index < len(matching_keys)] passes: [-1] selects the last match
    instead of the first, and an index below [-len] raises [IndexError].
    A label with two markers raises [ValueError] out of [find_gpu_key]. *)
Theorem find_gpu_key_negative_index :
  let rtx := Fixture.device "RTX" NVIDIA (8 * Fixture.GiB) None in
  let one := [("00000000:01:00.0", rtx (Some "00000000:01:00.0"))] in
  let two := [("00000000:01:00.0", rtx (Some "00000000:01:00.0"));
              ("00000000:02:00.0", rtx (Some "00000000:02:00.0"))] in
  GPUDisplayHelper.find_gpu_key "RTX (GPU -2)" one = Raise IndexError /\
  GPUDisplayHelper.find_gpu_key "RTX (GPU -1)" two
  = Ok (Some "00000000:02:00.0") /\
  GPUDisplayHelper.find_gpu_key "RTX (GPU 1) (GPU 0)" two = Raise ValueError.
Proof. repeat split; reflexivity. Qed.

(** ** The device map and the environment *)

Module DictFacts.

Lemma get_set_same {V : Type} (d : dict V) (k : string) (v : V) :
  dict_get (dict_set d k v) k = Some v.
Proof.
  induction d as [|[k' v'] d IH]; simpl.
  - rewrite String.eqb_refl. reflexivity.
  - destruct (String.eqb k' k) eqn:E; simpl; rewrite E; [reflexivity | exact IH].
Qed.

Lemma get_set_other {V : Type} (d : dict V) (k k' : string) (v : V) :
  k' <> k -> dict_get (dict_set d k v) k' = dict_get d k'.
Proof.
  intros Hne. induction d as [|[k0 v0] d IH]; simpl.
  - destruct (String.eqb_spec k k') as [E|_]; [congruence | reflexivity].
  - destruct (String.eqb_spec k0 k) as [E|_]; simpl.
    + subst k0. destruct (String.eqb_spec k k'); [congruence | reflexivity].
    + rewrite IH. reflexivity.
Qed.

Lemma truthy_nonempty (k : string) : k <> "" -> key_truthy (Some k) = true.
Proof. destruct k; [contradiction | reflexivity]. Qed.

End DictFacts.

(** What [set_gpu_env] does once the label has resolved to a key the
    guard accepts. *)
Lemma set_gpu_env_resolved (self : GPUManager) (env : dict string)
    (label : string) (idx : Z) (k : string) (info : GPUInfo) :
  GPUDisplayHelper.find_gpu_key label (gpu_info_map self) = Ok (Some k) ->
  k <> "" ->
  dict_get (gpu_info_map self) k = Some info ->
  set_gpu_env self env label idx
  = match gpu_type info with
    | NVIDIA => Ok (dict_set env "CUDA_VISIBLE_DEVICES" (PyStr.str idx))
    | AMD =>
        Ok (dict_set env "HIP_VISIBLE_DEVICES"
              (PyStr.str (idx - Z.of_nat (List.length (nvidia_gpus self)))))
    | _ => Ok env
    end.
Proof.
  intros Hfind Hk Hget. unfold set_gpu_env. rewrite Hfind. cbn [bind].
  rewrite (DictFacts.truthy_nonempty k Hk). simpl negb. cbv iota.
  unfold dict_getitem. rewrite Hget. reflexivity.
Qed.

(** C7.  For a label that resolves to an AMD device, that is, for which
    [find_gpu_key] returns a key the guard of [set_gpu_env] takes as
    found (not the empty text) and the map holds an AMD device under it,
    [set_gpu_env] returns the environment with [HIP_VISIBLE_DEVICES] set
    to the decimal text of the selected index minus the number of NVIDIA
    labels; with two NVIDIA labels and index 2 the value is ["0"]. *)
Theorem amd_env_ordinal (self : GPUManager) (env : dict string) (label : string)
    (idx : Z) (k : string) (info : GPUInfo) :
  GPUDisplayHelper.find_gpu_key label (gpu_info_map self) = Ok (Some k) ->
  k <> "" ->
  dict_get (gpu_info_map self) k = Some info ->
  gpu_type info = AMD ->
  exists env',
    set_gpu_env self env label idx = Ok env' /\
    dict_get env' "HIP_VISIBLE_DEVICES"
    = Some (PyStr.str (idx - Z.of_nat (List.length (nvidia_gpus self)))) /\
    (List.length (nvidia_gpus self) = 2%nat -> idx = 2 ->
     dict_get env' "HIP_VISIBLE_DEVICES" = Some "0").
Proof.
  intros Hfind Hk Hget Hamd.
  rewrite (set_gpu_env_resolved self env label idx k info Hfind Hk Hget), Hamd.
  eexists. split; [reflexivity|]. split.
  - apply DictFacts.get_set_same.
  - intros Hn Hi. rewrite DictFacts.get_set_same, Hn, Hi. reflexivity.
Qed.

Lemma amd_env_ordinal_witness :
  GPUDisplayHelper.find_gpu_key "AMD Radeon RX 7900 XTX"
    (gpu_info_map TwoNvidiaOneAmd.host) = Ok (Some "AMD Radeon RX 7900 XTX") /\
  exists env',
    set_gpu_env TwoNvidiaOneAmd.host [] "AMD Radeon RX 7900 XTX" 2 = Ok env' /\
    dict_get env' "HIP_VISIBLE_DEVICES" = Some "0".
Proof.
  split; [reflexivity|].
  destruct (amd_env_ordinal TwoNvidiaOneAmd.host [] "AMD Radeon RX 7900 XTX" 2
              "AMD Radeon RX 7900 XTX" TwoNvidiaOneAmd.radeon
              eq_refl ltac:(discriminate) eq_refl eq_refl)
    as [env' [Hset [_ Hzero]]].
  exists env'. split; [exact Hset | exact (Hzero eq_refl eq_refl)].
Defined.

(** C10.  For a label that resolves to an AMD device (as for C7: the key
    found is one the guard takes as found) and a selected index below
    the number of NVIDIA labels, [set_gpu_env] returns normally and
    [HIP_VISIBLE_DEVICES] is the minus sign followed by the digits of
    the (positive) difference, a text that reads back as the negative
    difference: nothing checks or clamps the ordinal. *)
Theorem amd_ordinal_negative (self : GPUManager) (env : dict string)
    (label : string) (idx : Z) (k : string) (info : GPUInfo) :
  GPUDisplayHelper.find_gpu_key label (gpu_info_map self) = Ok (Some k) ->
  k <> "" ->
  dict_get (gpu_info_map self) k = Some info ->
  gpu_type info = AMD ->
  idx < Z.of_nat (List.length (nvidia_gpus self)) ->
  exists env',
    set_gpu_env self env label idx = Ok env' /\
    dict_get env' "HIP_VISIBLE_DEVICES"
    = Some (String "-"
              (PyStr.digits_of (Z.of_nat (List.length (nvidia_gpus self)) - idx))) /\
    PyStr.int (String "-"
                 (PyStr.digits_of (Z.of_nat (List.length (nvidia_gpus self)) - idx)))
      10
    = Ok (idx - Z.of_nat (List.length (nvidia_gpus self))).
Proof.
  intros Hfind Hk Hget Hamd Hlt.
  rewrite (set_gpu_env_resolved self env label idx k info Hfind Hk Hget), Hamd.
  eexists. split; [reflexivity|].
  set (n := Z.of_nat (List.length (nvidia_gpus self))) in *.
  assert (Hstr : PyStr.str (idx - n) = String "-" (PyStr.digits_of (n - idx))).
  { unfold PyStr.str. destruct (Z.ltb_spec (idx - n) 0) as [_|Hge]; [|lia].
    replace (- (idx - n)) with (n - idx) by lia. reflexivity. }
  split.
  - rewrite DictFacts.get_set_same, Hstr. reflexivity.
  - rewrite <- Hstr. apply PyStrFacts.int_str.
Qed.

Lemma amd_ordinal_negative_witness :
  GPUDisplayHelper.find_gpu_key "AMD Radeon RX 7900 XTX"
    (gpu_info_map TwoNvidiaOneAmd.host) = Ok (Some "AMD Radeon RX 7900 XTX") /\
  0 < Z.of_nat (List.length (nvidia_gpus TwoNvidiaOneAmd.host)) /\
  exists env',
    set_gpu_env TwoNvidiaOneAmd.host [] "AMD Radeon RX 7900 XTX" 0 = Ok env' /\
    dict_get env' "HIP_VISIBLE_DEVICES" = Some "-2".
Proof.
  split; [reflexivity|]. split; [reflexivity|].
  destruct (amd_ordinal_negative TwoNvidiaOneAmd.host []
              "AMD Radeon RX 7900 XTX" 0
              "AMD Radeon RX 7900 XTX" TwoNvidiaOneAmd.radeon
              eq_refl ltac:(discriminate) eq_refl eq_refl eq_refl)
    as [env' [Hset [Hval _]]].
  exists env'. split; [exact Hset | exact Hval].
Defined.

(** ** The capacity check *)

Section AbilityFacts.

Variable calculate_sizes : ModelConfig -> result Sizes.
Variable SAKURA_LIST : list Sakura.

Lemma check_gpu_ability_resolved (self : GPUManager)
    (label model_name : string) (ctx np : option Z)
    (k : string) (info : GPUInfo) :
  GPUDisplayHelper.find_gpu_key label (gpu_info_map self) = Ok (Some k) ->
  k <> "" ->
  dict_get (gpu_info_map self) k = Some info ->
  supported (gpu_type info) = true ->
  check_gpu_ability calculate_sizes SAKURA_LIST self label model_name ctx np
  = match
      match avail_dedicated_gpu_memory info with
      | Some _ =>
          _check_dynamic_memory calculate_sizes SAKURA_LIST info model_name
            ctx np
      | None => Ok (_check_static_memory SAKURA_LIST info model_name)
      end
    with
    | Raise e => (Raise e, self)
    | Ok a => (Ok a, cached self k info a)
    end.
Proof.
  intros Hfind Hk Hget Hsup. unfold check_gpu_ability.
  rewrite Hfind, (DictFacts.truthy_nonempty k Hk).
  unfold dict_in, dict_getitem. rewrite Hget, Hsup. reflexivity.
Qed.

(** With a live reading the dynamic check always has a verdict: what
    the calculator raises is caught. *)
Lemma _check_dynamic_memory_total (info : GPUInfo) (model_name : string)
    (ctx np : option Z) (gpu_mem : Z) :
  avail_dedicated_gpu_memory info = Some gpu_mem ->
  exists a,
    _check_dynamic_memory calculate_sizes SAKURA_LIST info model_name ctx np
    = Ok a.
Proof.
  intros Hav. unfold _check_dynamic_memory. rewrite Hav.
  destruct (SakuraList_getitem SAKURA_LIST model_name) as [model|];
    [|eexists; reflexivity].
  cbv zeta.
  match goal with
  | |- context [match ?x with Ok _ => _ | Raise _ => _ end] =>
      destruct x as [[v|]|e]
  end; try (eexists; reflexivity).
  match goal with
  | |- context [if ?c then _ else _] => destruct c
  end; eexists; reflexivity.
Qed.

End AbilityFacts.

(** C9 (amended).  When the label resolves to a non-empty key of a
    device, [check_gpu_ability] returns a verdict.  For an NVIDIA or AMD
    device the manager it leaves holds that verdict as the device's
    [ability], whatever was cached before; every other entry of the map
    and the vendor lists are as they were.  For a device of another
    vendor the verdict is the unsupported-vendor one and the manager is
    left as it was: the verdict is not cached and the device keeps what
    it had. *)
Theorem check_gpu_ability_caches
    (calculate_sizes : ModelConfig -> result Sizes) (SAKURA_LIST : list Sakura)
    (self : GPUManager) (label model_name : string) (ctx np : option Z)
    (k : string) (info : GPUInfo) :
  GPUDisplayHelper.find_gpu_key label (gpu_info_map self) = Ok (Some k) ->
  k <> "" ->
  dict_get (gpu_info_map self) k = Some info ->
  exists a self',
    check_gpu_ability calculate_sizes SAKURA_LIST self label model_name ctx np
    = (Ok a, self') /\
    (gpu_type info = NVIDIA \/ gpu_type info = AMD ->
     dict_get (gpu_info_map self') k = Some (set_ability info a) /\
     ability (set_ability info a) = Some a /\
     (forall k', k' <> k ->
        dict_get (gpu_info_map self') k' = dict_get (gpu_info_map self) k') /\
     nvidia_gpus self' = nvidia_gpus self /\
     amd_gpus self' = amd_gpus self /\
     intel_gpus self' = intel_gpus self) /\
    (gpu_type info <> NVIDIA -> gpu_type info <> AMD ->
     a = {| is_capable := false; reason := Msg.unsupported |} /\
     self' = self /\
     dict_get (gpu_info_map self') k = Some info).
Proof.
  intros Hfind Hk Hget.
  destruct (supported (gpu_type info)) eqn:Hsup.
  - rewrite (check_gpu_ability_resolved calculate_sizes SAKURA_LIST self label
               model_name ctx np k info Hfind Hk Hget Hsup).
    assert (Hv : exists a,
               match avail_dedicated_gpu_memory info with
               | Some _ =>
                   _check_dynamic_memory calculate_sizes SAKURA_LIST info
                     model_name ctx np
               | None => Ok (_check_static_memory SAKURA_LIST info model_name)
               end = Ok a).
    { destruct (avail_dedicated_gpu_memory info) as [m|] eqn:Hav.
      - apply (_check_dynamic_memory_total _ _ _ _ _ _ m Hav).
      - eexists; reflexivity. }
    destruct Hv as [a Ha]. rewrite Ha.
    exists a, (cached self k info a).
    split; [reflexivity|]. split.
    + intros _. repeat split.
      * apply DictFacts.get_set_same.
      * intros k' Hk'. apply DictFacts.get_set_other. exact Hk'.
    + intros Hn Ha'. destruct (gpu_type info); try discriminate Hsup;
        contradiction.
  - exists {| is_capable := false; reason := Msg.unsupported |}, self.
    split.
    + unfold check_gpu_ability.
      rewrite Hfind, (DictFacts.truthy_nonempty k Hk).
      unfold dict_in, dict_getitem. rewrite Hget, Hsup. reflexivity.
    + split.
      * intros [Ht|Ht]; rewrite Ht in Hsup; discriminate Hsup.
      * intros _ _. repeat split. exact Hget.
Qed.

Lemma check_gpu_ability_caches_witness :
  let host := TwoNvidiaOneAmd.host in
  let k := "00000000:02:00.0" in
  GPUDisplayHelper.find_gpu_key "NVIDIA GeForce RTX 3090 (GPU 1)"
    (gpu_info_map host) = Ok (Some k) /\
  exists a self',
    check_gpu_ability Fixture.linear_calculator [Fixture.model "sakura.gguf" 8]
      host "NVIDIA GeForce RTX 3090 (GPU 1)" "sakura.gguf" None None
    = (Ok a, self') /\
    dict_get (gpu_info_map self') k = Some (set_ability (TwoNvidiaOneAmd.rtx k) a).
Proof.
  intros host k. split; [reflexivity|].
  destruct (check_gpu_ability_caches Fixture.linear_calculator
              [Fixture.model "sakura.gguf" 8] host
              "NVIDIA GeForce RTX 3090 (GPU 1)" "sakura.gguf" None None
              k (TwoNvidiaOneAmd.rtx k)
              eq_refl ltac:(discriminate) eq_refl)
    as [a [self' [Hc [Hsup _]]]].
  exists a, self'. split; [exact Hc|].
  exact (proj1 (Hsup (or_introl eq_refl))).
Defined.

(** C9 as stated fails: for a device of another vendor (here an adapter
    as the static probe files it, of a type [get_gpu_type] does not
    know) the call returns its verdict before the write, and the device
    keeps what it had. *)
Lemma check_gpu_ability_caches_counterexample :
  let arc := Fixture.device "Intel Arc A770" (get_gpu_type "Intel Arc A770")
               (16 * Fixture.GiB) None None in
  let host := Fixture.manager [("Intel Arc A770", arc)] [] in
  let r := check_gpu_ability Fixture.linear_calculator
             [Fixture.model "sakura.gguf" 8] host
             "Intel Arc A770" "sakura.gguf" None None in
  gpu_type arc = UNKNOWN /\
  GPUDisplayHelper.find_gpu_key "Intel Arc A770" (gpu_info_map host)
  = Ok (Some "Intel Arc A770") /\
  fst r = Ok {| is_capable := false; reason := Msg.unsupported |} /\
  dict_get (gpu_info_map (snd r)) "Intel Arc A770" = Some arc /\
  ability arc = None.
Proof. repeat split; reflexivity. Qed.

(** ** GiB figures *)

Module GiBFacts.

Lemma pos_GiB : Z.pos (2 ^ 30) = 2 ^ 30.
Proof. reflexivity. Qed.

Lemma Qltb_inject (a b : Z) : Qltb (inject_Z a) (inject_Z b) = (a <? b).
Proof.
  cbv [Qltb Qle_bool inject_Z Qnum Qden].
  destruct (Z.leb_spec (b * 1) (a * 1)), (Z.ltb_spec a b);
    simpl; try reflexivity; lia.
Qed.

(** A byte count is below [m] GiB when it is below [m * 2^30]. *)
Lemma Qltb_bytes (b m : Z) :
  Qltb (BytesToGiB b) (inject_Z m) = (b <? m * 2 ^ 30).
Proof.
  cbv [Qltb Qle_bool BytesToGiB inject_Z Qnum Qden].
  rewrite pos_GiB.
  destruct (Z.leb_spec (m * 2 ^ 30) (b * 1)), (Z.ltb_spec b (m * 2 ^ 30));
    simpl; try reflexivity; lia.
Qed.

(** [math.ceil] of the GiB figure is the least whole number of GiB that
    holds the byte count. *)
Lemma ceiling_bytes (b : Z) : rounded_up_gib b (Qceiling (BytesToGiB b)).
Proof.
  cbv [rounded_up_gib Qceiling Qfloor Qopp BytesToGiB Qnum Qden].
  rewrite pos_GiB.
  change (2 ^ 30) with 1073741824.
  Z.to_euclidean_division_equations. lia.
Qed.

Lemma static_gib_big (b : Z) :
  2 ^ 30 < b -> static_gib b = inject_Z (Qceiling (BytesToGiB b)).
Proof.
  intros H. unfold static_gib.
  destruct (Z.gtb_spec b (2 ^ 30)); [reflexivity | lia].
Qed.

Lemma static_gib_small (b : Z) : b <= 2 ^ 30 -> static_gib b = BytesToGiB b.
Proof.
  intros H. unfold static_gib.
  destruct (Z.gtb_spec b (2 ^ 30)); [lia | reflexivity].
Qed.

Lemma rounded_up_unique (b g g' : Z) :
  rounded_up_gib b g -> rounded_up_gib b g' -> g = g'.
Proof. unfold rounded_up_gib. change (2 ^ 30) with 1073741824. lia. Qed.

End GiBFacts.

(** C1 (amended).  In static mode (the label resolves to a non-empty key of
    an NVIDIA or AMD device without live reading) [check_gpu_ability]
    compares the total memory in GiB with the model's non-zero minimum,
    the figure rounded up to a whole GiB when the total exceeds 2^30
    bytes and exact otherwise: below the minimum the verdict is
    not-capable with the reason citing the minimum and the (rounded)
    figure, else it is capable; an unknown model or a zero minimum is
    capable.  For a total of 2^30 + 1 bytes and a minimum of 2 the
    rounded figure is 2, not below 2: the verdict is capable with the
    empty reason. *)
Theorem static_check_rounds_up
    (calculate_sizes : ModelConfig -> result Sizes) (SAKURA_LIST : list Sakura)
    (self : GPUManager) (label model_name : string) (ctx np : option Z)
    (k : string) (info : GPUInfo) :
  GPUDisplayHelper.find_gpu_key label (gpu_info_map self) = Ok (Some k) ->
  k <> "" ->
  dict_get (gpu_info_map self) k = Some info ->
  supported (gpu_type info) = true ->
  avail_dedicated_gpu_memory info = None ->
  exists a,
    fst (check_gpu_ability calculate_sizes SAKURA_LIST self label model_name
           ctx np) = Ok a /\
    (forall m,
       SakuraList_getitem SAKURA_LIST model_name = Some m ->
       minimal_gpu_memory_gib m <> 0 ->
       let total := dedicated_gpu_memory info in
       let need := minimal_gpu_memory_gib m in
       (2 ^ 30 < total ->
        exists g,
          rounded_up_gib total g /\
          (g < need ->
           a = {| is_capable := false;
                  reason := Msg.static (name info) (inject_Z need) (inject_Z g) |}) /\
          (need <= g -> a = capable)) /\
       (total <= 2 ^ 30 ->
        (total < need * 2 ^ 30 ->
         a = {| is_capable := false;
                reason := Msg.static (name info) (inject_Z need)
                            (BytesToGiB total) |}) /\
        (need * 2 ^ 30 <= total -> a = capable))) /\
    (SakuraList_getitem SAKURA_LIST model_name = None -> a = capable) /\
    (forall m,
       SakuraList_getitem SAKURA_LIST model_name = Some m ->
       minimal_gpu_memory_gib m = 0 -> a = capable) /\
    (forall m,
       SakuraList_getitem SAKURA_LIST model_name = Some m ->
       dedicated_gpu_memory info = 2 ^ 30 + 1 ->
       minimal_gpu_memory_gib m = 2 ->
       is_capable a = true /\ reason a = "").
Proof.
  intros Hfind Hk Hget Hsup Hav.
  rewrite (check_gpu_ability_resolved calculate_sizes SAKURA_LIST self label
             model_name ctx np k info Hfind Hk Hget Hsup), Hav.
  exists (_check_static_memory SAKURA_LIST info model_name).
  split; [reflexivity|].
  unfold _check_static_memory.
  destruct (SakuraList_getitem SAKURA_LIST model_name) as [m0|].
  2:{ repeat split; try reflexivity; intros; discriminate. }
  assert (Hbig : forall m, Some m0 = Some m -> minimal_gpu_memory_gib m <> 0 ->
            2 ^ 30 < dedicated_gpu_memory info ->
            negb (minimal_gpu_memory_gib m0 =? 0)
            && Qltb (static_gib (dedicated_gpu_memory info))
                 (inject_Z (minimal_gpu_memory_gib m0))
            = (Qceiling (BytesToGiB (dedicated_gpu_memory info))
               <? minimal_gpu_memory_gib m)).
  { intros m [= <-] Hz Hb.
    rewrite (GiBFacts.static_gib_big _ Hb), GiBFacts.Qltb_inject.
    destruct (Z.eqb_spec (minimal_gpu_memory_gib m0) 0); [contradiction|].
    reflexivity. }
  split; [|split; [|split]].
  - intros m Hm Hz. cbv zeta. split.
    + intros Hb. exists (Qceiling (BytesToGiB (dedicated_gpu_memory info))).
      split; [apply GiBFacts.ceiling_bytes|].
      rewrite (Hbig m Hm Hz Hb). injection Hm as <-.
      split; intros Hc.
      * destruct (Z.ltb_spec (Qceiling (BytesToGiB (dedicated_gpu_memory info)))
                    (minimal_gpu_memory_gib m0)); [|lia].
        rewrite (GiBFacts.static_gib_big _ Hb). reflexivity.
      * destruct (Z.ltb_spec (Qceiling (BytesToGiB (dedicated_gpu_memory info)))
                    (minimal_gpu_memory_gib m0)); [lia|reflexivity].
    + intros Hs. injection Hm as <-.
      rewrite (GiBFacts.static_gib_small _ Hs), GiBFacts.Qltb_bytes.
      destruct (Z.eqb_spec (minimal_gpu_memory_gib m0) 0); [contradiction|].
      cbn [negb andb].
      split; intros Hc.
      * destruct (Z.ltb_spec (dedicated_gpu_memory info)
                    (minimal_gpu_memory_gib m0 * 2 ^ 30)); [reflexivity|lia].
      * destruct (Z.ltb_spec (dedicated_gpu_memory info)
                    (minimal_gpu_memory_gib m0 * 2 ^ 30)); [lia|reflexivity].
  - intros; discriminate.
  - intros m [= <-] Hz. rewrite Hz. reflexivity.
  - intros m [= <-] Ht Hn. rewrite Ht, Hn. split; reflexivity.
Qed.

Lemma static_check_rounds_up_witness :
  GPUDisplayHelper.find_gpu_key "GeForce GT 710" (gpu_info_map OneGiBCard.host)
  = Ok (Some "GeForce GT 710") /\
  avail_dedicated_gpu_memory OneGiBCard.card = None /\
  exists a,
    fst (check_gpu_ability Fixture.broken_calculator OneGiBCard.catalogue
           OneGiBCard.host "GeForce GT 710" "sakura.gguf" None None) = Ok a /\
    is_capable a = true /\ reason a = "".
Proof.
  split; [reflexivity|]. split; [reflexivity|].
  destruct (static_check_rounds_up Fixture.broken_calculator OneGiBCard.catalogue
              OneGiBCard.host "GeForce GT 710" "sakura.gguf" None None
              "GeForce GT 710" OneGiBCard.card
              eq_refl ltac:(discriminate) eq_refl eq_refl eq_refl)
    as [a [Hc [_ [_ [_ Hex]]]]].
  exists a. split; [exact Hc|].
  exact (Hex (Fixture.model "sakura.gguf" 2) eq_refl eq_refl eq_refl).
Defined.

(** C1 as stated fails at its own example: with 2^30 + 1 bytes and a
    minimum of 2 GiB the verdict is capable, not [is_capable = false]. *)
Lemma static_check_rounds_up_counterexample :
  let verdict :=
    fst (check_gpu_ability Fixture.broken_calculator OneGiBCard.catalogue
           OneGiBCard.host "GeForce GT 710" "sakura.gguf" None None) in
  dedicated_gpu_memory OneGiBCard.card = 2 ^ 30 + 1 /\
  verdict = Ok {| is_capable := true; reason := "" |} /\
  ~ (exists a, verdict = Ok a /\ is_capable a = false).
Proof.
  split; [reflexivity|]. split; [reflexivity|].
  intros [a [Hv Hc]]. vm_compute in Hv. injection Hv as <-. discriminate Hc.
Qed.

Section FallbackFacts.

Variable calculate_sizes : ModelConfig -> result Sizes.
Variable SAKURA_LIST : list Sakura.

(** When the [try] raises, the verdict is the inline minimum check. *)
Lemma _check_dynamic_memory_fallback (info : GPUInfo) (model_name : string)
    (ctx np : option Z) (gpu_mem : Z) (m : Sakura) (e : exn) :
  avail_dedicated_gpu_memory info = Some gpu_mem ->
  SakuraList_getitem SAKURA_LIST model_name = Some m ->
  dynamic_attempt calculate_sizes info m gpu_mem ctx np = Raise e ->
  _check_dynamic_memory calculate_sizes SAKURA_LIST info model_name ctx np
  = Ok (if negb (minimal_gpu_memory_gib m =? 0)
           && (gpu_mem <? minimal_gpu_memory_gib m * 2 ^ 30)
        then {| is_capable := false;
                reason := Msg.fallback (name info)
                            (inject_Z (minimal_gpu_memory_gib m))
                            (BytesToGiB gpu_mem) |}
        else capable).
Proof.
  intros Hav Hm Hfail. unfold _check_dynamic_memory.
  rewrite Hav, Hm. cbv zeta. rewrite Hfail, GiBFacts.Qltb_bytes.
  destruct (negb (minimal_gpu_memory_gib m =? 0)
            && (gpu_mem <? minimal_gpu_memory_gib m * 2 ^ 30));
    reflexivity.
Qed.

(** The [try] raises when the first call of the calculator does. *)
Lemma dynamic_attempt_first_call (info : GPUInfo) (m : Sakura) (gpu_mem : Z)
    (ctx np : option Z) (e : exn) :
  calculate_sizes (to_model_config m (first_context ctx np)) = Raise e ->
  dynamic_attempt calculate_sizes info m gpu_mem ctx np = Raise e.
Proof.
  intros Hfail. unfold first_context in Hfail. unfold dynamic_attempt.
  destruct ctx as [c|], np as [n|];
    unfold recommend_config, calculate_memory_requirements;
    cbn [bind range_down recommend_loop];
    unfold calculate_memory_requirements;
    change (Z.of_nat 16) with 16; rewrite Hfail; reflexivity.
Qed.

Lemma recommend_loop_raise (m : Sakura) (avail : Q) (best : Config) (e : exn)
    (candidates : list Z) :
  recommend_loop calculate_sizes m avail candidates best = Raise e ->
  exists c, calculate_sizes (to_model_config m c) = Raise e.
Proof.
  induction candidates as [|np rest IH]; cbn [recommend_loop];
    [discriminate|].
  unfold calculate_memory_requirements at 1.
  destruct (calculate_sizes (to_model_config m (1536 * np))) as [sz|e'] eqn:E;
    cbn [bind].
  - destruct (Qle_bool (total_size_gib sz) avail); [discriminate | exact IH].
  - intros [= <-]. exists (1536 * np). exact E.
Qed.

(** Nothing but a call of the calculator raises inside the [try]. *)
Lemma dynamic_attempt_raise (info : GPUInfo) (m : Sakura) (gpu_mem : Z)
    (ctx np : option Z) (e : exn) :
  dynamic_attempt calculate_sizes info m gpu_mem ctx np = Raise e ->
  exists c, calculate_sizes (to_model_config m c) = Raise e.
Proof.
  unfold dynamic_attempt. cbv zeta.
  match goal with
  | |- bind ?cfg _ = _ -> _ => destruct cfg as [[c n]|e'] eqn:Hcfg
  end; cbn [bind].
  - unfold calculate_memory_requirements.
    destruct (calculate_sizes (to_model_config m c)) as [sz|e'] eqn:E;
      cbn [bind].
    + destruct (Qltb _ _); discriminate.
    + intros [= <-]. exists c. exact E.
  - intros [= <-].
    destruct ctx as [c|], np as [n|]; try discriminate Hcfg;
      exact (recommend_loop_raise _ _ _ _ _ Hcfg).
Qed.

End FallbackFacts.

(** C2 (amended).  In dynamic mode (the label resolves to a non-empty key
    of an NVIDIA or AMD device with a live reading) with a known model,
    when a call of the calculator raises, so that the [try] of the
    dynamic check raises, [check_gpu_ability] raises nothing and answers
    with the inline minimum check on the live reading: not capable, citing the minimum and the available GiB,
    when the model's minimum is non-zero and the available bytes are
    below it; capable otherwise.  The total memory and its rounding play
    no part. *)
Theorem dynamic_fallback
    (calculate_sizes : ModelConfig -> result Sizes) (SAKURA_LIST : list Sakura)
    (self : GPUManager) (label model_name : string) (ctx np : option Z)
    (k : string) (info : GPUInfo) (gpu_mem : Z) (m : Sakura) (e : exn) :
  GPUDisplayHelper.find_gpu_key label (gpu_info_map self) = Ok (Some k) ->
  k <> "" ->
  dict_get (gpu_info_map self) k = Some info ->
  supported (gpu_type info) = true ->
  avail_dedicated_gpu_memory info = Some gpu_mem ->
  SakuraList_getitem SAKURA_LIST model_name = Some m ->
  dynamic_attempt calculate_sizes info m gpu_mem ctx np = Raise e ->
  exists a,
    fst (check_gpu_ability calculate_sizes SAKURA_LIST self label model_name
           ctx np) = Ok a /\
    (minimal_gpu_memory_gib m <> 0 ->
     gpu_mem < minimal_gpu_memory_gib m * 2 ^ 30 ->
     a = {| is_capable := false;
            reason := Msg.fallback (name info)
                        (inject_Z (minimal_gpu_memory_gib m))
                        (BytesToGiB gpu_mem) |}) /\
    (minimal_gpu_memory_gib m = 0 \/ minimal_gpu_memory_gib m * 2 ^ 30 <= gpu_mem ->
     a = capable).
Proof.
  intros Hfind Hk Hget Hsup Hav Hm Hfail.
  rewrite (check_gpu_ability_resolved calculate_sizes SAKURA_LIST self label
             model_name ctx np k info Hfind Hk Hget Hsup), Hav.
  rewrite (_check_dynamic_memory_fallback calculate_sizes SAKURA_LIST info
             model_name ctx np gpu_mem m e Hav Hm Hfail).
  eexists. split; [reflexivity|]. split.
  - intros Hz Hlt.
    destruct (Z.eqb_spec (minimal_gpu_memory_gib m) 0); [contradiction|].
    destruct (Z.ltb_spec gpu_mem (minimal_gpu_memory_gib m * 2 ^ 30)); [|lia].
    reflexivity.
  - intros [Hz|Hge].
    + rewrite Hz. reflexivity.
    + destruct (Z.ltb_spec gpu_mem (minimal_gpu_memory_gib m * 2 ^ 30)); [lia|].
      rewrite andb_false_r. reflexivity.
Qed.

Lemma dynamic_fallback_witness :
  GPUDisplayHelper.find_gpu_key "00000000:01:00.0" (gpu_info_map BusyCard.host)
  = Ok (Some "00000000:01:00.0") /\
  dynamic_attempt Fixture.broken_calculator BusyCard.card
    (Fixture.model "sakura.gguf" 4) (1 * Fixture.GiB) None None
  = Raise (OtherException "calculator") /\
  fst (check_gpu_ability Fixture.broken_calculator BusyCard.catalogue
         BusyCard.host "00000000:01:00.0" "sakura.gguf" None None)
  = Ok {| is_capable := false;
          reason := Msg.fallback "NVIDIA GeForce RTX 3070" (inject_Z 4)
                      (BytesToGiB (1 * Fixture.GiB)) |}.
Proof.
  split; [reflexivity|]. split; [reflexivity|].
  destruct (dynamic_fallback Fixture.broken_calculator BusyCard.catalogue
              BusyCard.host "00000000:01:00.0" "sakura.gguf" None None
              "00000000:01:00.0" BusyCard.card (1 * Fixture.GiB)
              (Fixture.model "sakura.gguf" 4) (OtherException "calculator")
              eq_refl ltac:(discriminate) eq_refl eq_refl eq_refl eq_refl eq_refl)
    as [a [Hc [Hlow _]]].
  rewrite Hc. f_equal. apply Hlow; [discriminate | reflexivity].
Defined.

(** C2 as stated fails: with 8 GiB in total, 1 GiB free and a minimum of
    4 GiB the fallback refuses (1 < 4) where the static check of the
    total (8 >= 4) accepts. *)
Lemma dynamic_fallback_counterexample :
  let verdict :=
    fst (check_gpu_ability Fixture.broken_calculator BusyCard.catalogue
           BusyCard.host "00000000:01:00.0" "sakura.gguf" None None) in
  _check_static_memory BusyCard.catalogue BusyCard.card "sakura.gguf" = capable /\
  (exists a, verdict = Ok a /\ is_capable a = false) /\
  verdict
  <> Ok (_check_static_memory BusyCard.catalogue BusyCard.card "sakura.gguf").
Proof.
  split; [reflexivity|]. split.
  - eexists. split; reflexivity.
  - intros H. vm_compute in H. discriminate H.
Qed.

(** ** The recommendation search *)

Section SearchFacts.

Variable calculate_sizes : ModelConfig -> result Sizes.
Variable sakura : Sakura.
Variable available_memory_gib : Q.

Local Abbreviation fits := (fits calculate_sizes sakura available_memory_gib).
Local Abbreviation too_big :=
  (too_big calculate_sizes sakura available_memory_gib).
Local Abbreviation answers := (answers calculate_sizes sakura).

Lemma recommend_loop_cons (np : Z) (rest : list Z) (best : Config) :
  recommend_loop calculate_sizes sakura available_memory_gib (np :: rest) best
  = (mem_req <- calculate_sizes (request sakura np) ;;
     if Qle_bool (total_size_gib mem_req) available_memory_gib
     then Ok {| context_length := 1536 * np; n_parallel := np |}
     else recommend_loop calculate_sizes sakura available_memory_gib rest best).
Proof. reflexivity. Qed.

Lemma range_down_succ (n : nat) :
  range_down (S n) = Z.of_nat (S n) :: range_down n.
Proof. reflexivity. Qed.

(** The loop over [n, n-1, ..., 1]: the largest candidate that fits, all
    larger ones having been asked and found too big; [best] when none
    fits.  The calculator need only answer where the loop gets to. *)
Lemma recommend_loop_range (best : Config) (n : nat) :
  (forall q, 1 <= q <= Z.of_nat n ->
             (forall r, q < r <= Z.of_nat n -> too_big r) -> answers q) ->
  exists cfg,
    recommend_loop calculate_sizes sakura available_memory_gib
      (range_down n) best = Ok cfg /\
    ((exists p, 1 <= p <= Z.of_nat n /\
                cfg = {| context_length := 1536 * p; n_parallel := p |} /\
                fits p /\
                forall q, p < q <= Z.of_nat n -> too_big q)
     \/ (cfg = best /\ forall q, 1 <= q <= Z.of_nat n -> too_big q)).
Proof.
  induction n as [|n IH]; intros Hans.
  - exists best. split; [reflexivity|]. right. split; [reflexivity|].
    intros q Hq. simpl in Hq. lia.
  - rewrite range_down_succ, recommend_loop_cons.
    destruct (Hans (Z.of_nat (S n)) ltac:(lia) ltac:(intros; lia)) as [sz Hsz].
    rewrite Hsz. cbn [bind].
    destruct (Qle_bool (total_size_gib sz) available_memory_gib) eqn:Hle.
    + eexists. split; [reflexivity|]. left.
      exists (Z.of_nat (S n)). split; [lia|]. split; [reflexivity|]. split.
      * exists sz. split; [exact Hsz | apply Qle_bool_iff, Hle].
      * intros q Hq. lia.
    + assert (Htop : too_big (Z.of_nat (S n))).
      { exists sz. split; [exact Hsz|]. apply Qnot_le_lt. intros Hc.
        apply Qle_bool_iff in Hc. rewrite Hc in Hle. discriminate Hle. }
      assert (Hext : forall q, (forall r, q < r <= Z.of_nat n -> too_big r) ->
                               forall r, q < r <= Z.of_nat (S n) -> too_big r).
      { intros q Hq r Hr.
        destruct (Z.eq_dec r (Z.of_nat (S n))) as [->|Hne]; [exact Htop|].
        apply Hq. lia. }
      destruct IH as [cfg [Hcfg Hcase]].
      { intros q Hq Hbig. apply Hans; [lia|]. apply Hext, Hbig. }
      exists cfg. split; [exact Hcfg|].
      destruct Hcase as [[p [Hp [Hc [Hfit Hbig]]]]|[Hc Hbig]].
      * left. exists p. split; [lia|]. split; [exact Hc|].
        split; [exact Hfit|]. apply Hext, Hbig.
      * right. split; [exact Hc|]. intros q Hq.
        destruct (Z.eq_dec q (Z.of_nat (S n))) as [->|Hne]; [exact Htop|].
        apply Hbig. lia.
Qed.

(** The loop over [n, n-1, ..., 1] when the calculator raises at a
    candidate it gets to. *)
Lemma recommend_loop_range_raise (best : Config) (e : exn) (q : Z) (n : nat) :
  1 <= q <= Z.of_nat n ->
  calculate_sizes (request sakura q) = Raise e ->
  (forall r, q < r <= Z.of_nat n -> too_big r) ->
  recommend_loop calculate_sizes sakura available_memory_gib
    (range_down n) best = Raise e.
Proof.
  induction n as [|n IH]; intros Hq Hraise Hbig; [simpl in Hq; lia|].
  rewrite range_down_succ, recommend_loop_cons.
  destruct (Z.eq_dec q (Z.of_nat (S n))) as [<-|Hne].
  - rewrite Hraise. reflexivity.
  - destruct (Hbig (Z.of_nat (S n)) ltac:(lia)) as [sz [Hsz Hlt]].
    rewrite Hsz. cbn [bind].
    destruct (Qle_bool (total_size_gib sz) available_memory_gib) eqn:Hle.
    + apply Qle_bool_iff in Hle. destruct (Qlt_not_le _ _ Hlt Hle).
    + apply IH; [lia | exact Hraise | intros r Hr; apply Hbig; lia].
Qed.

End SearchFacts.

(** C3 (amended).  [recommend_config] asks the calculator for the
    candidates 16, 15, ..., 1 in turn, each with the context length
    [1536 * p], and stops at the first answer that fits.  Provided the
    calculator answers wherever the search gets to (at 16, and at each
    smaller candidate once every larger one was too big), it returns a
    configuration: parallelism [p] and context length [1536 * p] for the
    largest [p] in 1..16 whose requirement is at most the available
    memory, every larger candidate having been too big and no smaller
    one being asked; or the floor [{context_length: 1536, n_parallel:
    1}] when every candidate in 1..16 is too big.  So what it returns
    fits the available memory unless it is that floor.  When the
    calculator raises at a candidate the search gets to, the search
    raises the same and returns no configuration. *)
Theorem recommend_config_largest_fit
    (calculate_sizes : ModelConfig -> result Sizes) (sakura : Sakura)
    (available_memory_gib : Q) :
  ((forall q, 1 <= q <= 16 ->
              (forall r, q < r <= 16 ->
                         too_big calculate_sizes sakura available_memory_gib r) ->
              answers calculate_sizes sakura q) ->
   exists cfg,
     recommend_config calculate_sizes sakura available_memory_gib = Ok cfg /\
     ((exists p, 1 <= p <= 16 /\
                 cfg = {| context_length := 1536 * p; n_parallel := p |} /\
                 fits calculate_sizes sakura available_memory_gib p /\
                 forall q, p < q <= 16 ->
                           too_big calculate_sizes sakura available_memory_gib q)
      \/ (cfg = {| context_length := 1536; n_parallel := 1 |} /\
          forall q, 1 <= q <= 16 ->
                    too_big calculate_sizes sakura available_memory_gib q))) /\
  (forall q e,
     1 <= q <= 16 ->
     calculate_sizes (request sakura q) = Raise e ->
     (forall r, q < r <= 16 ->
                too_big calculate_sizes sakura available_memory_gib r) ->
     recommend_config calculate_sizes sakura available_memory_gib = Raise e).
Proof.
  unfold recommend_config. split.
  - intros Hans.
    apply (recommend_loop_range calculate_sizes sakura available_memory_gib
             {| context_length := 1536; n_parallel := 1 |} 16).
    exact Hans.
  - intros q e Hq Hraise Hbig.
    apply (recommend_loop_range_raise calculate_sizes sakura
             available_memory_gib {| context_length := 1536; n_parallel := 1 |}
             e q 16); assumption.
Qed.

(** 12 GiB free and 1.2 GiB for each 1536 tokens: ten slots fit, eleven
    do not. *)
Lemma recommend_config_largest_fit_witness :
  recommend_config Fixture.linear_calculator (Fixture.model "sakura.gguf" 8)
    (inject_Z 12)
  = Ok {| context_length := 15360; n_parallel := 10 |}.
Proof.
  destruct (proj1 (recommend_config_largest_fit Fixture.linear_calculator
                     (Fixture.model "sakura.gguf" 8) (inject_Z 12))
              (fun q _ _ => ex_intro _ _ eq_refl))
    as [cfg [Hcfg _]].
  rewrite Hcfg. symmetry. vm_compute in Hcfg. exact Hcfg.
Defined.

(** C3 as stated fails: with a calculator that raises, no parallelism in
    1..16 has a requirement within the available memory, yet the floor
    is not returned: the search raises what the calculator raised. *)
Lemma recommend_config_largest_fit_counterexample :
  (forall p, ~ fits Fixture.broken_calculator (Fixture.model "sakura.gguf" 8)
                 (inject_Z 24) p) /\
  recommend_config Fixture.broken_calculator (Fixture.model "sakura.gguf" 8)
    (inject_Z 24)
  = Raise (OtherException "calculator") /\
  recommend_config Fixture.broken_calculator (Fixture.model "sakura.gguf" 8)
    (inject_Z 24)
  <> Ok {| context_length := 1536; n_parallel := 1 |}.
Proof.
  split; [|split].
  - intros p [sz [Hsz _]]. discriminate Hsz.
  - reflexivity.
  - discriminate.
Qed.

(** ** The index of a bus id *)

Module IntFacts.
Import PyStr.

Lemma long_from_digits_raise (base : Z) (s : string) :
  forall prev k acc e,
    long_from_digits base s prev k acc = Raise e -> e = ValueError.
Proof.
  induction s as [|c s IH]; intros prev k acc e; simpl.
  - destruct prev; [congruence|]. destruct k; congruence.
  - destruct (Ascii.eqb c underscore).
    + destruct prev; [congruence | apply IH].
    + destruct (digit_value c) as [d|]; [|congruence].
      destruct (d <? base); [apply IH | congruence].
Qed.

Lemma int_raise (s : string) (base : Z) (e : exn) :
  int s base = Raise e -> e = ValueError.
Proof.
  unfold int.
  destruct (split_sign (rstrip whitespace (lstrip whitespace s))) as [sign s2].
  assert (H : forall t, (v <- long_from_digits base t false O 0 ;; Ok (sign * v))
                        = Raise e -> e = ValueError).
  { intros t. destruct (long_from_digits base t false O 0) eqn:E; simpl;
      [discriminate|].
    intros [= <-]. exact (long_from_digits_raise _ _ _ _ _ _ E). }
  destruct (skip_base_prefix base s2) as [|c r]; [apply H|].
  destruct (Ascii.eqb c underscore); [congruence | apply H].
Qed.

Lemma digit_value_nonneg (c : ascii) (d : Z) :
  digit_value c = Some d -> 0 <= d.
Proof.
  unfold digit_value. cbv zeta.
  repeat match goal with
         | |- context [?a <=? ?b] => destruct (Z.leb_spec a b)
         end; simpl; intros [= <-]; lia.
Qed.

Lemma long_from_digits_nonneg (base : Z) (s : string) :
  0 <= base ->
  forall prev k acc v,
    0 <= acc -> long_from_digits base s prev k acc = Ok v -> 0 <= v.
Proof.
  intros Hb. induction s as [|c s IH]; intros prev k acc v Hacc; simpl.
  - destruct prev; [discriminate|]. destruct k; [discriminate|].
    intros [= <-]. exact Hacc.
  - destruct (Ascii.eqb c underscore).
    + destruct prev; [discriminate | apply IH, Hacc].
    + destruct (digit_value c) as [d|] eqn:Hd; [|discriminate].
      destruct (d <? base); [|discriminate].
      apply IH. pose proof (digit_value_nonneg c d Hd). nia.
Qed.

Lemma split_sign_cases (s : string) :
  (exists r, s = String "-" r /\ split_sign s = (-1, r))
  \/ fst (split_sign s) = 1.
Proof.
  destruct s as [|c r]; [right; reflexivity|]. simpl.
  destruct (Ascii.eqb c "+"); [right; reflexivity|].
  destruct (Ascii.eqb_spec c "-") as [->|_]; [|right; reflexivity].
  left. exists r. split; reflexivity.
Qed.

(** A negative result needs a minus sign in front. *)
Lemma int_negative (s : string) (base v : Z) :
  0 <= base -> int s base = Ok v -> v < 0 ->
  exists r, rstrip whitespace (lstrip whitespace s) = String "-" r.
Proof.
  intros Hb. unfold int.
  destruct (split_sign_cases (rstrip whitespace (lstrip whitespace s)))
    as [[r [Hs _]]|Hone]; [intros _ _; exists r; exact Hs|].
  destruct (split_sign (rstrip whitespace (lstrip whitespace s)))
    as [sign s2].
  simpl in Hone. subst sign.
  assert (H : forall t, (x <- long_from_digits base t false O 0 ;; Ok (1 * x))
                        = Ok v -> v < 0 -> False).
  { intros t. destruct (long_from_digits base t false O 0) as [x|] eqn:E;
      simpl; [|discriminate].
    intros [= <-] Hneg.
    pose proof (long_from_digits_nonneg base t Hb false O 0 x
                  (Z.le_refl 0) E).
    destruct x; simpl in Hneg; lia. }
  destruct (skip_base_prefix base s2) as [|c r].
  - intros H1 H2. destruct (H _ H1 H2).
  - destruct (Ascii.eqb c underscore); [discriminate|].
    intros H1 H2. destruct (H _ H1 H2).
Qed.

Lemma list_getitem_raise {A : Type} (l : list A) (i : Z) (e : exn) :
  list_getitem l i = Raise e -> e = IndexError.
Proof.
  unfold list_getitem.
  destruct ((_ <? 0) || (_ <=? _)); [congruence|].
  destruct (nth_error _ _); congruence.
Qed.

End IntFacts.

(** C8 (amended).  [get_gpu_index_from_pci] returns an integer for every
    text and raises nothing.  The integer is 0 when the text is empty or
    has no [:], and when the field after the first [:] is not a base-16
    literal; it is negative only when that field, stripped of
    whitespace, starts with a minus sign. *)
Theorem get_gpu_index_from_pci_total (pci_bus_id : string) :
  exists n,
    get_gpu_index_from_pci pci_bus_id = Ok n /\
    (str_truthy pci_bus_id && PyStr.contains ":" pci_bus_id = false -> n = 0) /\
    (forall field e,
       list_getitem (PyStr.split ":" pci_bus_id) 1 = Ok field ->
       PyStr.int field 16 = Raise e -> n = 0) /\
    (n < 0 ->
     exists field rest,
       list_getitem (PyStr.split ":" pci_bus_id) 1 = Ok field /\
       PyStr.rstrip PyStr.whitespace (PyStr.lstrip PyStr.whitespace field)
       = String "-" rest).
Proof.
  unfold get_gpu_index_from_pci.
  destruct (str_truthy pci_bus_id && PyStr.contains ":" pci_bus_id).
  2:{ exists 0. repeat split; try reflexivity. intros H; lia. }
  destruct (list_getitem (PyStr.split ":" pci_bus_id) 1) as [field|e] eqn:Hf.
  - cbn [bind].
    destruct (PyStr.int field 16) as [v|e] eqn:Hv; cbn [bind].
    + exists v. split; [reflexivity|]. split; [discriminate|]. split.
      * intros f e [= <-] He. congruence.
      * intros Hneg. exists field.
        destruct (IntFacts.int_negative field 16 v ltac:(lia) Hv Hneg) as [r Hr].
        exists r. split; [reflexivity | exact Hr].
    + rewrite (IntFacts.int_raise _ _ _ Hv). cbn.
      exists 0. repeat split; try reflexivity; try discriminate.
  - cbn [bind]. rewrite (IntFacts.list_getitem_raise _ _ _ Hf). cbn.
    exists 0. repeat split; try reflexivity; try discriminate.
Qed.

(** C8 as stated fails: [int(x, 16)] takes a sign, so a bus id whose
    second field is [-1] gives the index [-1], neither non-negative nor
    the 0 of a malformed input. *)
Lemma get_gpu_index_from_pci_counterexample :
  get_gpu_index_from_pci "00000000:-1:00.0" = Ok (-1) /\
  ~ (exists n, get_gpu_index_from_pci "00000000:-1:00.0" = Ok n /\ 0 <= n).
Proof.
  split; [reflexivity|].
  intros [n [H Hn]]. vm_compute in H. injection H as <-. lia.
Qed.

(** ** Resolution of a label, where the parse succeeds *)

Module ResolveFacts.
Import GPUDisplayHelper.

Lemma list_getitem_in_range {A : Type} (l : list A) (i : Z) :
  0 <= i < Z.of_nat (List.length l) ->
  exists x, nth_error l (Z.to_nat i) = Some x /\ list_getitem l i = Ok x.
Proof.
  intros Hi. unfold list_getitem. cbv zeta.
  destruct (Z.ltb_spec i 0); [lia|].
  destruct (Z.ltb_spec i 0); [lia|].
  destruct (Z.leb_spec (Z.of_nat (List.length l)) i); [lia|].
  cbn [orb].
  destruct (nth_error l (Z.to_nat i)) as [x|] eqn:E.
  - exists x. split; reflexivity.
  - apply nth_error_None in E. lia.
Qed.

(** A label that is a key resolves to itself. *)
Lemma find_gpu_key_is_key (label : string) (m : dict GPUInfo) :
  dict_in label m = true -> find_gpu_key label m = Ok (Some label).
Proof. intros H. unfold find_gpu_key. rewrite H. reflexivity. Qed.

(** Otherwise, when the parse gives a name and no index or an index
    that is not negative: the match at that index if there is one, else
    the first match, else nothing. *)
Lemma find_gpu_key_order (label : string) (m : dict GPUInfo)
    (gpu_name : string) (gpu_index : option Z) :
  dict_in label m = false ->
  parse_display_name label = Ok (gpu_name, gpu_index) ->
  (forall i, gpu_index = Some i -> 0 <= i) ->
  find_gpu_key label m
  = Ok (match gpu_index with
        | Some i =>
            match nth_error (matching_keys gpu_name m) (Z.to_nat i) with
            | Some k => Some k
            | None => hd_error (matching_keys gpu_name m)
            end
        | None => hd_error (matching_keys gpu_name m)
        end).
Proof.
  intros Hin Hparse Hpos. unfold find_gpu_key.
  rewrite Hin, Hparse. cbn [bind].
  destruct (matching_keys gpu_name m) as [|k0 ks] eqn:Hkeys.
  - destruct gpu_index as [i|]; [|reflexivity].
    destruct (Z.to_nat i); reflexivity.
  - destruct gpu_index as [i|]; [|reflexivity].
    specialize (Hpos i eq_refl).
    destruct (Z.ltb_spec i (Z.of_nat (List.length (k0 :: ks)))) as [Hlt|Hge].
    + destruct (list_getitem_in_range (k0 :: ks) i (conj Hpos Hlt))
        as [x [Hn Hg]].
      rewrite Hg, Hn. reflexivity.
    + assert (Hn : nth_error (k0 :: ks) (Z.to_nat i) = None)
        by (apply nth_error_None; lia).
      rewrite Hn. reflexivity.
Qed.

Lemma matching_keys_in_map (gpu_name k : string) (m : dict GPUInfo) :
  In k (matching_keys gpu_name m) -> dict_in k m = true.
Proof.
  unfold dict_in.
  induction m as [|[k0 info] m IH]; simpl; [contradiction|].
  intros Hin. destruct (String.eqb_spec k0 k) as [_|Hne]; [reflexivity|].
  apply IH. destruct (String.eqb (name info) gpu_name); [|exact Hin].
  destruct Hin as [E|Hin]; [contradiction | exact Hin].
Qed.

Lemma list_getitem_In {A : Type} (l : list A) (i : Z) (x : A) :
  list_getitem l i = Ok x -> In x l.
Proof.
  unfold list_getitem. cbv zeta.
  destruct ((_ <? 0) || (_ <=? _)); [discriminate|].
  destruct (nth_error l _) as [y|] eqn:E; [|discriminate].
  intros [= <-]. exact (nth_error_In _ _ E).
Qed.

(** Whatever key [find_gpu_key] returns is a key of the map: the lookups
    [self.gpu_info_map[gpu_key]] of its callers find their device. *)
Lemma find_gpu_key_in_map (label k : string) (m : dict GPUInfo) :
  find_gpu_key label m = Ok (Some k) -> dict_in k m = true.
Proof.
  unfold find_gpu_key.
  destruct (dict_in label m) eqn:Hin; [intros [= <-]; exact Hin|].
  destruct (parse_display_name label) as [[gpu_name gpu_index]|e];
    cbn [bind]; [|discriminate].
  destruct (matching_keys gpu_name m) as [|k0 ks] eqn:Hkeys; [discriminate|].
  rewrite <- Hkeys.
  assert (H : forall i, (x <- list_getitem (matching_keys gpu_name m) i ;;
                         Ok (Some x)) = Ok (Some k) -> dict_in k m = true).
  { intros i. destruct (list_getitem _ i) as [x|e] eqn:E; cbn [bind];
      [|discriminate].
    intros [= <-].
    exact (matching_keys_in_map gpu_name x m (list_getitem_In _ _ _ E)). }
  destruct gpu_index as [i|]; [|apply H].
  destruct (i <? _); apply H.
Qed.

(** [parse_display_name] raises only [ValueError], and only when the
    split on the marker has other than two fields. *)
Lemma parse_display_name_failure (label : string) (e : exn) :
  parse_display_name label = Raise e ->
  e = ValueError /\ List.length (PyStr.split marker label) <> 2%nat.
Proof.
  unfold parse_display_name.
  destruct (PyStr.contains marker label && PyStr.contains ")" label);
    [|discriminate].
  destruct (PyStr.split marker label) as [|f1 [|f2 [|f3 fs]]];
    try (intros [= <-]; split; [reflexivity | discriminate]).
  destruct (PyStr.int (PyStr.rstrip ")" f2) 10) as [v|e'] eqn:E;
    [discriminate|].
  rewrite (IntFacts.int_raise _ _ _ E). discriminate.
Qed.

End ResolveFacts.

(** * Further properties of the code *)

(** ** Label resolution *)

Module LabelFacts.
Import GPUDisplayHelper.

Lemma matching_keys_none (gpu_name : string) (m : dict GPUInfo) :
  (forall k info, In (k, info) m -> name info <> gpu_name) ->
  matching_keys gpu_name m = [].
Proof.
  induction m as [|[k info] m IH]; intros H; simpl; [reflexivity|].
  destruct (String.eqb_spec (name info) gpu_name) as [E|_].
  - destruct (H k info (or_introl eq_refl) E).
  - apply IH. intros k' info' Hin. apply (H k' info'). right. exact Hin.
Qed.

Lemma find_gpu_key_raise (label : string) (m : dict GPUInfo) (e : exn) :
  find_gpu_key label m = Raise e -> e = ValueError \/ e = IndexError.
Proof.
  unfold find_gpu_key.
  destruct (dict_in label m); [discriminate|].
  destruct (parse_display_name label) as [[gpu_name gpu_index]|e'] eqn:Hp;
    cbn [bind].
  - destruct (matching_keys gpu_name m) as [|k0 ks] eqn:Hk; [discriminate|].
    assert (H : forall i,
               (x <- list_getitem (k0 :: ks) i ;; Ok (Some x))
               = Raise e -> e = IndexError).
    { intros i. destruct (list_getitem _ i) as [x|e''] eqn:E; cbn [bind];
        [discriminate|].
      intros [= <-]. exact (IntFacts.list_getitem_raise _ _ _ E). }
    destruct gpu_index as [i|]; [destruct (i <? _)|]; intros Hr; right;
      exact (H _ Hr).
  - intros [= <-]. left.
    exact (proj1 (ResolveFacts.parse_display_name_failure label e' Hp)).
Qed.

Lemma contains_app_l (sub a b : string) :
  PyStr.contains sub a = true -> PyStr.contains sub (a ++ b) = true.
Proof.
  assert (Hs : forall s t u, PyStr.starts s t = true ->
                             PyStr.starts s (t ++ u) = true).
  { induction s as [|c s IH]; intros t u; [reflexivity|].
    destruct t as [|d t]; simpl; [discriminate|].
    intros H. apply andb_prop in H. destruct H as [H1 H2].
    rewrite H1, (IH _ _ H2). reflexivity. }
  induction a as [|c a IH].
  - simpl. destruct sub; [intros _|discriminate].
    destruct b; reflexivity.
  - change (PyStr.contains sub (String c a))
      with (PyStr.starts sub (String c a) || PyStr.contains sub a).
    change (PyStr.contains sub (String c a ++ b))
      with (PyStr.starts sub (String c a ++ b) || PyStr.contains sub (a ++ b)).
    intros H. apply orb_prop in H. destruct H as [H|H].
    + rewrite (Hs sub (String c a) b H). reflexivity.
    + rewrite (IH H). apply orb_true_r.
Qed.

Lemma matching_keys_In (gpu_name k : string) (m : dict GPUInfo) :
  In k (matching_keys gpu_name m) ->
  exists info, In (k, info) m /\ name info = gpu_name.
Proof.
  induction m as [|[k0 info0] m IH]; simpl; [contradiction|].
  destruct (String.eqb_spec (name info0) gpu_name) as [E|_].
  - intros [<-|Hin].
    + exists info0. split; [left; reflexivity | exact E].
    + destruct (IH Hin) as [info [H1 H2]]. exists info.
      split; [right; exact H1 | exact H2].
  - intros Hin. destruct (IH Hin) as [info [H1 H2]]. exists info.
    split; [right; exact H1 | exact H2].
Qed.

Lemma dict_get_In {V : Type} (d : dict V) (k : string) (v : V) :
  dict_get d k = Some v -> In (k, v) d.
Proof.
  induction d as [|[k0 v0] d IH]; simpl; [discriminate|].
  destruct (String.eqb_spec k0 k) as [->|_].
  - intros [= <-]. left. reflexivity.
  - intros H. right. exact (IH H).
Qed.

Lemma parse_no_marker (label : string) :
  PyStr.contains marker label = false ->
  parse_display_name label = Ok (label, None).
Proof. intros H. unfold parse_display_name. rewrite H. reflexivity. Qed.

End LabelFacts.

(** X1.  A key that [find_gpu_key] returns is a key of the map; unless it
    is the label itself, a device stored under it has the name parsed
    from the label. *)
Theorem find_gpu_key_returns_map_key (label k : string) (m : dict GPUInfo) :
  GPUDisplayHelper.find_gpu_key label m = Ok (Some k) ->
  dict_in k m = true /\
  exists info,
    In (k, info) m /\
    (k = label \/
     exists i, GPUDisplayHelper.parse_display_name label = Ok (name info, i)).
Proof.
  intros Hfind. split; [exact (ResolveFacts.find_gpu_key_in_map _ _ _ Hfind)|].
  revert Hfind. unfold GPUDisplayHelper.find_gpu_key.
  destruct (dict_in label m) eqn:Hin.
  - intros [= <-]. unfold dict_in in Hin.
    destruct (dict_get m label) as [info|] eqn:Hg; [|discriminate].
    exists info. split; [exact (LabelFacts.dict_get_In _ _ _ Hg) | left; reflexivity].
  - destruct (GPUDisplayHelper.parse_display_name label)
      as [[gpu_name gpu_index]|e]; cbn [bind]; [|discriminate].
    destruct (GPUDisplayHelper.matching_keys gpu_name m) as [|k0 ks] eqn:Hk;
      [discriminate|].
    rewrite <- Hk.
    assert (H : forall j,
               (x <- list_getitem (GPUDisplayHelper.matching_keys gpu_name m) j ;;
                Ok (Some x)) = Ok (Some k) ->
               exists info,
                 In (k, info) m /\
                 (k = label \/
                  exists i, Ok (gpu_name, gpu_index) = Ok (name info, i))).
    { intros j. destruct (list_getitem _ j) as [x|e] eqn:E; cbn [bind];
        [|discriminate].
      intros [= <-].
      destruct (LabelFacts.matching_keys_In gpu_name x m
                  (ResolveFacts.list_getitem_In _ _ _ E)) as [info [H1 H2]].
      exists info. split; [exact H1|]. right. exists gpu_index.
      rewrite H2. reflexivity. }
    destruct gpu_index as [i|]; [destruct (i <? _)|]; apply H.
Qed.

Lemma find_gpu_key_returns_map_key_witness :
  let m := gpu_info_map TwoNvidiaOneAmd.host in
  GPUDisplayHelper.find_gpu_key "NVIDIA GeForce RTX 3090 (GPU 0)" m
  = Ok (Some "00000000:01:00.0") /\
  dict_in "00000000:01:00.0" m = true.
Proof.
  intro m. split; [reflexivity|].
  exact (proj1 (find_gpu_key_returns_map_key "NVIDIA GeForce RTX 3090 (GPU 0)"
                  "00000000:01:00.0" m eq_refl)).
Defined.

(** X2.  For a label that is not a key and whose parse gives a name and no
    index, or an index that is not negative, [find_gpu_key] returns the
    match at that position among the keys of the devices of that name
    (in map order), the first match when the position is out of range or
    there is no index, and [None] when no device has the name. *)
Theorem find_gpu_key_selects_by_position (label : string) (m : dict GPUInfo)
    (gpu_name : string) (gpu_index : option Z) :
  dict_in label m = false ->
  GPUDisplayHelper.parse_display_name label = Ok (gpu_name, gpu_index) ->
  (forall i, gpu_index = Some i -> 0 <= i) ->
  let keys := GPUDisplayHelper.matching_keys gpu_name m in
  GPUDisplayHelper.find_gpu_key label m
  = Ok (match gpu_index with
        | Some i =>
            match nth_error keys (Z.to_nat i) with
            | Some k => Some k
            | None => hd_error keys
            end
        | None => hd_error keys
        end).
Proof. intros Hin Hp Hpos keys. apply ResolveFacts.find_gpu_key_order; assumption. Qed.

Lemma find_gpu_key_selects_by_position_witness :
  let m := gpu_info_map TwoNvidiaOneAmd.host in
  GPUDisplayHelper.find_gpu_key "NVIDIA GeForce RTX 3090 (GPU 7)" m
  = Ok (Some "00000000:01:00.0") /\
  GPUDisplayHelper.find_gpu_key "NVIDIA GeForce RTX 3090" m
  = Ok (Some "00000000:01:00.0") /\
  GPUDisplayHelper.find_gpu_key "NVIDIA GeForce RTX 4090 (GPU 0)" m = Ok None.
Proof.
  intro m.
  refine (conj _ (conj _ _)).
  - apply (find_gpu_key_selects_by_position "NVIDIA GeForce RTX 3090 (GPU 7)" m
             "NVIDIA GeForce RTX 3090" (Some 7) eq_refl eq_refl).
    intros i [= <-]. discriminate.
  - apply (find_gpu_key_selects_by_position "NVIDIA GeForce RTX 3090" m
             "NVIDIA GeForce RTX 3090" None eq_refl eq_refl).
    intros i H. discriminate H.
  - apply (find_gpu_key_selects_by_position "NVIDIA GeForce RTX 4090 (GPU 0)" m
             "NVIDIA GeForce RTX 4090" (Some 0) eq_refl eq_refl).
    intros i [= <-]. discriminate.
Defined.

(** X3.  Take a device with a bus id, an index that is not negative, a
    device name in which the marker does not occur, also not once a
    space is appended (the name does not end in [ (GPU]), and a map of
    which the rendered label is not itself a key.  Then the label
    [create_display_name] renders carries the index, and [find_gpu_key]
    reads that index back as a position among the keys of the devices of
    that name, in map order: the label resolves to the key at that
    position, to the first key of that name when there are not that
    many, and to [None] when no device has the name.  It does not look
    at the bus id the index came from. *)
Theorem find_gpu_key_of_display_name (d : GPUInfo) (i : Z) (m : dict GPUInfo) :
  opt_str_truthy (pci_bus_id d) = true ->
  0 <= i ->
  PyStr.contains GPUDisplayHelper.marker (name d ++ " ") = false ->
  dict_in (GPUDisplayHelper.create_display_name d i) m = false ->
  let keys := GPUDisplayHelper.matching_keys (name d) m in
  GPUDisplayHelper.find_gpu_key (GPUDisplayHelper.create_display_name d i) m
  = Ok (match nth_error keys (Z.to_nat i) with
        | Some k => Some k
        | None => hd_error keys
        end).
Proof.
  intros Hpci Hi Hname Hin keys.
  apply (ResolveFacts.find_gpu_key_order _ m (name d) (Some i) Hin).
  - unfold GPUDisplayHelper.create_display_name. rewrite Hpci.
    apply DisplayFacts.parse_label; assumption.
  - intros j [= <-]. exact Hi.
Qed.

(** Two cards of one name on buses 1 and 2: the label of the card on bus 1
    resolves to the card on bus 2, and the label of the card on bus 2 to
    the card on bus 1. *)
Lemma find_gpu_key_of_display_name_witness :
  let m := gpu_info_map TwoNvidiaOneAmd.host in
  let first := TwoNvidiaOneAmd.rtx "00000000:01:00.0" in
  let second := TwoNvidiaOneAmd.rtx "00000000:02:00.0" in
  get_gpu_index_from_pci "00000000:01:00.0" = Ok 1 /\
  get_gpu_index_from_pci "00000000:02:00.0" = Ok 2 /\
  GPUDisplayHelper.find_gpu_key (GPUDisplayHelper.create_display_name first 1) m
  = Ok (Some "00000000:02:00.0") /\
  GPUDisplayHelper.find_gpu_key (GPUDisplayHelper.create_display_name second 2) m
  = Ok (Some "00000000:01:00.0").
Proof.
  intros m first second.
  refine (conj eq_refl (conj eq_refl (conj _ _))).
  - apply (find_gpu_key_of_display_name first 1 m eq_refl); try reflexivity.
    discriminate.
  - apply (find_gpu_key_of_display_name second 2 m eq_refl); try reflexivity.
    discriminate.
Defined.

(** X4.  What [parse_display_name] can answer: it raises nothing but
    [ValueError], and only when the split on the marker has other than
    two fields; an answer without index has the whole label as its name;
    an answer with an index comes from a split into exactly the name and
    a field that reads as that integer once its closing parentheses are
    stripped; a label without the marker is answered whole. *)
Theorem parse_display_name_answers (label : string) :
  (forall e, GPUDisplayHelper.parse_display_name label = Raise e ->
             e = ValueError /\
             List.length (PyStr.split GPUDisplayHelper.marker label) <> 2%nat) /\
  (forall n, GPUDisplayHelper.parse_display_name label = Ok (n, None) ->
             n = label) /\
  (forall n i, GPUDisplayHelper.parse_display_name label = Ok (n, Some i) ->
               exists field,
                 PyStr.split GPUDisplayHelper.marker label = [n; field] /\
                 PyStr.int (PyStr.rstrip ")" field) 10 = Ok i) /\
  (PyStr.contains GPUDisplayHelper.marker label = false ->
   GPUDisplayHelper.parse_display_name label = Ok (label, None)).
Proof.
  split; [exact (ResolveFacts.parse_display_name_failure label)|].
  split; [|split; [|exact (LabelFacts.parse_no_marker label)]].
  - intros n. unfold GPUDisplayHelper.parse_display_name.
    destruct (_ && _); [|intros [= <-]; reflexivity].
    destruct (PyStr.split _ label) as [|f1 [|f2 [|f3 fs]]]; try discriminate.
    destruct (PyStr.int _ 10) as [v|e]; [discriminate|].
    destruct (is_ValueError e); [intros [= <-]; reflexivity | discriminate].
  - intros n i. unfold GPUDisplayHelper.parse_display_name.
    destruct (_ && _); [|discriminate].
    destruct (PyStr.split _ label) as [|f1 [|f2 [|f3 fs]]]; try discriminate.
    destruct (PyStr.int _ 10) as [v|e] eqn:E.
    + intros [= <- <-]. exists f2. split; [reflexivity | exact E].
    + destruct (is_ValueError e); discriminate.
Qed.

(** X5.  Take an index that is not negative and a device, with or
    without bus id, in whose name the marker does not occur, also not
    once a space is appended (the name does not end in [ (GPU]).  On the
    label rendered for them [match_gpu_name] tests the target against
    the device's name alone: the index suffix never matches. *)
Theorem match_gpu_name_of_display_name (d : GPUInfo) (i : Z) (target : string) :
  0 <= i ->
  PyStr.contains GPUDisplayHelper.marker (name d ++ " ") = false ->
  GPUDisplayHelper.match_gpu_name (GPUDisplayHelper.create_display_name d i) target
  = Ok (PyStr.contains target (name d)).
Proof.
  intros Hi Hname. unfold GPUDisplayHelper.match_gpu_name.
  unfold GPUDisplayHelper.create_display_name.
  destruct (opt_str_truthy (pci_bus_id d)).
  - rewrite (DisplayFacts.parse_label (name d) i Hname Hi). reflexivity.
  - rewrite LabelFacts.parse_no_marker; [reflexivity|].
    destruct (PyStr.contains GPUDisplayHelper.marker (name d)) eqn:E;
      [|reflexivity].
    rewrite (LabelFacts.contains_app_l _ _ " " E) in Hname. discriminate Hname.
Qed.

Lemma match_gpu_name_of_display_name_witness :
  let d := TwoNvidiaOneAmd.rtx "00000000:01:00.0" in
  GPUDisplayHelper.create_display_name d 1 = "NVIDIA GeForce RTX 3090 (GPU 1)" /\
  GPUDisplayHelper.match_gpu_name (GPUDisplayHelper.create_display_name d 1) "GPU"
  = Ok false /\
  GPUDisplayHelper.match_gpu_name (GPUDisplayHelper.create_display_name d 1) "RTX"
  = Ok true.
Proof.
  intro d. refine (conj eq_refl (conj _ _)).
  - apply (match_gpu_name_of_display_name d 1 "GPU"); [discriminate | reflexivity].
  - apply (match_gpu_name_of_display_name d 1 "RTX"); [discriminate | reflexivity].
Defined.

(** ** The capacity check, beyond the memory comparison *)

Module CheckFacts.

Lemma dict_set_keys {V : Type} (d : dict V) (k : string) (v0 v : V) :
  dict_get d k = Some v0 -> map fst (dict_set d k v) = map fst d.
Proof.
  induction d as [|[k1 v1] d IH]; simpl; [discriminate|].
  destruct (String.eqb_spec k1 k) as [->|_]; [reflexivity|].
  intros H. simpl. rewrite (IH H). reflexivity.
Qed.

Lemma same_device_refl (g : GPUInfo) : same_device g g.
Proof. repeat split. Qed.

Lemma same_device_set_ability (g : GPUInfo) (a : GPUAbility) :
  same_device (set_ability g a) g.
Proof. repeat split. Qed.

(** The shapes a call of [check_gpu_ability] can have. *)
Lemma check_gpu_ability_cases
    (calculate_sizes : ModelConfig -> result Sizes) (SAKURA_LIST : list Sakura)
    (self : GPUManager) (label model_name : string) (ctx np : option Z) :
  let r := check_gpu_ability calculate_sizes SAKURA_LIST self label model_name
             ctx np in
  (exists e, GPUDisplayHelper.find_gpu_key label (gpu_info_map self) = Raise e /\
             r = (Raise e, self))
  \/ (exists gk a, GPUDisplayHelper.find_gpu_key label (gpu_info_map self) = Ok gk /\
                   r = (Ok a, self))
  \/ (exists k info a,
        GPUDisplayHelper.find_gpu_key label (gpu_info_map self) = Ok (Some k) /\
        dict_get (gpu_info_map self) k = Some info /\
        r = (Ok a, cached self k info a)).
Proof.
  intro r. subst r. unfold check_gpu_ability.
  destruct (GPUDisplayHelper.find_gpu_key label (gpu_info_map self))
    as [gk|e] eqn:Hfind.
  2:{ left. exists e. split; reflexivity. }
  destruct gk as [k|].
  2:{ right. left. exists None. eexists. split; reflexivity. }
  destruct (key_truthy (Some k)); cbn [negb orb].
  2:{ right. left. exists (Some k). eexists. split; reflexivity. }
  unfold dict_in, dict_getitem.
  destruct (dict_get (gpu_info_map self) k) as [info|] eqn:Hget; cbn [negb].
  2:{ right. left. exists (Some k). eexists. split; reflexivity. }
  destruct (supported (gpu_type info)); cbn [negb].
  2:{ right. left. exists (Some k). eexists. split; reflexivity. }
  destruct (avail_dedicated_gpu_memory info) as [gpu_mem|] eqn:Hav.
  - destruct (_check_dynamic_memory_total calculate_sizes SAKURA_LIST info
                model_name ctx np gpu_mem Hav) as [a Ha].
    rewrite Ha. right. right. exists k, info, a.
    repeat split; assumption.
  - right. right. exists k, info. eexists. repeat split; assumption.
Qed.

End CheckFacts.

(** X6.  A label that is not a key and whose parsed name no device carries
    gives the not-found verdict, whatever the model and the parameters,
    and leaves the manager as it was. *)
Theorem check_gpu_ability_unknown_label
    (calculate_sizes : ModelConfig -> result Sizes) (SAKURA_LIST : list Sakura)
    (self : GPUManager) (label model_name : string) (ctx np : option Z)
    (gpu_name : string) (gpu_index : option Z) :
  dict_in label (gpu_info_map self) = false ->
  GPUDisplayHelper.parse_display_name label = Ok (gpu_name, gpu_index) ->
  (forall k info, In (k, info) (gpu_info_map self) -> name info <> gpu_name) ->
  check_gpu_ability calculate_sizes SAKURA_LIST self label model_name ctx np
  = (Ok {| is_capable := false; reason := Msg.not_found |}, self).
Proof.
  intros Hin Hp Hnone. unfold check_gpu_ability, GPUDisplayHelper.find_gpu_key.
  rewrite Hin, Hp. cbn [bind].
  rewrite (LabelFacts.matching_keys_none gpu_name _ Hnone). reflexivity.
Qed.

Lemma check_gpu_ability_unknown_label_witness :
  check_gpu_ability Fixture.linear_calculator [Fixture.model "sakura.gguf" 8]
    TwoNvidiaOneAmd.host "Phantom GPU" "sakura.gguf" None None
  = (Ok {| is_capable := false; reason := Msg.not_found |}, TwoNvidiaOneAmd.host).
Proof.
  apply (check_gpu_ability_unknown_label Fixture.linear_calculator
           [Fixture.model "sakura.gguf" 8] TwoNvidiaOneAmd.host "Phantom GPU"
           "sakura.gguf" None None "Phantom GPU" None eq_refl eq_refl).
  intros k info Hin.
  repeat (destruct Hin as [[= <- <-]|Hin]; [discriminate|]).
  destruct Hin.
Defined.

(** X7.  [check_gpu_ability] raises exactly when resolving the label
    raises, with the same exception, which is [ValueError] or
    [IndexError]; the memory checks and the look-up of the resolved key
    raise nothing, a failing calculator included.  When it raises, the
    manager is as it was. *)
Theorem check_gpu_ability_raises_only_from_label
    (calculate_sizes : ModelConfig -> result Sizes) (SAKURA_LIST : list Sakura)
    (self : GPUManager) (label model_name : string) (ctx np : option Z) :
  let r := check_gpu_ability calculate_sizes SAKURA_LIST self label model_name
             ctx np in
  (forall e, fst r = Raise e <->
             GPUDisplayHelper.find_gpu_key label (gpu_info_map self) = Raise e) /\
  (forall e, fst r = Raise e ->
             snd r = self /\ (e = ValueError \/ e = IndexError)).
Proof.
  intro r.
  destruct (CheckFacts.check_gpu_ability_cases calculate_sizes SAKURA_LIST self
              label model_name ctx np)
    as [[e0 [Hf Hr]]|[[gk [a [Hf Hr]]]|[k [info [a [Hf [Hg Hr]]]]]]];
    fold r in Hr; rewrite Hr, Hf; cbn [fst snd].
  - split.
    + intros e. split; intros [= <-]; reflexivity.
    + intros e [= <-]. split; [reflexivity|].
      exact (LabelFacts.find_gpu_key_raise _ _ _ Hf).
  - split; [intros e; split; discriminate | intros e; discriminate].
  - split; [intros e; split; discriminate | intros e; discriminate].
Qed.

(** X8.  Whatever the outcome, [check_gpu_ability] keeps the keys of the
    device map and their order, keeps the three vendor lists, and keeps
    every device as it was except for its cached [ability]. *)
Theorem check_gpu_ability_keeps_devices
    (calculate_sizes : ModelConfig -> result Sizes) (SAKURA_LIST : list Sakura)
    (self : GPUManager) (label model_name : string) (ctx np : option Z) :
  let self' := snd (check_gpu_ability calculate_sizes SAKURA_LIST self label
                      model_name ctx np) in
  map fst (gpu_info_map self') = map fst (gpu_info_map self) /\
  nvidia_gpus self' = nvidia_gpus self /\
  amd_gpus self' = amd_gpus self /\
  intel_gpus self' = intel_gpus self /\
  (forall k info,
     dict_get (gpu_info_map self) k = Some info ->
     exists info',
       dict_get (gpu_info_map self') k = Some info' /\ same_device info' info).
Proof.
  intro self'.
  destruct (CheckFacts.check_gpu_ability_cases calculate_sizes SAKURA_LIST self
              label model_name ctx np)
    as [[e0 [Hf Hr]]|[[gk [a [Hf Hr]]]|[k [info [a [Hf [Hg Hr]]]]]]];
    subst self'; rewrite Hr; cbn [snd].
  - repeat split. intros k info H. exists info.
    split; [exact H | apply CheckFacts.same_device_refl].
  - repeat split. intros k info H. exists info.
    split; [exact H | apply CheckFacts.same_device_refl].
  - cbn [cached gpu_info_map nvidia_gpus amd_gpus intel_gpus].
    split; [exact (CheckFacts.dict_set_keys _ _ _ _ Hg)|].
    repeat split. intros k' info' H.
    destruct (String.eqb_spec k' k) as [->|Hne].
    + rewrite Hg in H. injection H as <-.
      exists (set_ability info a).
      split; [apply DictFacts.get_set_same
             | apply CheckFacts.same_device_set_ability].
    + exists info'. rewrite (DictFacts.get_set_other _ _ _ _ Hne).
      split; [exact H | apply CheckFacts.same_device_refl].
Qed.

(** X9.  A model the catalogue does not know is never refused: on a
    resolved NVIDIA or AMD device the verdict is capable in both memory
    modes, and the calculator is not asked. *)
Theorem check_gpu_ability_unknown_model
    (calculate_sizes : ModelConfig -> result Sizes) (SAKURA_LIST : list Sakura)
    (self : GPUManager) (label model_name : string) (ctx np : option Z)
    (k : string) (info : GPUInfo) :
  GPUDisplayHelper.find_gpu_key label (gpu_info_map self) = Ok (Some k) ->
  k <> "" ->
  dict_get (gpu_info_map self) k = Some info ->
  supported (gpu_type info) = true ->
  SakuraList_getitem SAKURA_LIST model_name = None ->
  fst (check_gpu_ability calculate_sizes SAKURA_LIST self label model_name
         ctx np) = Ok capable.
Proof.
  intros Hfind Hk Hget Hsup Hm.
  rewrite (check_gpu_ability_resolved calculate_sizes SAKURA_LIST self label
             model_name ctx np k info Hfind Hk Hget Hsup).
  destruct (avail_dedicated_gpu_memory info) as [gpu_mem|] eqn:Hav.
  - unfold _check_dynamic_memory. rewrite Hav, Hm. reflexivity.
  - unfold _check_static_memory. rewrite Hm. reflexivity.
Qed.

Lemma check_gpu_ability_unknown_model_witness :
  fst (check_gpu_ability Fixture.broken_calculator BusyCard.catalogue
         BusyCard.host "00000000:01:00.0" "other.gguf" None None) = Ok capable.
Proof.
  apply (check_gpu_ability_unknown_model Fixture.broken_calculator
           BusyCard.catalogue BusyCard.host "00000000:01:00.0" "other.gguf"
           None None "00000000:01:00.0" BusyCard.card eq_refl);
    [discriminate | reflexivity | reflexivity | reflexivity].
Defined.

Module DynamicFacts.

Lemma Qltb_true (x y : Q) : Qlt x y -> Qltb x y = true.
Proof.
  intros H. unfold Qltb. destruct (Qle_bool y x) eqn:E; [|reflexivity].
  apply Qle_bool_iff in E. destruct (Qlt_not_le _ _ H E).
Qed.

Lemma Qltb_false (x y : Q) : Qle y x -> Qltb x y = false.
Proof.
  intros H. unfold Qltb. apply Qle_bool_iff in H. rewrite H. reflexivity.
Qed.

(** The [try] once the configuration is known and the calculator has
    answered for its context length. *)
Lemma dynamic_attempt_answered
    (calculate_sizes : ModelConfig -> result Sizes)
    (info : GPUInfo) (m : Sakura) (gpu_mem : Z) (ctx np : option Z)
    (c n : Z) (sz : Sizes) :
  match ctx, np with
  | Some c', Some n' => Ok {| context_length := c'; n_parallel := n' |}
  | _, _ => recommend_config calculate_sizes m (BytesToGiB gpu_mem)
  end = Ok {| context_length := c; n_parallel := n |} ->
  calculate_sizes (to_model_config m c) = Ok sz ->
  dynamic_attempt calculate_sizes info m gpu_mem ctx np
  = Ok (if Qltb (BytesToGiB gpu_mem) (total_size_gib sz)
        then Some {| is_capable := false;
                     reason := Msg.dynamic (name info) (total_size_gib sz)
                                 (BytesToGiB gpu_mem)
                                 (BytesToGiB (dedicated_gpu_memory info)) |}
        else None).
Proof.
  intros Hcfg Hsz. unfold dynamic_attempt. cbv zeta. rewrite Hcfg.
  cbn [bind]. unfold calculate_memory_requirements. rewrite Hsz. cbn [bind].
  destruct (Qltb _ _); reflexivity.
Qed.

(** The verdict of the dynamic check from what the [try] gave. *)
Lemma _check_dynamic_memory_answered
    (calculate_sizes : ModelConfig -> result Sizes) (SAKURA_LIST : list Sakura)
    (info : GPUInfo) (model_name : string) (ctx np : option Z)
    (gpu_mem : Z) (m : Sakura) (v : option GPUAbility) :
  avail_dedicated_gpu_memory info = Some gpu_mem ->
  SakuraList_getitem SAKURA_LIST model_name = Some m ->
  dynamic_attempt calculate_sizes info m gpu_mem ctx np = Ok v ->
  _check_dynamic_memory calculate_sizes SAKURA_LIST info model_name ctx np
  = Ok (match v with Some a => a | None => capable end).
Proof.
  intros Hav Hm Hat. unfold _check_dynamic_memory. rewrite Hav, Hm. cbv zeta.
  rewrite Hat. destruct v; reflexivity.
Qed.

End DynamicFacts.

(** X10.  In dynamic mode with both parameters given and the calculator
    answering for the given context length, the verdict compares the
    live reading with that requirement alone: capable when the
    requirement is at most the available GiB, else refused with a reason
    citing the requirement, the available and the total GiB.  The given
    parallelism has no part in it. *)
Theorem dynamic_check_with_parameters
    (calculate_sizes : ModelConfig -> result Sizes) (SAKURA_LIST : list Sakura)
    (self : GPUManager) (label model_name : string) (c n : Z)
    (k : string) (info : GPUInfo) (gpu_mem : Z) (m : Sakura) (sz : Sizes) :
  GPUDisplayHelper.find_gpu_key label (gpu_info_map self) = Ok (Some k) ->
  k <> "" ->
  dict_get (gpu_info_map self) k = Some info ->
  supported (gpu_type info) = true ->
  avail_dedicated_gpu_memory info = Some gpu_mem ->
  SakuraList_getitem SAKURA_LIST model_name = Some m ->
  calculate_sizes (to_model_config m c) = Ok sz ->
  exists a,
    fst (check_gpu_ability calculate_sizes SAKURA_LIST self label model_name
           (Some c) (Some n)) = Ok a /\
    (Qle (total_size_gib sz) (BytesToGiB gpu_mem) -> a = capable) /\
    (Qlt (BytesToGiB gpu_mem) (total_size_gib sz) ->
     a = {| is_capable := false;
            reason := Msg.dynamic (name info) (total_size_gib sz)
                        (BytesToGiB gpu_mem)
                        (BytesToGiB (dedicated_gpu_memory info)) |}).
Proof.
  intros Hfind Hk Hget Hsup Hav Hm Hsz.
  rewrite (check_gpu_ability_resolved calculate_sizes SAKURA_LIST self label
             model_name (Some c) (Some n) k info Hfind Hk Hget Hsup), Hav.
  rewrite (DynamicFacts._check_dynamic_memory_answered calculate_sizes
             SAKURA_LIST info model_name (Some c) (Some n) gpu_mem m _ Hav Hm
             (DynamicFacts.dynamic_attempt_answered calculate_sizes info m
                gpu_mem (Some c) (Some n) c n sz eq_refl Hsz)).
  eexists. split; [reflexivity|]. split; intros H.
  - rewrite (DynamicFacts.Qltb_false _ _ H). reflexivity.
  - rewrite (DynamicFacts.Qltb_true _ _ H). reflexivity.
Qed.

(** 1 GiB free of 8: a context of 1536 needs 1.2 GiB and is refused,
    whatever the parallelism. *)
Lemma dynamic_check_with_parameters_witness :
  fst (check_gpu_ability Fixture.linear_calculator BusyCard.catalogue
         BusyCard.host "00000000:01:00.0" "sakura.gguf" (Some 1536) (Some 64))
  = Ok {| is_capable := false;
          reason := Msg.dynamic "NVIDIA GeForce RTX 3070" (12 # 10)
                      (BytesToGiB (1 * Fixture.GiB))
                      (BytesToGiB (8 * Fixture.GiB)) |}.
Proof.
  destruct (dynamic_check_with_parameters Fixture.linear_calculator
              BusyCard.catalogue BusyCard.host "00000000:01:00.0"
              "sakura.gguf" 1536 64 "00000000:01:00.0" BusyCard.card
              (1 * Fixture.GiB) (Fixture.model "sakura.gguf" 4)
              {| total_size_gib := Qmake (12 * 1536) (10 * 1536) |}
              eq_refl ltac:(discriminate) eq_refl eq_refl eq_refl eq_refl
              eq_refl)
    as [a [Ha [_ Hlt]]].
  rewrite Ha. f_equal. rewrite (Hlt eq_refl). reflexivity.
Defined.

(** X11.  In dynamic mode without both parameters, and with a calculator
    that answers for the sixteen candidate context lengths, the check
    runs on the recommended configuration: the verdict is capable as
    soon as some parallelism from 1 to 16 fits the available memory, and
    when none fits it is refused with the reason citing the requirement
    of the floor configuration, context 1536. *)
Theorem dynamic_check_with_recommendation
    (calculate_sizes : ModelConfig -> result Sizes) (SAKURA_LIST : list Sakura)
    (self : GPUManager) (label model_name : string) (ctx np : option Z)
    (k : string) (info : GPUInfo) (gpu_mem : Z) (m : Sakura) :
  GPUDisplayHelper.find_gpu_key label (gpu_info_map self) = Ok (Some k) ->
  k <> "" ->
  dict_get (gpu_info_map self) k = Some info ->
  supported (gpu_type info) = true ->
  avail_dedicated_gpu_memory info = Some gpu_mem ->
  SakuraList_getitem SAKURA_LIST model_name = Some m ->
  ctx = None \/ np = None ->
  (forall q, 1 <= q <= 16 -> answers calculate_sizes m q) ->
  exists a,
    fst (check_gpu_ability calculate_sizes SAKURA_LIST self label model_name
           ctx np) = Ok a /\
    ((exists p, 1 <= p <= 16 /\
                fits calculate_sizes m (BytesToGiB gpu_mem) p) ->
     a = capable) /\
    ((forall q, 1 <= q <= 16 ->
                too_big calculate_sizes m (BytesToGiB gpu_mem) q) ->
     exists sz,
       calculate_sizes (to_model_config m 1536) = Ok sz /\
       a = {| is_capable := false;
              reason := Msg.dynamic (name info) (total_size_gib sz)
                          (BytesToGiB gpu_mem)
                          (BytesToGiB (dedicated_gpu_memory info)) |}).
Proof.
  intros Hfind Hk Hget Hsup Hav Hm Hnone Hans.
  rewrite (check_gpu_ability_resolved calculate_sizes SAKURA_LIST self label
             model_name ctx np k info Hfind Hk Hget Hsup), Hav.
  assert (Hcfg : match ctx, np with
                 | Some c', Some n' =>
                     Ok {| context_length := c'; n_parallel := n' |}
                 | _, _ => recommend_config calculate_sizes m (BytesToGiB gpu_mem)
                 end = recommend_config calculate_sizes m (BytesToGiB gpu_mem)).
  { destruct Hnone as [-> | ->]; [reflexivity | destruct ctx; reflexivity]. }
  assert (Hclash : forall q, fits calculate_sizes m (BytesToGiB gpu_mem) q ->
                             too_big calculate_sizes m (BytesToGiB gpu_mem) q ->
                             False).
  { intros q [s1 [E1 L1]] [s2 [E2 L2]]. rewrite E1 in E2. injection E2 as <-.
    exact (Qlt_not_le _ _ L2 L1). }
  destruct (recommend_loop_range calculate_sizes m (BytesToGiB gpu_mem)
              {| context_length := 1536; n_parallel := 1 |} 16)
    as [cfg [Hrec Hcase]].
  { intros q Hq _. apply Hans. exact Hq. }
  fold (recommend_config calculate_sizes m (BytesToGiB gpu_mem)) in Hrec.
  pose proof (eq_trans Hcfg Hrec) as Hcfg'. clear Hcfg. rename Hcfg' into Hcfg.
  destruct Hcase as [[p [Hp [-> [Hfit Hbig]]]]|[-> Hbig]].
  - destruct Hfit as [sz [Hsz Hle]].
    rewrite (DynamicFacts._check_dynamic_memory_answered calculate_sizes
               SAKURA_LIST info model_name ctx np gpu_mem m _ Hav Hm
               (DynamicFacts.dynamic_attempt_answered calculate_sizes info m
                  gpu_mem ctx np (1536 * p) p sz Hcfg Hsz)).
    rewrite (DynamicFacts.Qltb_false _ _ Hle).
    eexists. split; [reflexivity|]. split; [reflexivity|].
    intros Hall. exfalso.
    apply (Hclash p); [exists sz; split; assumption | apply Hall; exact Hp].
  - destruct (Hbig 1 ltac:(lia)) as [sz [Hsz Hlt]].
    change (calculate_memory_requirements calculate_sizes m (1536 * 1))
      with (calculate_sizes (to_model_config m 1536)) in Hsz.
    rewrite (DynamicFacts._check_dynamic_memory_answered calculate_sizes
               SAKURA_LIST info model_name ctx np gpu_mem m _ Hav Hm
               (DynamicFacts.dynamic_attempt_answered calculate_sizes info m
                  gpu_mem ctx np 1536 1 sz Hcfg Hsz)).
    rewrite (DynamicFacts.Qltb_true _ _ Hlt).
    eexists. split; [reflexivity|]. split.
    + intros [p [Hp Hfit]]. exfalso. exact (Hclash p Hfit (Hbig p Hp)).
    + intros _. exists sz. split; [exact Hsz | reflexivity].
Qed.

(** 1 GiB free and 1.2 GiB for each 1536 tokens: nothing fits, and the
    reason cites the 1.2 GiB of the floor. *)
Lemma dynamic_check_with_recommendation_witness :
  fst (check_gpu_ability Fixture.linear_calculator BusyCard.catalogue
         BusyCard.host "00000000:01:00.0" "sakura.gguf" (Some 8192) None)
  = Ok {| is_capable := false;
          reason := Msg.dynamic "NVIDIA GeForce RTX 3070" (12 # 10)
                      (BytesToGiB (1 * Fixture.GiB))
                      (BytesToGiB (8 * Fixture.GiB)) |}.
Proof.
  destruct (dynamic_check_with_recommendation Fixture.linear_calculator
              BusyCard.catalogue BusyCard.host "00000000:01:00.0"
              "sakura.gguf" (Some 8192) None "00000000:01:00.0" BusyCard.card
              (1 * Fixture.GiB) (Fixture.model "sakura.gguf" 4)
              eq_refl ltac:(discriminate) eq_refl eq_refl eq_refl eq_refl
              (or_intror eq_refl)
              (fun q _ => ex_intro _ _ eq_refl))
    as [a [Ha _]].
  rewrite Ha. symmetry. vm_compute in Ha. exact Ha.
Defined.

(** ** The environment of the launched process *)

Module EnvFacts.

(** The shapes a call of [set_gpu_env] can have. *)
Lemma set_gpu_env_cases (self : GPUManager) (env : dict string)
    (label : string) (idx : Z) :
  (exists e, GPUDisplayHelper.find_gpu_key label (gpu_info_map self) = Raise e /\
             set_gpu_env self env label idx = Raise e)
  \/ (exists gk, GPUDisplayHelper.find_gpu_key label (gpu_info_map self) = Ok gk /\
                 key_truthy gk = false /\
                 set_gpu_env self env label idx = Ok env)
  \/ (exists k info,
        GPUDisplayHelper.find_gpu_key label (gpu_info_map self) = Ok (Some k) /\
        k <> "" /\
        dict_get (gpu_info_map self) k = Some info).
Proof.
  destruct (GPUDisplayHelper.find_gpu_key label (gpu_info_map self))
    as [gk|e] eqn:Hfind.
  2:{ left. exists e. split; [reflexivity|].
      unfold set_gpu_env. rewrite Hfind. reflexivity. }
  destruct (key_truthy gk) eqn:Ht.
  2:{ right. left. exists gk. split; [reflexivity|]. split; [exact Ht|].
      unfold set_gpu_env. rewrite Hfind. cbn [bind]. rewrite Ht. reflexivity. }
  destruct gk as [k|]; [|discriminate Ht].
  right. right.
  pose proof (ResolveFacts.find_gpu_key_in_map _ _ _ Hfind) as Hin.
  unfold dict_in in Hin.
  destruct (dict_get (gpu_info_map self) k) as [info|] eqn:Hg; [|discriminate].
  exists k, info. split; [reflexivity|]. split; [|exact Hg].
  intros ->. discriminate Ht.
Qed.

End EnvFacts.

(** X12.  For a label that resolves to a non-empty key of an NVIDIA
    device, [set_gpu_env] sets [CUDA_VISIBLE_DEVICES] to the decimal text
    of the selected index, unchanged: the text reads back as that index,
    the number of NVIDIA labels is not subtracted, and
    [HIP_VISIBLE_DEVICES] is left as it was. *)
Theorem nvidia_env_ordinal (self : GPUManager) (env : dict string)
    (label : string) (idx : Z) (k : string) (info : GPUInfo) :
  GPUDisplayHelper.find_gpu_key label (gpu_info_map self) = Ok (Some k) ->
  k <> "" ->
  dict_get (gpu_info_map self) k = Some info ->
  gpu_type info = NVIDIA ->
  exists env',
    set_gpu_env self env label idx = Ok env' /\
    dict_get env' "CUDA_VISIBLE_DEVICES" = Some (PyStr.str idx) /\
    PyStr.int (PyStr.str idx) 10 = Ok idx /\
    dict_get env' "HIP_VISIBLE_DEVICES" = dict_get env "HIP_VISIBLE_DEVICES".
Proof.
  intros Hfind Hk Hget Hnv.
  rewrite (set_gpu_env_resolved self env label idx k info Hfind Hk Hget), Hnv.
  eexists. split; [reflexivity|]. split; [apply DictFacts.get_set_same|].
  split; [apply PyStrFacts.int_str|].
  apply DictFacts.get_set_other. discriminate.
Qed.

Lemma nvidia_env_ordinal_witness :
  exists env',
    set_gpu_env TwoNvidiaOneAmd.host [("HIP_VISIBLE_DEVICES", "3")]
      "NVIDIA GeForce RTX 3090 (GPU 1)" 1 = Ok env' /\
    dict_get env' "CUDA_VISIBLE_DEVICES" = Some "1" /\
    dict_get env' "HIP_VISIBLE_DEVICES" = Some "3".
Proof.
  destruct (nvidia_env_ordinal TwoNvidiaOneAmd.host
              [("HIP_VISIBLE_DEVICES", "3")]
              "NVIDIA GeForce RTX 3090 (GPU 1)" 1 "00000000:02:00.0"
              (TwoNvidiaOneAmd.rtx "00000000:02:00.0")
              eq_refl ltac:(discriminate) eq_refl eq_refl)
    as [env' [Hset [Hc [_ Hh]]]].
  exists env'. split; [exact Hset|]. split; [exact Hc | exact Hh].
Defined.

(** X13.  Whatever environment [set_gpu_env] returns, every variable other
    than [CUDA_VISIBLE_DEVICES] and [HIP_VISIBLE_DEVICES] has the value
    it had, and at most one of those two has changed. *)
Theorem set_gpu_env_frame (self : GPUManager) (env env' : dict string)
    (label : string) (idx : Z) :
  set_gpu_env self env label idx = Ok env' ->
  (forall key, key <> "CUDA_VISIBLE_DEVICES" -> key <> "HIP_VISIBLE_DEVICES" ->
               dict_get env' key = dict_get env key) /\
  (dict_get env' "CUDA_VISIBLE_DEVICES" = dict_get env "CUDA_VISIBLE_DEVICES"
   \/ dict_get env' "HIP_VISIBLE_DEVICES" = dict_get env "HIP_VISIBLE_DEVICES").
Proof.
  destruct (EnvFacts.set_gpu_env_cases self env label idx)
    as [[e [_ Hr]]|[[gk [_ [_ Hr]]]|[k [info [Hf [Hk Hg]]]]]].
  - rewrite Hr. discriminate.
  - rewrite Hr. intros [= <-]. split; [reflexivity | left; reflexivity].
  - rewrite (set_gpu_env_resolved self env label idx k info Hf Hk Hg).
    destruct (gpu_type info); intros [= <-].
    + split.
      * intros key H1 _. apply DictFacts.get_set_other. exact H1.
      * right. apply DictFacts.get_set_other. discriminate.
    + split.
      * intros key _ H2. apply DictFacts.get_set_other. exact H2.
      * left. apply DictFacts.get_set_other. discriminate.
    + split; [reflexivity | left; reflexivity].
    + split; [reflexivity | left; reflexivity].
Qed.

Lemma set_gpu_env_frame_witness :
  let env := [("PATH", "/usr/bin"); ("CUDA_VISIBLE_DEVICES", "5")] in
  exists env',
    set_gpu_env TwoNvidiaOneAmd.host env "AMD Radeon RX 7900 XTX" 2 = Ok env' /\
    dict_get env' "PATH" = Some "/usr/bin" /\
    (dict_get env' "CUDA_VISIBLE_DEVICES" = dict_get env "CUDA_VISIBLE_DEVICES"
     \/ dict_get env' "HIP_VISIBLE_DEVICES" = dict_get env "HIP_VISIBLE_DEVICES").
Proof.
  intro env. eexists. split; [reflexivity|].
  destruct (set_gpu_env_frame TwoNvidiaOneAmd.host env _
              "AMD Radeon RX 7900 XTX" 2 eq_refl) as [Hother Hone].
  split; [|exact Hone].
  rewrite (Hother "PATH"); [reflexivity | discriminate | discriminate].
Defined.

(** X14.  [set_gpu_env] raises exactly when resolving the label raises,
    with the same exception; the look-up of the resolved key never
    fails.  The environment it returns differs from the one it was given
    only when the label resolved to a non-empty key of an NVIDIA or AMD
    device. *)
Theorem set_gpu_env_raises_only_from_label (self : GPUManager)
    (env : dict string) (label : string) (idx : Z) :
  (forall e, set_gpu_env self env label idx = Raise e <->
             GPUDisplayHelper.find_gpu_key label (gpu_info_map self) = Raise e) /\
  (forall env',
     set_gpu_env self env label idx = Ok env' -> env' <> env ->
     exists k info,
       GPUDisplayHelper.find_gpu_key label (gpu_info_map self) = Ok (Some k) /\
       k <> "" /\
       dict_get (gpu_info_map self) k = Some info /\
       supported (gpu_type info) = true).
Proof.
  destruct (EnvFacts.set_gpu_env_cases self env label idx)
    as [[e0 [Hf Hr]]|[[gk [Hf [_ Hr]]]|[k [info [Hf [Hk Hg]]]]]].
  - rewrite Hr, Hf. split.
    + intros e. split; intros [= <-]; reflexivity.
    + intros env'. discriminate.
  - rewrite Hr, Hf. split.
    + intros e. split; discriminate.
    + intros env' [= <-] Hne. destruct (Hne eq_refl).
  - rewrite (set_gpu_env_resolved self env label idx k info Hf Hk Hg), Hf.
    split.
    + intros e. split; [destruct (gpu_type info)|]; discriminate.
    + intros env' Hset Hne. exists k, info.
      split; [reflexivity|]. split; [exact Hk|]. split; [exact Hg|].
      destruct (gpu_type info); try reflexivity;
        injection Hset as <-; destruct (Hne eq_refl).
Qed.

(** ** The recommendation search, for any calculator *)

Section SearchMore.

Variable calculate_sizes : ModelConfig -> result Sizes.
Variable sakura : Sakura.

Local Abbreviation floor := {| context_length := 1536; n_parallel := 1 |}.

Lemma range_down_In (n : nat) (q : Z) :
  In q (range_down n) <-> 1 <= q <= Z.of_nat n.
Proof.
  induction n as [|n IH].
  - simpl. lia.
  - rewrite range_down_succ. simpl In. rewrite IH. lia.
Qed.

(** A configuration the loop returns is the one it started with or a
    candidate with its context length. *)
Lemma recommend_loop_result (avail : Q) (best cfg : Config) (l : list Z) :
  recommend_loop calculate_sizes sakura avail l best = Ok cfg ->
  cfg = best \/
  exists np, In np l /\ cfg = {| context_length := 1536 * np; n_parallel := np |}.
Proof.
  induction l as [|np rest IH]; [intros [= <-]; left; reflexivity|].
  rewrite recommend_loop_cons.
  destruct (calculate_sizes (request sakura np))
    as [sz|e]; cbn [bind]; [|discriminate].
  destruct (Qle_bool (total_size_gib sz) avail).
  - intros [= <-]. right. exists np. split; [left; reflexivity | reflexivity].
  - intros H. destruct (IH H) as [->|[q [Hq ->]]]; [left; reflexivity|].
    right. exists q. split; [right; exact Hq | reflexivity].
Qed.

Lemma recommend_loop_bounds (avail : Q) (cfg : Config) (n : nat) :
  recommend_loop calculate_sizes sakura avail (range_down n) floor = Ok cfg ->
  context_length cfg = 1536 * n_parallel cfg /\
  1 <= n_parallel cfg <= Z.max 1 (Z.of_nat n).
Proof.
  intros H. destruct (recommend_loop_result _ _ _ _ H) as [->|[q [Hq ->]]].
  - cbn. lia.
  - apply range_down_In in Hq. cbn. lia.
Qed.

(** More memory never lowers the recommended parallelism. *)
Lemma recommend_loop_monotone (a1 a2 : Q) (n : nat) :
  Qle a1 a2 ->
  forall c1 c2,
    recommend_loop calculate_sizes sakura a1 (range_down n) floor = Ok c1 ->
    recommend_loop calculate_sizes sakura a2 (range_down n) floor = Ok c2 ->
    n_parallel c1 <= n_parallel c2.
Proof.
  intros Hle. induction n as [|n IH]; intros c1 c2.
  - intros [= <-] [= <-]. lia.
  - rewrite range_down_succ, !recommend_loop_cons.
    destruct (calculate_sizes (request sakura (Z.of_nat (S n)))) as [sz|e]; cbn [bind];
      [|discriminate].
    destruct (Qle_bool (total_size_gib sz) a1) eqn:E1.
    + apply Qle_bool_iff in E1.
      assert (E2 : Qle_bool (total_size_gib sz) a2 = true)
        by (apply Qle_bool_iff; exact (Qle_trans _ _ _ E1 Hle)).
      rewrite E2. intros [= <-] [= <-]. lia.
    + destruct (Qle_bool (total_size_gib sz) a2).
      * intros H1 [= <-]. apply recommend_loop_bounds in H1. cbn. lia.
      * apply IH.
Qed.

(** The loop raises what the calculator raised at the first candidate it
    failed on, all larger candidates having been too big. *)
Lemma recommend_loop_failure (avail : Q) (best : Config) (e : exn) (n : nat) :
  recommend_loop calculate_sizes sakura avail (range_down n) best = Raise e <->
  exists q,
    1 <= q <= Z.of_nat n /\
    calculate_sizes (request sakura q) = Raise e /\
    forall r, q < r <= Z.of_nat n -> too_big calculate_sizes sakura avail r.
Proof.
  induction n as [|n IH].
  - split; [discriminate | intros [q [Hq _]]; simpl in Hq; lia].
  - rewrite range_down_succ, recommend_loop_cons.
    destruct (calculate_sizes (request sakura (Z.of_nat (S n)))) as [sz|e0] eqn:Hsz; cbn [bind].
    + destruct (Qle_bool (total_size_gib sz) avail) eqn:Hle.
      * split; [discriminate|].
        intros [q [Hq [Hr Hbig]]].
        destruct (Z.eq_dec q (Z.of_nat (S n))) as [->|Hne]; [congruence|].
        destruct (Hbig (Z.of_nat (S n)) ltac:(lia)) as [sz' [Hsz' Hlt]].
        rewrite Hsz in Hsz'. injection Hsz' as <-.
        apply Qle_bool_iff in Hle. destruct (Qlt_not_le _ _ Hlt Hle).
      * assert (Htop : too_big calculate_sizes sakura avail (Z.of_nat (S n))).
        { exists sz. split; [exact Hsz|]. apply Qnot_le_lt. intros Hc.
          apply Qle_bool_iff in Hc. rewrite Hc in Hle. discriminate Hle. }
        rewrite IH. split.
        -- intros [q [Hq [Hr Hbig]]]. exists q. split; [lia|].
           split; [exact Hr|]. intros r Hrr.
           destruct (Z.eq_dec r (Z.of_nat (S n))) as [->|Hne]; [exact Htop|].
           apply Hbig. lia.
        -- intros [q [Hq [Hr Hbig]]].
           destruct (Z.eq_dec q (Z.of_nat (S n))) as [->|Hne]; [congruence|].
           exists q. split; [lia|]. split; [exact Hr|].
           intros r Hrr. apply Hbig. lia.
    + split.
      * intros [= <-]. exists (Z.of_nat (S n)). split; [lia|].
        split; [exact Hsz | intros r Hr; lia].
      * intros [q [Hq [Hr Hbig]]].
        destruct (Z.eq_dec q (Z.of_nat (S n))) as [->|Hne]; [congruence|].
        destruct (Hbig (Z.of_nat (S n)) ltac:(lia)) as [sz' [Hsz' _]].
        congruence.
Qed.

End SearchMore.

(** X15.  Whatever the calculator answers, a configuration that
    [recommend_config] returns has a parallelism between 1 and 16 and
    the context length 1536 times that parallelism. *)
Theorem recommend_config_shape
    (calculate_sizes : ModelConfig -> result Sizes) (sakura : Sakura)
    (available_memory_gib : Q) (cfg : Config) :
  recommend_config calculate_sizes sakura available_memory_gib = Ok cfg ->
  context_length cfg = 1536 * n_parallel cfg /\ 1 <= n_parallel cfg <= 16.
Proof.
  intros H.
  exact (recommend_loop_bounds calculate_sizes sakura available_memory_gib
           cfg 16 H).
Qed.

Lemma recommend_config_shape_witness :
  recommend_config Fixture.linear_calculator (Fixture.model "sakura.gguf" 8)
    (inject_Z 5) = Ok {| context_length := 6144; n_parallel := 4 |} /\
  6144 = 1536 * 4 /\ 1 <= 4 <= 16.
Proof.
  split; [reflexivity|].
  exact (recommend_config_shape Fixture.linear_calculator
           (Fixture.model "sakura.gguf" 8) (inject_Z 5)
           {| context_length := 6144; n_parallel := 4 |} eq_refl).
Defined.

(** X16.  With the same calculator and model, more available memory
    never lowers the recommended parallelism. *)
Theorem recommend_config_monotone
    (calculate_sizes : ModelConfig -> result Sizes) (sakura : Sakura)
    (a1 a2 : Q) (c1 c2 : Config) :
  Qle a1 a2 ->
  recommend_config calculate_sizes sakura a1 = Ok c1 ->
  recommend_config calculate_sizes sakura a2 = Ok c2 ->
  n_parallel c1 <= n_parallel c2.
Proof.
  intros Hle H1 H2.
  exact (recommend_loop_monotone calculate_sizes sakura a1 a2 16 Hle c1 c2 H1 H2).
Qed.

Lemma recommend_config_monotone_witness :
  recommend_config Fixture.linear_calculator (Fixture.model "sakura.gguf" 8)
    (inject_Z 5) = Ok {| context_length := 6144; n_parallel := 4 |} /\
  recommend_config Fixture.linear_calculator (Fixture.model "sakura.gguf" 8)
    (inject_Z 12) = Ok {| context_length := 15360; n_parallel := 10 |} /\
  4 <= 10.
Proof.
  split; [reflexivity|]. split; [reflexivity|].
  apply (recommend_config_monotone Fixture.linear_calculator
           (Fixture.model "sakura.gguf" 8) (inject_Z 5) (inject_Z 12)
           {| context_length := 6144; n_parallel := 4 |}
           {| context_length := 15360; n_parallel := 10 |});
    [discriminate | reflexivity | reflexivity].
Defined.

(** X17.  [recommend_config] catches nothing: it raises [e] exactly when
    the calculator raises [e] for some candidate from 16 down to 1 and
    answered a too big requirement for every larger one. *)
Theorem recommend_config_failure
    (calculate_sizes : ModelConfig -> result Sizes) (sakura : Sakura)
    (available_memory_gib : Q) (e : exn) :
  recommend_config calculate_sizes sakura available_memory_gib = Raise e <->
  exists q,
    1 <= q <= 16 /\
    calculate_sizes (request sakura q) = Raise e /\
    forall r, q < r <= 16 ->
              too_big calculate_sizes sakura available_memory_gib r.
Proof.
  exact (recommend_loop_failure calculate_sizes sakura available_memory_gib
           {| context_length := 1536; n_parallel := 1 |} e 16).
Qed.

(** ** Detection *)

Module DetectFacts.

Lemma get_gpu_index_from_pci_ok (pci : string) :
  exists n, get_gpu_index_from_pci pci = Ok n.
Proof.
  unfold get_gpu_index_from_pci.
  destruct (str_truthy pci && PyStr.contains ":" pci); [|exists 0; reflexivity].
  destruct (list_getitem (PyStr.split ":" pci) 1) as [field|e] eqn:Hf;
    cbn [bind].
  - destruct (PyStr.int field 16) as [v|e] eqn:Hv; cbn [bind].
    + exists v. reflexivity.
    + rewrite (IntFacts.int_raise _ _ _ Hv). exists 0. reflexivity.
  - rewrite (IntFacts.list_getitem_raise _ _ _ Hf). exists 0. reflexivity.
Qed.

(** The index the detection computes always exists, and the label made
    with it is [nvidia_label]: without a bus id the index is not shown. *)
Lemma nvidia_index_label (self : GPUManager) (g : GPUInfo) :
  exists i,
    nvidia_index self g = Ok i /\
    GPUDisplayHelper.create_display_name g i = nvidia_label g.
Proof.
  unfold nvidia_index, nvidia_label, GPUDisplayHelper.create_display_name.
  destruct (pci_bus_id g) as [pci|]; cbn [opt_str_truthy].
  - destruct (str_truthy pci) eqn:Ht.
    + destruct (get_gpu_index_from_pci_ok pci) as [n Hn]. rewrite Hn.
      exists n. split; reflexivity.
    + eexists. split; reflexivity.
  - eexists. split; reflexivity.
Qed.

Lemma get_gpu_type_not_intel (gpu_name : string) : get_gpu_type gpu_name <> INTEL.
Proof.
  unfold get_gpu_type.
  destruct (PyStr.contains "NVIDIA" _); [discriminate|].
  destruct (_ || _); discriminate.
Qed.

End DetectFacts.

Section DetectionFacts.

Variable merge_from : GPUInfo -> GPUInfo -> GPUInfo.

Lemma detect_nvidia_loop_spec (reports : list GPUInfo) :
  forall self,
    detect_nvidia_loop merge_from self reports
    = (Ok tt,
       {| gpu_info_map := merged_map merge_from (gpu_info_map self) reports;
          nvidia_gpus := nvidia_gpus self ++ map nvidia_label reports;
          amd_gpus := amd_gpus self;
          intel_gpus := intel_gpus self |}).
Proof.
  induction reports as [|g rest IH]; intros self.
  - simpl. rewrite app_nil_r. destruct self; reflexivity.
  - cbn [detect_nvidia_loop merged_map map].
    destruct (DetectFacts.nvidia_index_label self g) as [i [Hi Hl]].
    rewrite Hi, Hl. cbv zeta.
    cbn [with_nvidia_gpus gpu_info_map].
    destruct (dict_get (gpu_info_map self) (nvidia_key g)) as [old|];
      rewrite IH; cbn [with_gpu_info_map with_nvidia_gpus gpu_info_map
                       nvidia_gpus amd_gpus intel_gpus];
      rewrite <- app_assoc; reflexivity.
Qed.

Lemma universal_detect_spec (self : GPUManager) (reports : list GPUInfo) :
  __universal_detect_nvidia_gpu merge_from self (Ok reports)
  = (Ok tt,
     {| gpu_info_map := merged_map merge_from (gpu_info_map self) reports;
        nvidia_gpus := map nvidia_label reports;
        amd_gpus := amd_gpus self;
        intel_gpus := intel_gpus self |}).
Proof.
  unfold __universal_detect_nvidia_gpu. cbv zeta.
  rewrite detect_nvidia_loop_spec. reflexivity.
Qed.

Lemma universal_detect_raise (self : GPUManager) (e : exn) :
  __universal_detect_nvidia_gpu merge_from self (Raise e)
  = (Raise e, with_nvidia_gpus self []).
Proof. reflexivity. Qed.

End DetectionFacts.

Module MapFacts.

Lemma dict_in_iff {V : Type} (k : string) (d : dict V) :
  dict_in k d = true <-> In k (map fst d).
Proof.
  unfold dict_in. induction d as [|[k0 v0] d IH]; simpl.
  - split; [discriminate | contradiction].
  - destruct (String.eqb_spec k0 k) as [->|Hne].
    + split; [intros _; left; reflexivity | reflexivity].
    + rewrite IH. split; [intros H; right; exact H|].
      intros [E|H]; [contradiction | exact H].
Qed.

Lemma dict_set_keys_new {V : Type} (d : dict V) (k : string) (v : V) :
  dict_get d k = None -> map fst (dict_set d k v) = (map fst d ++ [k])%list.
Proof.
  induction d as [|[k1 v1] d IH]; simpl; [reflexivity|].
  destruct (String.eqb_spec k1 k) as [->|_]; [discriminate|].
  intros H. simpl. rewrite (IH H). reflexivity.
Qed.

Lemma dict_get_None_not_In {V : Type} (d : dict V) (k : string) :
  dict_get d k = None -> ~ In k (map fst d).
Proof.
  intros H Hin. apply dict_in_iff in Hin. unfold dict_in in Hin.
  rewrite H in Hin. discriminate Hin.
Qed.

End MapFacts.

Section MergedMapFacts.

Variable merge_from : GPUInfo -> GPUInfo -> GPUInfo.

Local Abbreviation merged := (merged_map merge_from).

(** One step of the loop on the keys: the key is kept where it is, or
    goes last. *)
Lemma merged_step_keys (m : dict GPUInfo) (g : GPUInfo) :
  let m1 := match dict_get m (nvidia_key g) with
            | Some existing => dict_set m (nvidia_key g) (merge_from existing g)
            | None => dict_set m (nvidia_key g) g
            end in
  (In (nvidia_key g) (map fst m) /\ map fst m1 = map fst m)
  \/ (~ In (nvidia_key g) (map fst m) /\ map fst m1 = (map fst m ++ [nvidia_key g])%list).
Proof.
  cbv zeta. destruct (dict_get m (nvidia_key g)) as [old|] eqn:Hg.
  - left. split.
    + apply MapFacts.dict_in_iff. unfold dict_in. rewrite Hg. reflexivity.
    + exact (CheckFacts.dict_set_keys _ _ _ _ Hg).
  - right. split.
    + exact (MapFacts.dict_get_None_not_In _ _ Hg).
    + exact (MapFacts.dict_set_keys_new _ _ _ Hg).
Qed.

Lemma merged_keys (reports : list GPUInfo) :
  forall m,
    exists added,
      map fst (merged m reports) = (map fst m ++ added)%list /\
      (forall k, In k added ->
                 ~ In k (map fst m) /\
                 exists g, In g reports /\ nvidia_key g = k) /\
      (forall g, In g reports -> In (nvidia_key g) ((map fst m ++ added)%list)) /\
      NoDup added.
Proof.
  induction reports as [|g rest IH]; intros m.
  - exists []. rewrite app_nil_r. repeat split; try contradiction.
    constructor.
  - cbn [merged_map].
    destruct (merged_step_keys m g) as [[Hin Hk]|[Hnin Hk]];
      cbv zeta in Hk;
      match type of Hk with
      | map fst ?m1 = _ => destruct (IH m1) as [added [Hkeys [Hnew [Hall Hnd]]]]
      end; rewrite Hk in *.
    + exists added. split; [exact Hkeys|]. split; [|split; [|exact Hnd]].
      * intros k Hka. destruct (Hnew k Hka) as [H1 [g' [H2 H3]]].
        split; [exact H1|]. exists g'. split; [right; exact H2 | exact H3].
      * intros g' [<-|Hg']; [apply in_or_app; left; exact Hin | exact (Hall g' Hg')].
    + exists (nvidia_key g :: added).
      rewrite <- app_assoc in Hkeys. split; [exact Hkeys|].
      split; [|split].
      * intros k [<-|Hka].
        -- split; [exact Hnin|]. exists g. split; [left|]; reflexivity.
        -- destruct (Hnew k Hka) as [H1 [g' [H2 H3]]]. split.
           ++ intros Hc. apply H1. apply in_or_app. left. exact Hc.
           ++ exists g'. split; [right; exact H2 | exact H3].
      * intros g' [<-|Hg'].
        -- apply in_or_app. right. left. reflexivity.
        -- specialize (Hall g' Hg'). rewrite <- app_assoc in Hall. exact Hall.
      * constructor; [|exact Hnd].
        intros Hc. destruct (Hnew _ Hc) as [H1 _]. apply H1.
        apply in_or_app. right. left. reflexivity.
Qed.

(** Reports whose keys are all in the map add no key. *)
Lemma merged_keys_known (reports : list GPUInfo) :
  forall m,
    (forall g, In g reports -> In (nvidia_key g) (map fst m)) ->
    map fst (merged m reports) = map fst m.
Proof.
  induction reports as [|g rest IH]; intros m Hall; [reflexivity|].
  cbn [merged_map].
  destruct (merged_step_keys m g) as [[Hin Hk]|[Hnin Hk]]; cbv zeta in Hk.
  - rewrite IH; [exact Hk|]. intros g' Hg'. rewrite Hk. apply Hall.
    right. exact Hg'.
  - destruct (Hnin (Hall g (or_introl eq_refl))).
Qed.

Lemma merged_entry_step (before : option GPUInfo) (g : GPUInfo)
    (rest : list GPUInfo) :
  merged_entry merge_from
    (Some (match before with
           | Some existing => merge_from existing g
           | None => g
           end)) rest
  = merged_entry merge_from before (g :: rest).
Proof. destruct before; reflexivity. Qed.

(** The entry of each key after the loop. *)
Lemma merged_get (reports : list GPUInfo) :
  forall m k,
    dict_get (merged m reports) k
    = merged_entry merge_from (dict_get m k) (reports_of k reports).
Proof.
  induction reports as [|g rest IH]; intros m k.
  - simpl. destruct (dict_get m k); reflexivity.
  - cbn [merged_map]. rewrite IH. unfold reports_of. cbn [filter].
    fold (reports_of k rest).
    destruct (String.eqb_spec (nvidia_key g) k) as [E|Hne].
    + rewrite <- merged_entry_step. f_equal.
      rewrite <- E.
      destruct (dict_get m (nvidia_key g)); apply DictFacts.get_set_same.
    + f_equal.
      destruct (dict_get m (nvidia_key g));
        apply DictFacts.get_set_other; congruence.
Qed.

End MergedMapFacts.

(** X18.  When [get_nvidia_gpus()] returns its reports,
    [__universal_detect_nvidia_gpu] returns ([merge_from] being taken as
    a function that returns) and has rebuilt the NVIDIA list from the
    reports alone: one label per report, in report order, whatever was
    listed before and whatever the map holds; the label of a report is
    its name, followed by the index read from its bus id when it has
    one.  The AMD and Intel lists are not touched.  When
    [get_nvidia_gpus()] raises, the exception leaves the method with the
    NVIDIA list already emptied, the map and the other lists as they
    were. *)
Theorem nvidia_detection_labels (merge_from : GPUInfo -> GPUInfo -> GPUInfo)
    (self : GPUManager) :
  (forall reports,
     exists self',
       __universal_detect_nvidia_gpu merge_from self (Ok reports)
       = (Ok tt, self') /\
       nvidia_gpus self' = map nvidia_label reports /\
       List.length (nvidia_gpus self') = List.length reports /\
       amd_gpus self' = amd_gpus self /\
       intel_gpus self' = intel_gpus self) /\
  (forall g, opt_str_truthy (pci_bus_id g) = false -> nvidia_label g = name g) /\
  (forall g pci,
     pci_bus_id g = Some pci -> pci <> "" ->
     exists i,
       get_gpu_index_from_pci pci = Ok i /\
       nvidia_label g
       = name g ++ GPUDisplayHelper.marker ++ PyStr.str i ++ ")") /\
  (forall e,
     exists self',
       __universal_detect_nvidia_gpu merge_from self (Raise e)
       = (Raise e, self') /\
       nvidia_gpus self' = [] /\
       gpu_info_map self' = gpu_info_map self /\
       amd_gpus self' = amd_gpus self /\
       intel_gpus self' = intel_gpus self).
Proof.
  split; [|split; [|split]].
  - intros reports. rewrite universal_detect_spec. eexists.
    split; [reflexivity|]. cbn [nvidia_gpus amd_gpus intel_gpus].
    split; [reflexivity|]. split; [apply length_map|]. split; reflexivity.
  - intros g Hg. unfold nvidia_label.
    destruct (pci_bus_id g) as [pci|]; [|reflexivity].
    cbn in Hg. rewrite Hg. reflexivity.
  - intros g pci Hpci Hne.
    destruct (DetectFacts.get_gpu_index_from_pci_ok pci) as [i Hi].
    exists i. split; [exact Hi|].
    unfold nvidia_label, GPUDisplayHelper.create_display_name.
    rewrite Hpci. cbn [opt_str_truthy].
    assert (Ht : str_truthy pci = true).
    { destruct pci; [contradiction | reflexivity]. }
    rewrite Ht, Hi. reflexivity.
  - intros e. rewrite universal_detect_raise. eexists.
    split; [reflexivity|]. repeat split.
Qed.

(** X19.  The detection loop only adds keys to the device map: the keys
    it had keep their place, the new ones follow, each once, each the
    key of some report and not a key before; afterwards the key of every
    report is in the map. *)
Theorem nvidia_detection_keys (merge_from : GPUInfo -> GPUInfo -> GPUInfo)
    (self : GPUManager) (reports : list GPUInfo) :
  let m := gpu_info_map self in
  let m' := gpu_info_map
              (snd (__universal_detect_nvidia_gpu merge_from self (Ok reports))) in
  exists added,
    map fst m' = (map fst m ++ added)%list /\
    NoDup added /\
    (forall k, In k added ->
               dict_in k m = false /\
               exists g, In g reports /\ nvidia_key g = k) /\
    (forall g, In g reports -> dict_in (nvidia_key g) m' = true).
Proof.
  intros m m'. subst m' m. rewrite universal_detect_spec.
  cbn [snd gpu_info_map].
  destruct (merged_keys merge_from reports (gpu_info_map self))
    as [added [Hk [Hnew [Hall Hnd]]]].
  exists added. split; [exact Hk|]. split; [exact Hnd|]. split.
  - intros k Hka. destruct (Hnew k Hka) as [H1 H2]. split; [|exact H2].
    destruct (dict_in k (gpu_info_map self)) eqn:E; [|reflexivity].
    apply MapFacts.dict_in_iff in E. destruct (H1 E).
  - intros g Hg. apply MapFacts.dict_in_iff. rewrite Hk. exact (Hall g Hg).
Qed.

(** X20.  After the detection loop the entry of a key is the entry it had
    with every report of that key merged in, in report order; for a key
    that was not in the map, the first report of that key with the later
    ones merged in.  So a key no report has keeps its entry, and a new
    device reported once is stored as reported. *)
Theorem nvidia_detection_entries (merge_from : GPUInfo -> GPUInfo -> GPUInfo)
    (self : GPUManager) (reports : list GPUInfo) (k : string) :
  let m := gpu_info_map self in
  let m' := gpu_info_map
              (snd (__universal_detect_nvidia_gpu merge_from self (Ok reports))) in
  dict_get m' k = merged_entry merge_from (dict_get m k) (reports_of k reports) /\
  (reports_of k reports = [] -> dict_get m' k = dict_get m k) /\
  (forall g, dict_get m k = None -> reports_of k reports = [g] ->
             dict_get m' k = Some g).
Proof.
  intros m m'. subst m' m. rewrite universal_detect_spec.
  cbn [snd gpu_info_map].
  rewrite merged_get. split; [reflexivity|]. split.
  - intros ->. destruct (dict_get (gpu_info_map self) k); reflexivity.
  - intros g -> ->. reflexivity.
Qed.

(** X21.  Detecting again with the same reports changes neither the keys
    of the map nor their order, nor the NVIDIA list: a second pass only
    merges. *)
Theorem nvidia_detection_twice (merge_from : GPUInfo -> GPUInfo -> GPUInfo)
    (self : GPUManager) (reports : list GPUInfo) :
  let once := snd (__universal_detect_nvidia_gpu merge_from self (Ok reports)) in
  let twice := snd (__universal_detect_nvidia_gpu merge_from once (Ok reports)) in
  map fst (gpu_info_map twice) = map fst (gpu_info_map once) /\
  nvidia_gpus twice = nvidia_gpus once /\
  amd_gpus twice = amd_gpus once /\
  intel_gpus twice = intel_gpus once.
Proof.
  intros once twice. subst twice once. rewrite !universal_detect_spec.
  cbn [snd gpu_info_map nvidia_gpus amd_gpus intel_gpus].
  split; [|repeat split].
  apply merged_keys_known.
  destruct (merged_keys merge_from reports (gpu_info_map self))
    as [added [Hk [_ [Hall _]]]].
  intros g Hg. rewrite Hk. exact (Hall g Hg).
Qed.

Module WindowsFacts.

Lemma add_gpu_to_list_ok (self : GPUManager) (g : GPUInfo) :
  gpu_type g <> INTEL ->
  exists self1,
    __add_gpu_to_list self g = (Ok tt, self1) /\
    gpu_info_map self1 = gpu_info_map self /\
    intel_gpus self1 = intel_gpus self.
Proof.
  intros Hni. unfold __add_gpu_to_list.
  destruct (gpu_type g); try contradiction.
  - destruct (DetectFacts.nvidia_index_label self g) as [i [Hi _]].
    rewrite Hi. eexists. repeat split.
  - eexists. repeat split.
  - eexists. repeat split.
Qed.

(** The static probe raises nothing, adds keys after those it found,
    leaves the key of every adapter in the map and the Intel list as it
    was. *)
Lemma static_probe_loop_spec (adapters : list Adapter) :
  forall self,
    exists self',
      static_probe_loop self adapters = (Ok tt, self') /\
      intel_gpus self' = intel_gpus self /\
      (forall k, In k (map fst (gpu_info_map self)) ->
                 In k (map fst (gpu_info_map self'))) /\
      (forall a, In a adapters ->
                 In (adapter_key a) (map fst (gpu_info_map self'))).
Proof.
  induction adapters as [|a rest IH]; intros self.
  - exists self. repeat split; [intros k H; exact H | contradiction].
  - cbn [static_probe_loop]. cbv zeta. fold (adapter_key a).
    destruct (dict_in (adapter_key a) (gpu_info_map self)) eqn:Hin;
      cbn [negb].
    + destruct (IH self) as [self' [Hr [Hi [Hold Hall]]]].
      exists self'. split; [exact Hr|]. split; [exact Hi|].
      split; [exact Hold|].
      intros a' [<-|Ha']; [|exact (Hall a' Ha')].
      apply Hold. apply MapFacts.dict_in_iff. exact Hin.
    + match goal with
      | |- context [__add_gpu_to_list self ?g] =>
          destruct (add_gpu_to_list_ok self g
                      (DetectFacts.get_gpu_type_not_intel _))
            as [self1 [Hadd [Hmap Hintel]]];
          rewrite Hadd, Hmap;
          destruct (IH (with_gpu_info_map self1
                          (dict_set (gpu_info_map self) (adapter_key a) g)))
            as [self' [Hr [Hi [Hold Hall]]]]
      end.
      exists self'. split; [exact Hr|].
      cbn [with_gpu_info_map intel_gpus gpu_info_map] in *.
      split; [congruence|].
      assert (Hnew : map fst (dict_set (gpu_info_map self) (adapter_key a)
                                {| index := None;
                                   name := AdapterString a;
                                   gpu_type := get_gpu_type (AdapterString a);
                                   dedicated_gpu_memory := MemorySize a;
                                   avail_dedicated_gpu_memory := None;
                                   pci_bus_id := adapter_pci_bus_id a;
                                   ability := None |})
                     = (map fst (gpu_info_map self) ++ [adapter_key a])%list).
      { apply MapFacts.dict_set_keys_new. unfold dict_in in Hin.
        destruct (dict_get (gpu_info_map self) (adapter_key a));
          [discriminate | reflexivity]. }
      split.
      * intros k Hk. apply Hold. rewrite Hnew. apply in_or_app. left. exact Hk.
      * intros a' [<-|Ha']; [|exact (Hall a' Ha')].
        apply Hold. rewrite Hnew. apply in_or_app. right. left. reflexivity.
Qed.

End WindowsFacts.

Section PlatformFacts.

Variable merge_from : GPUInfo -> GPUInfo -> GPUInfo.

Lemma detect_gpus_windows_spec (self : GPUManager) (probes : Probes)
    (reports : list GPUInfo) :
  nvidia_gpu_info probes = Ok reports ->
  let self1 := after_static_probe self probes in
  detect_gpus_windows merge_from self probes
  = (Ok tt,
     {| gpu_info_map := merged_map merge_from (gpu_info_map self1) reports;
        nvidia_gpus := map nvidia_label reports;
        amd_gpus := match video_controllers probes with
                    | Ok names => rev (filter is_amd_controller names)
                    | Raise _ => amd_gpus self1
                    end;
        intel_gpus := intel_gpus self1 |}).
Proof.
  intros Hn self1. unfold detect_gpus_windows.
  fold (after_static_probe self probes). fold self1.
  rewrite Hn, universal_detect_spec.
  destruct (video_controllers probes); reflexivity.
Qed.

(** What [get_nvidia_gpus()] raises leaves the Windows pass, between the
    two [try] blocks. *)
Lemma detect_gpus_windows_raise (self : GPUManager) (probes : Probes)
    (e : exn) :
  nvidia_gpu_info probes = Raise e ->
  detect_gpus_windows merge_from self probes
  = (Raise e, with_nvidia_gpus (after_static_probe self probes) []).
Proof.
  intros Hn. unfold detect_gpus_windows.
  fold (after_static_probe self probes).
  rewrite Hn, universal_detect_raise. reflexivity.
Qed.

Lemma after_static_probe_intel (self : GPUManager) (probes : Probes) :
  intel_gpus (after_static_probe self probes) = intel_gpus self.
Proof.
  unfold after_static_probe. destruct (adapter_values probes) as [l|e];
    [|reflexivity].
  destruct (WindowsFacts.static_probe_loop_spec l self) as [s' [Hr [Hi _]]].
  rewrite Hr. exact Hi.
Qed.

(** The static probe keeps the keys of the map and files every adapter
    it was given. *)
Lemma after_static_probe_keys (self : GPUManager) (probes : Probes) :
  (forall k, In k (map fst (gpu_info_map self)) ->
             In k (map fst (gpu_info_map (after_static_probe self probes)))) /\
  (forall adapters a,
     adapter_values probes = Ok adapters -> In a adapters ->
     In (adapter_key a)
        (map fst (gpu_info_map (after_static_probe self probes)))).
Proof.
  unfold after_static_probe. split.
  - intros k Hin. destruct (adapter_values probes) as [l|e]; [|exact Hin].
    destruct (WindowsFacts.static_probe_loop_spec l self)
      as [s' [Hr [_ [Hold _]]]].
    rewrite Hr. exact (Hold k Hin).
  - intros adapters a Ha Hin. rewrite Ha.
    destruct (WindowsFacts.static_probe_loop_spec adapters self)
      as [s' [Hr [_ [_ Hall]]]].
    rewrite Hr. exact (Hall a Hin).
Qed.

End PlatformFacts.

Module UnpackFacts.
Import GPUDisplayHelper.

(** [parse_display_name] raises on the labels it cannot unpack, and on no
    other. *)
Lemma parse_display_name_unpack (label : string) :
  if unpack_fails label
  then parse_display_name label = Raise ValueError
  else exists p, parse_display_name label = Ok p.
Proof.
  unfold unpack_fails, parse_display_name.
  destruct (PyStr.contains marker label && PyStr.contains ")" label);
    cbn [andb]; [|eexists; reflexivity].
  destruct (PyStr.split marker label) as [|f1 [|f2 [|f3 fs]]];
    cbn [List.length Nat.eqb negb]; try reflexivity.
  destruct (PyStr.int (PyStr.rstrip ")" f2) 10) as [v|e] eqn:E;
    [eexists; reflexivity|].
  rewrite (IntFacts.int_raise _ _ _ E). eexists. reflexivity.
Qed.

End UnpackFacts.

(** X22.  No detection pass lists an Intel device: [detect_gpus] leaves
    the Intel list as it was on every platform and whatever the probes
    report or raise, and a manager comes out of its constructor with an
    empty Intel list. *)
Theorem detection_never_lists_intel
    (merge_from : GPUInfo -> GPUInfo -> GPUInfo)
    (self : GPUManager) (probes : Probes) :
  intel_gpus (snd (detect_gpus merge_from self probes)) = intel_gpus self /\
  intel_gpus (snd (GPUManager_init merge_from probes)) = [].
Proof.
  assert (H : forall s, intel_gpus (snd (detect_gpus merge_from s probes))
                        = intel_gpus s).
  { intros s. unfold detect_gpus.
    destruct (String.eqb (platform_system probes) "Windows").
    - destruct (nvidia_gpu_info probes) as [reports|e] eqn:Hn.
      + rewrite (detect_gpus_windows_spec merge_from s probes reports Hn).
        cbn [snd intel_gpus]. apply after_static_probe_intel.
      + rewrite (detect_gpus_windows_raise merge_from s probes e Hn).
        cbn [snd with_nvidia_gpus intel_gpus]. apply after_static_probe_intel.
    - destruct (String.eqb (platform_system probes) "Linux"); [|reflexivity].
      unfold detect_gpus_linux.
      destruct (nvidia_gpu_info probes) as [reports|e].
      + rewrite universal_detect_spec. reflexivity.
      + rewrite universal_detect_raise. reflexivity. }
  split; [apply H|]. unfold GPUManager_init. rewrite H. reflexivity.
Qed.

(** X23.  On Windows what the static probe and the listing of the video
    controllers raise is caught; the pass raises exactly when
    [get_nvidia_gpus()] raises, and then with its exception, the NVIDIA
    list emptied and the controllers not listed ([merge_from] being
    taken as a function that returns).  When [get_nvidia_gpus()] returns,
    the pass returns and the NVIDIA list it leaves is made of those
    reports alone: what the static probe listed is dropped.  Either way
    the map keeps every key it had and holds the key of every adapter
    the static probe returned, so an NVIDIA adapter that
    [get_nvidia_gpus()] does not report is in the map without a label in
    the list. *)
Theorem windows_detection_nvidia
    (merge_from : GPUInfo -> GPUInfo -> GPUInfo)
    (self : GPUManager) (probes : Probes) :
  let r := detect_gpus_windows merge_from self probes in
  (forall reports,
     nvidia_gpu_info probes = Ok reports ->
     fst r = Ok tt /\ nvidia_gpus (snd r) = map nvidia_label reports) /\
  (forall e,
     nvidia_gpu_info probes = Raise e ->
     fst r = Raise e /\
     nvidia_gpus (snd r) = [] /\
     amd_gpus (snd r) = amd_gpus (after_static_probe self probes)) /\
  (forall k, dict_in k (gpu_info_map self) = true ->
             dict_in k (gpu_info_map (snd r)) = true) /\
  (forall adapters a,
     adapter_values probes = Ok adapters -> In a adapters ->
     dict_in (adapter_key a) (gpu_info_map (snd r)) = true).
Proof.
  intro r. subst r.
  destruct (after_static_probe_keys self probes) as [Hold Hall].
  destruct (nvidia_gpu_info probes) as [reports|e] eqn:Hn.
  - rewrite (detect_gpus_windows_spec merge_from self probes reports Hn).
    cbv zeta. cbn [fst snd nvidia_gpus gpu_info_map].
    split; [intros ? [= <-]; split; reflexivity|].
    split; [intros ? [=]|].
    destruct (merged_keys merge_from reports
                (gpu_info_map (after_static_probe self probes)))
      as [added [Hk _]].
    assert (Hmono : forall k,
               In k (map fst (gpu_info_map (after_static_probe self probes))) ->
               dict_in k (merged_map merge_from
                            (gpu_info_map (after_static_probe self probes))
                            reports) = true).
    { intros k Hin. apply MapFacts.dict_in_iff. rewrite Hk.
      apply in_or_app. left. exact Hin. }
    split.
    + intros k Hin. apply Hmono, Hold. apply MapFacts.dict_in_iff. exact Hin.
    + intros adapters a Ha Hin. apply Hmono. exact (Hall adapters a Ha Hin).
  - rewrite (detect_gpus_windows_raise merge_from self probes e Hn).
    cbn [fst snd with_nvidia_gpus nvidia_gpus amd_gpus gpu_info_map].
    split; [intros ? [=]|].
    split; [intros ? [= <-]; repeat split|].
    split.
    + intros k Hin. apply MapFacts.dict_in_iff, Hold.
      apply MapFacts.dict_in_iff. exact Hin.
    + intros adapters a Ha Hin. apply MapFacts.dict_in_iff.
      exact (Hall adapters a Ha Hin).
Qed.

(** X24.  On Windows, when [get_nvidia_gpus()] returns and the video
    controllers are listed, the AMD list becomes the names holding [AMD]
    or [ATI] (in that case of letters), in the reverse of the listing
    order, and replaces what was there; when that listing and the static
    probe both raise, the AMD list is as it was. *)
Theorem windows_detection_amd
    (merge_from : GPUInfo -> GPUInfo -> GPUInfo)
    (self : GPUManager) (probes : Probes) :
  let self' := snd (detect_gpus_windows merge_from self probes) in
  (forall reports names,
     nvidia_gpu_info probes = Ok reports ->
     video_controllers probes = Ok names ->
     amd_gpus self' = rev (filter is_amd_controller names) /\
     (forall n, In n (amd_gpus self') <->
                In n names /\ is_amd_controller n = true)) /\
  (forall e e',
     video_controllers probes = Raise e -> adapter_values probes = Raise e' ->
     amd_gpus self' = amd_gpus self).
Proof.
  intro self'. subst self'. split.
  - intros reports names Hn Hv.
    rewrite (detect_gpus_windows_spec merge_from self probes reports Hn).
    cbn [snd amd_gpus]. rewrite Hv. split; [reflexivity|].
    intros n. rewrite <- in_rev, filter_In. reflexivity.
  - intros e e' Hv Ha.
    assert (Hsame : after_static_probe self probes = self).
    { unfold after_static_probe. rewrite Ha. reflexivity. }
    destruct (nvidia_gpu_info probes) as [reports|en] eqn:Hn.
    + rewrite (detect_gpus_windows_spec merge_from self probes reports Hn).
      cbn [snd amd_gpus]. rewrite Hv, Hsame. reflexivity.
    + rewrite (detect_gpus_windows_raise merge_from self probes en Hn).
      rewrite Hsame. reflexivity.
Qed.

(** X25.  On a platform other than Windows and Linux the constructor
    returns whatever the probes would do, and leaves an empty map and
    empty lists.  On that manager a capacity check raises [ValueError]
    when the label holds the marker and a closing parenthesis and its
    split on the marker has other than two fields, and answers not-found
    for every other label, the manager unchanged either way;
    [set_gpu_env] raises [ValueError] on the same labels and returns the
    environment as given on the others. *)
Theorem unsupported_platform_finds_nothing
    (merge_from : GPUInfo -> GPUInfo -> GPUInfo)
    (calculate_sizes : ModelConfig -> result Sizes) (SAKURA_LIST : list Sakura)
    (probes : Probes) (label model_name : string) (ctx np : option Z)
    (env : dict string) (idx : Z) :
  platform_system probes <> "Windows" ->
  platform_system probes <> "Linux" ->
  exists self,
    GPUManager_init merge_from probes = (Ok tt, self) /\
    gpu_info_map self = [] /\ nvidia_gpus self = [] /\ amd_gpus self = [] /\
    intel_gpus self = [] /\
    (unpack_fails label = true ->
     check_gpu_ability calculate_sizes SAKURA_LIST self label model_name
       ctx np = (Raise ValueError, self) /\
     set_gpu_env self env label idx = Raise ValueError) /\
    (unpack_fails label = false ->
     check_gpu_ability calculate_sizes SAKURA_LIST self label model_name
       ctx np
     = (Ok {| is_capable := false; reason := Msg.not_found |}, self) /\
     set_gpu_env self env label idx = Ok env).
Proof.
  intros Hw Hl. unfold GPUManager_init, detect_gpus.
  destruct (String.eqb_spec (platform_system probes) "Windows");
    [contradiction|].
  destruct (String.eqb_spec (platform_system probes) "Linux");
    [contradiction|].
  eexists. split; [reflexivity|].
  cbn [gpu_info_map nvidia_gpus amd_gpus intel_gpus].
  repeat (split; [reflexivity|]).
  unfold check_gpu_ability, set_gpu_env, GPUDisplayHelper.find_gpu_key.
  cbn [gpu_info_map dict_in dict_get].
  pose proof (UnpackFacts.parse_display_name_unpack label) as Hp.
  split; intros Hu; rewrite Hu in Hp.
  - rewrite Hp. split; reflexivity.
  - destruct Hp as [[gpu_name gpu_index] Hp]. rewrite Hp. split; reflexivity.
Qed.

(** A label with the marker twice and a closing parenthesis, on a host
    where every probe would raise. *)
Lemma unsupported_platform_finds_nothing_witness :
  let probes := {| platform_system := "Darwin";
                   nvidia_gpu_info := Raise (OtherException "nvidia-smi");
                   adapter_values := Raise (OtherException "windows");
                   video_controllers := Raise (OtherException "wmi") |} in
  exists self,
    GPUManager_init (fun existing _ => existing) probes = (Ok tt, self) /\
    gpu_info_map self = [] /\
    fst (check_gpu_ability Fixture.linear_calculator BusyCard.catalogue self
           "NVIDIA GeForce RTX 3090 (GPU 1)" "sakura.gguf" None None)
    = Ok {| is_capable := false; reason := Msg.not_found |} /\
    set_gpu_env self [] "A (GPU 1) (GPU 2)" 0 = Raise ValueError /\
    set_gpu_env self [] "A (GPU 1 (GPU 2" 0 = Ok [].
Proof.
  intro probes.
  destruct (unsupported_platform_finds_nothing (fun existing _ => existing)
              Fixture.linear_calculator BusyCard.catalogue probes
              "NVIDIA GeForce RTX 3090 (GPU 1)" "sakura.gguf" None None [] 0
              ltac:(discriminate) ltac:(discriminate))
    as [self [Hinit [Hmap [_ [_ [_ [_ Hok]]]]]]].
  exists self. split; [exact Hinit|]. split; [exact Hmap|].
  injection Hinit as <-. split; [|split].
  - rewrite (proj1 (Hok eq_refl)). reflexivity.
  - reflexivity.
  - reflexivity.
Defined.

(** ** The model catalogue *)

Module CatalogueFacts.

Lemma build_sakura_raise (obj : SakuraObj) (e : exn) :
  build_sakura obj = Raise e -> e = KeyError.
Proof.
  unfold build_sakura, obj_getitem.
  destruct obj as [[?|] [?|] [?|] [?|] [?|] [?|] [?|] [?|] [?|]];
    cbn [bind obj_repo obj_filename obj_sha256 obj_minimal_gpu_memory_gib
         obj_size obj_recommended_np obj_base_model_hf obj_bpw
         obj_config_cache];
    intros [= <-]; reflexivity.
Qed.

Lemma build_sakura_filename (obj : SakuraObj) (s : Sakura) :
  build_sakura obj = Ok s -> obj_filename obj = Some (filename s).
Proof.
  unfold build_sakura, obj_getitem.
  destruct obj as [[?|] [?|] [?|] [?|] [?|] [?|] [?|] [?|] [?|]];
    cbn [bind obj_repo obj_filename obj_sha256 obj_minimal_gpu_memory_gib
         obj_size obj_recommended_np obj_base_model_hf obj_bpw
         obj_config_cache];
    intros [= <-]; reflexivity.
Qed.

Lemma SakuraList_getitem_app (l1 l2 : list Sakura) (name : string) :
  SakuraList_getitem (l1 ++ l2)%list name
  = match SakuraList_getitem l1 name with
    | Some s => Some s
    | None => SakuraList_getitem l2 name
    end.
Proof.
  induction l1 as [|s l1 IH]; simpl; [reflexivity|].
  destruct (String.eqb (filename s) name); [reflexivity | exact IH].
Qed.

(** The loop on objects that all build: the models in object order, after
    those already collected; a look-up finds the model of the first
    object of that file name. *)
Lemma build_sakura_list_ok (objs : list SakuraObj) :
  forall acc,
    (forall obj, In obj objs -> exists s, build_sakura obj = Ok s) ->
    exists l,
      build_sakura_list objs acc = Ok (acc ++ l)%list /\
      List.length l = List.length objs /\
      forall name,
        SakuraList_getitem l name
        = match first_named name objs with
          | Some obj =>
              match build_sakura obj with
              | Ok s => Some s
              | Raise _ => None
              end
          | None => None
          end.
Proof.
  induction objs as [|obj rest IH]; intros acc Hall.
  - exists []. rewrite app_nil_r. repeat split.
  - destruct (Hall obj (or_introl eq_refl)) as [s Hs].
    cbn [build_sakura_list]. rewrite Hs. cbn [bind].
    destruct (IH (acc ++ [s])%list (fun o Ho => Hall o (or_intror Ho)))
      as [l [Hl [Hlen Hget]]].
    exists (s :: l). rewrite Hl, <- app_assoc. split; [reflexivity|].
    split; [simpl; rewrite Hlen; reflexivity|].
    intros name. unfold first_named. cbn [find SakuraList_getitem].
    rewrite (build_sakura_filename obj s Hs).
    destruct (String.eqb (filename s) name); [rewrite Hs; reflexivity|].
    apply Hget.
Qed.

(** The loop raises [KeyError] as soon as one object does not build. *)
Lemma build_sakura_list_raise (objs : list SakuraObj) :
  forall acc obj e,
    In obj objs -> build_sakura obj = Raise e ->
    build_sakura_list objs acc = Raise KeyError.
Proof.
  induction objs as [|o rest IH]; intros acc obj e Hin Hr; [contradiction|].
  cbn [build_sakura_list].
  destruct (build_sakura o) as [s|e'] eqn:Ho; cbn [bind].
  - destruct Hin as [->|Hin]; [congruence|]. exact (IH _ obj e Hin Hr).
  - rewrite (build_sakura_raise o e' Ho). reflexivity.
Qed.

End CatalogueFacts.

(** X26.  When every object of the update has the nine keys,
    [update_sakura_list] replaces the catalogue by one model per object,
    in object order, and emits that list once; a look-up by file name
    then gives the model built from the first object of that name, and
    [None] when no object has it, whatever the catalogue held before. *)
Theorem update_sakura_list_lookup (self : SakuraList) (objs : list SakuraObj) :
  (forall obj, In obj objs -> exists s, build_sakura obj = Ok s) ->
  exists self',
    update_sakura_list self (Some objs) = (Ok tt, self') /\
    List.length (_list self') = List.length objs /\
    changed_emitted self' = (changed_emitted self ++ [_list self'])%list /\
    forall name,
      SakuraList_getitem (_list self') name
      = match first_named name objs with
        | Some obj =>
            match build_sakura obj with
            | Ok s => Some s
            | Raise _ => None
            end
        | None => None
        end.
Proof.
  intros Hall. unfold update_sakura_list. cbn [obj_getitem].
  destruct (CatalogueFacts.build_sakura_list_ok objs [] Hall)
    as [l [Hl [Hlen Hget]]].
  rewrite Hl. cbn [app]. eexists. split; [reflexivity|].
  cbn [_list changed_emitted]. repeat split; assumption.
Qed.

Lemma update_sakura_list_lookup_witness :
  let objs := [CatalogueExample.obj "a.gguf" 8; CatalogueExample.obj "b.gguf" 16;
               CatalogueExample.obj "a.gguf" 24] in
  exists self',
    update_sakura_list CatalogueExample.old (Some objs) = (Ok tt, self') /\
    SakuraList_getitem (_list self') "a.gguf" = Some (Fixture.model "a.gguf" 8) /\
    SakuraList_getitem (_list self') "old.gguf" = None.
Proof.
  intro objs.
  destruct (update_sakura_list_lookup CatalogueExample.old objs)
    as [self' [Hup [_ [_ Hget]]]].
  { intros obj Hin.
    repeat (destruct Hin as [<-|Hin]; [eexists; reflexivity|]).
    destruct Hin. }
  exists self'. split; [exact Hup|].
  split; [rewrite Hget; reflexivity | rewrite Hget; reflexivity].
Defined.

(** X27.  An update is all or nothing: when the key [sakura] is missing,
    or one object lacks one of the nine keys, [update_sakura_list] raises
    [KeyError], the catalogue is what it was and nothing is emitted,
    also when objects before the incomplete one were complete. *)
Theorem update_sakura_list_incomplete (self : SakuraList)
    (objs : list SakuraObj) (obj : SakuraObj) (e : exn) :
  In obj objs ->
  build_sakura obj = Raise e ->
  update_sakura_list self (Some objs) = (Raise KeyError, self) /\
  update_sakura_list self None = (Raise KeyError, self).
Proof.
  intros Hin Hr. unfold update_sakura_list. cbn [obj_getitem].
  rewrite (CatalogueFacts.build_sakura_list_raise objs [] obj e Hin Hr).
  split; reflexivity.
Qed.

Lemma update_sakura_list_incomplete_witness :
  let broken :=
    {| obj_repo := Some "repo"; obj_filename := Some "c.gguf";
       obj_sha256 := Some ""; obj_minimal_gpu_memory_gib := Some 8;
       obj_size := Some (inject_Z 0); obj_recommended_np := Some [];
       obj_base_model_hf := Some "base"; obj_bpw := None;
       obj_config_cache := Some None |} in
  update_sakura_list CatalogueExample.old
    (Some [CatalogueExample.obj "a.gguf" 8; broken])
  = (Raise KeyError, CatalogueExample.old).
Proof.
  intro broken.
  exact (proj1 (update_sakura_list_incomplete CatalogueExample.old
                  [CatalogueExample.obj "a.gguf" 8; broken] broken KeyError
                  (or_intror (or_introl eq_refl)) eq_refl)).
Defined.

(** ** Settings *)

Module SettingFacts.

Lemma dict_get_not_In {V : Type} (d : dict V) (k : string) :
  ~ In k (map fst d) -> dict_get d k = None.
Proof.
  intros H. destruct (dict_get d k) as [v|] eqn:E; [|reflexivity].
  exfalso. apply H. apply MapFacts.dict_in_iff. unfold dict_in.
  rewrite E. reflexivity.
Qed.

(** After [d.update(settings)] a key has the value [settings] gives it,
    else the value it had. *)
Lemma dict_update_get {V : Type} (settings : dict V) :
  NoDup (map fst settings) ->
  forall (d : dict V) (k : string),
    dict_get (dict_update d settings) k
    = match dict_get settings k with
      | Some v => Some v
      | None => dict_get d k
      end.
Proof.
  unfold dict_update.
  induction settings as [|[k1 v1] rest IH]; intros Hnd d k; [reflexivity|].
  inversion Hnd as [|? ? Hnin Hnd']; subst.
  cbn [fold_left fst snd dict_get]. rewrite (IH Hnd').
  destruct (String.eqb_spec k1 k) as [->|Hne].
  - rewrite (dict_get_not_In rest k Hnin). apply DictFacts.get_set_same.
  - destruct (dict_get rest k); [reflexivity|].
    apply DictFacts.get_set_other. congruence.
Qed.

(** [update] keeps the keys of the dictionary where they are. *)
Lemma dict_update_keys {V : Type} (settings : dict V) :
  forall d : dict V,
    exists added, map fst (dict_update d settings) = (map fst d ++ added)%list.
Proof.
  unfold dict_update.
  induction settings as [|[k1 v1] rest IH]; intros d.
  - exists []. rewrite app_nil_r. reflexivity.
  - cbn [fold_left fst snd].
    destruct (IH (dict_set d k1 v1)) as [added Ha]. rewrite Ha.
    destruct (dict_get d k1) as [v0|] eqn:E.
    + rewrite (CheckFacts.dict_set_keys d k1 v0 v1 E). exists added.
      reflexivity.
    + rewrite (MapFacts.dict_set_keys_new d k1 v1 E), <- app_assoc.
      eexists. reflexivity.
Qed.

Lemma saved_settings_NoDup (self : Setting) : NoDup (map fst (saved_settings self)).
Proof.
  cbn. repeat (constructor; [cbn; intuition discriminate|]). constructor.
Qed.

Lemma save_settings_readable (self : Setting) (file : ConfigFile)
    (members : dict json) :
  _read_settings file = JObject members ->
  save_settings self file
  = (Ok tt, FileJson (JObject (dict_update members (saved_settings self)))).
Proof. intros H. unfold save_settings. cbv zeta. rewrite H. reflexivity. Qed.

End SettingFacts.

(** X28.  Saving and loading again restores seven of the eight settings.
    [model_search_paths] is written under the key [model_search_path] and
    read under [model_search_paths]: what comes back is what the file
    held under the latter key before the save, or the empty text, not
    the value saved. *)
Theorem save_then_load (self other : Setting) (file : ConfigFile)
    (members : dict json) :
  _read_settings file = JObject members ->
  exists file' self',
    save_settings self file = (Ok tt, file') /\
    _load_settings other file' = (Ok tt, self') /\
    llamacpp_path self' = llamacpp_path self /\
    model_sort_option self' = model_sort_option self /\
    remember_window_state self' = remember_window_state self /\
    remember_advanced_state self' = remember_advanced_state self /\
    no_gpu_ability_check self' = no_gpu_ability_check self /\
    window_geometry self' = window_geometry self /\
    advanced_state self' = advanced_state self /\
    model_search_paths self'
    = match dict_get members "model_search_paths" with
      | Some v => v
      | None => JString ""
      end.
Proof.
  intros Hread.
  rewrite (SettingFacts.save_settings_readable self file members Hread).
  eexists. eexists. split; [reflexivity|].
  unfold _load_settings, json_get. cbv zeta.
  cbn [_read_settings bind].
  rewrite !(SettingFacts.dict_update_get _
              (SettingFacts.saved_settings_NoDup self)).
  cbn [saved_settings dict_get String.eqb Ascii.eqb Bool.eqb].
  split; [reflexivity|].
  cbn [llamacpp_path model_search_paths model_sort_option
       remember_window_state remember_advanced_state no_gpu_ability_check
       window_geometry advanced_state].
  repeat split.
Qed.

Lemma save_then_load_witness :
  let self := {| llamacpp_path := JString "C:/llama";
                 model_search_paths := JString "D:/models";
                 model_sort_option := JString "name";
                 remember_window_state := JBool true;
                 remember_advanced_state := JBool false;
                 no_gpu_ability_check := JBool true;
                 window_geometry := JNull;
                 advanced_state := JBool true |} in
  exists file' self',
    save_settings self FileMissing = (Ok tt, file') /\
    _load_settings Setting_defaults file' = (Ok tt, self') /\
    llamacpp_path self' = JString "C:/llama" /\
    no_gpu_ability_check self' = JBool true /\
    model_search_paths self' = JString "".
Proof.
  intro self.
  destruct (save_then_load self Setting_defaults FileMissing [] eq_refl)
    as [file' [self' [Hs [Hl [H1 [_ [_ [_ [H5 [_ [_ H8]]]]]]]]]]].
  exists file', self'.
  split; [exact Hs|]. split; [exact Hl|].
  split; [exact H1|]. split; [exact H5 | exact H8].
Defined.

(** X29.  [save_settings] on a file holding an object writes an object
    where each of the eight saved keys has the attribute's value, every
    other key of the file keeps its value, and the keys the file had stay
    in their places, new ones coming after them. *)
Theorem save_settings_keeps_other_keys (self : Setting) (file : ConfigFile)
    (members : dict json) :
  _read_settings file = JObject members ->
  exists members',
    save_settings self file = (Ok tt, FileJson (JObject members')) /\
    (forall key v, dict_get (saved_settings self) key = Some v ->
                   dict_get members' key = Some v) /\
    (forall key, ~ In key (map fst (saved_settings self)) ->
                 dict_get members' key = dict_get members key) /\
    (exists added, map fst members' = (map fst members ++ added)%list).
Proof.
  intros Hread.
  rewrite (SettingFacts.save_settings_readable self file members Hread).
  eexists. split; [reflexivity|].
  split; [|split].
  - intros key v Hk.
    rewrite (SettingFacts.dict_update_get _
               (SettingFacts.saved_settings_NoDup self)), Hk.
    reflexivity.
  - intros key Hk.
    rewrite (SettingFacts.dict_update_get _
               (SettingFacts.saved_settings_NoDup self)).
    rewrite (SettingFacts.dict_get_not_In _ _ Hk). reflexivity.
  - apply SettingFacts.dict_update_keys.
Qed.

Lemma save_settings_keeps_other_keys_witness :
  exists members',
    save_settings Setting_defaults
      (FileJson (JObject [("theme", JString "dark");
                          ("llamacpp_path", JString "C:/old")]))
    = (Ok tt, FileJson (JObject members')) /\
    dict_get members' "theme" = Some (JString "dark") /\
    dict_get members' "llamacpp_path" = Some (JString "") /\
    exists added, map fst members' = (["theme"; "llamacpp_path"] ++ added)%list.
Proof.
  destruct (save_settings_keeps_other_keys Setting_defaults
              (FileJson (JObject [("theme", JString "dark");
                                  ("llamacpp_path", JString "C:/old")]))
              _ eq_refl)
    as [members' [Hs [Hset [Hkeep Hkeys]]]].
  exists members'. split; [exact Hs|].
  split; [|split].
  - rewrite (Hkeep "theme"); [reflexivity|].
    cbn. intuition discriminate.
  - apply Hset. reflexivity.
  - exact Hkeys.
Defined.

(** X30.  When the file holds a JSON text that is not an object (a list, a
    number, a text, [null]), saving and loading both raise
    [AttributeError]; the file and the object are left as they were. *)
Theorem settings_file_not_an_object (self : Setting) (content : json) :
  is_object content = false ->
  save_settings self (FileJson content)
  = (Raise AttributeError, FileJson content) /\
  _load_settings self (FileJson content) = (Raise AttributeError, self).
Proof.
  intros H. destruct content; try discriminate H; split; reflexivity.
Qed.

Lemma settings_file_not_an_object_witness :
  save_settings Setting_defaults (FileJson (JList []))
  = (Raise AttributeError, FileJson (JList [])) /\
  _load_settings Setting_defaults (FileJson (JList []))
  = (Raise AttributeError, Setting_defaults).
Proof.
  apply (settings_file_not_an_object Setting_defaults (JList [])).
  reflexivity.
Defined.
